(** * rtcclient.workitem: the conditional read-modify-write engine

    A shallow embedding of [rtcclient/workitem.py] (class [Workitem]):
    the subscriber mutations ([addSubscriber], [addSubscribers],
    [removeSubscriber], [removeSubscribers] and their helpers), the comment
    operations ([getCommentByID], [addComment]) and the properties that the
    specification states about them.

    Python values are an inductive type, [OrderedDict]s are association
    lists in insertion order, exceptions are a sum type, and every call to
    a collaborator (HTTP transport, person lookup) is recorded in a trace. *)

From Stdlib Require Import ZArith List String Ascii Bool Lia.
From Stdlib Require Import DecimalString.
From Stdlib Require DecimalPos.
Import ListNotations.
Open Scope string_scope.
Open Scope Z_scope.
Set Warnings "-register-all".

(** ** Python values *)

(** The values the methods can receive as arguments or find in a parsed
    document.  [PDict] is an [OrderedDict]: keys in insertion order. *)
Inductive pyval : Type :=
| PNone
| PBool (b : bool)
| PInt (z : Z)
| PStr (s : string)
| PList (l : list pyval)
| PDict (d : list (string * pyval)).

Definition dict := list (string * pyval).

(** Induction over the nesting of lists and dictionaries. *)
Section PyvalInd.
Variable P : pyval -> Prop.
Hypothesis HNone : P PNone.
Hypothesis HBool : forall b, P (PBool b).
Hypothesis HInt : forall z, P (PInt z).
Hypothesis HStr : forall s, P (PStr s).
Hypothesis HList : forall l, Forall P l -> P (PList l).
Hypothesis HDict : forall d, Forall (fun kv => P (snd kv)) d -> P (PDict d).

Fixpoint pyval_nested_ind (v : pyval) : P v :=
  match v with
  | PNone => HNone
  | PBool b => HBool b
  | PInt z => HInt z
  | PStr s => HStr s
  | PList l =>
      HList l ((fix go (l : list pyval) : Forall P l :=
                  match l with
                  | [] => Forall_nil _
                  | x :: r => Forall_cons x (pyval_nested_ind x) (go r)
                  end) l)
  | PDict d =>
      HDict d ((fix go (d : dict) : Forall (fun kv => P (snd kv)) d :=
                  match d with
                  | [] => Forall_nil _
                  | kv :: r =>
                      Forall_cons kv (pyval_nested_ind (snd kv)) (go r)
                  end) d)
  end.
End PyvalInd.

(** Python's [==].  [bool] is a subclass of [int]; two [OrderedDict]s are
    equal when they hold equal items in the same order. *)
Fixpoint py_eqb (a b : pyval) : bool :=
  match a, b with
  | PNone, PNone => true
  | PBool x, PBool y => Bool.eqb x y
  | PBool x, PInt y => (if x then 1 else 0) =? y
  | PInt x, PBool y => x =? (if y then 1 else 0)
  | PInt x, PInt y => x =? y
  | PStr x, PStr y => String.eqb x y
  | PList l1, PList l2 =>
      (fix go (l1 l2 : list pyval) : bool :=
         match l1, l2 with
         | [], [] => true
         | x :: r1, y :: r2 => py_eqb x y && go r1 r2
         | _, _ => false
         end) l1 l2
  | PDict d1, PDict d2 =>
      (fix go (d1 d2 : dict) : bool :=
         match d1, d2 with
         | [], [] => true
         | (k1, x) :: r1, (k2, y) :: r2 =>
             String.eqb k1 k2 && py_eqb x y && go r1 r2
         | _, _ => false
         end) d1 d2
  | _, _ => false
  end.

(** ** OrderedDict operations *)

(** [d.get(k)] / [d.get(k, None)]: a missing key reads as [None]. *)
Fixpoint dict_find (d : dict) (k : string) : option pyval :=
  match d with
  | [] => None
  | (k', v) :: r => if String.eqb k' k then Some v else dict_find r k
  end.

Definition dict_get (d : dict) (k : string) : pyval :=
  match dict_find d k with
  | Some v => v
  | None => PNone
  end.

(** [d[k] = v]: an existing key keeps its position, a new key goes last. *)
Fixpoint dict_set (d : dict) (k : string) (v : pyval) : dict :=
  match d with
  | [] => [(k, v)]
  | (k', v') :: r =>
      if String.eqb k' k then (k', v) :: r else (k', v') :: dict_set r k v
  end.

(** [d.pop(k)] for a key that is present: afterwards the key is not in
    the mapping. *)
Definition dict_pop (d : dict) (k : string) : dict :=
  filter (fun kv => negb (String.eqb (fst kv) k)) d.

(** ** Exceptions *)

(** The messages with which [exception.BadValue] is raised in this file. *)
Inductive bad_value : Type :=
| InvalidCommentId                 (* "Please input valid comment id" *)
| CommentNotExist (comment_id : Z) (* "Comment %s does not exist" *)
| NotIterable                      (* "... 'emails_list' is not iterable" *)
| InvalidEmail (email : pyval).    (* "Please specify a valid email ..." *)

Inductive exn : Type :=
| BadValue (m : bad_value)
| NotFound (msg : string)
| HTTPError
| KeyError (k : string)
| TypeError
| AttributeError
| ValueError
| OtherError (msg : string).

Inductive result (A : Type) : Type :=
| Ok (a : A)
| Raise (e : exn).
Arguments Ok {A} a.
Arguments Raise {A} e.

(** ** Built-ins *)

(** The conversions between text and numbers are the interpreter's own:
    which texts [int] reads (blanks, signs, underscores, the decimal
    digits of every script) and the length up to which it reads or prints
    a number depend on its version, its character tables and its
    settings.  They are taken as they are; [None] is their [ValueError]. *)
Record Interp : Type := {
  (** [int(s)] for a string *)
  int_of_str : string -> option Z;
  (** ["%s" % n] for an integer *)
  str_of_int : Z -> option string
}.

(** [s.split(sep)]: the pieces between the separators, never empty. *)
Fixpoint split_on (sep : ascii) (s : string) : list string :=
  match s with
  | EmptyString => [EmptyString]
  | String c r =>
      if Ascii.eqb c sep then EmptyString :: split_on sep r
      else match split_on sep r with
           | [] => [String c EmptyString]
           | h :: t => String c h :: t
           end
  end.

(** [s.split("/")[-1]]. *)
Definition last_segment (s : string) : string :=
  last (split_on "/" s) EmptyString.

(** [isinstance(v, six.string_types)] *)
Definition is_string (v : pyval) : bool :=
  match v with PStr _ => true | _ => false end.

(** ["@" in s] *)
Fixpoint contains_at (s : string) : bool :=
  match s with
  | EmptyString => false
  | String c r => Ascii.eqb c "@" || contains_at r
  end.

(** [hasattr(v, "__iter__")] together with the items a [for] loop visits:
    the elements of a list, the characters of a string, the keys of a
    dictionary.  [None] when the value is not iterable. *)
Definition py_iter (v : pyval) : option (list pyval) :=
  match v with
  | PList l => Some l
  | PStr s => Some (map (fun c => PStr (String c EmptyString))
                        (list_ascii_of_string s))
  | PDict d => Some (map (fun kv => PStr (fst kv)) d)
  | _ => None
  end.

(** [v.get(k)]: only mappings have the method. *)
Definition py_get (v : pyval) (k : string) : result pyval :=
  match v with
  | PDict d => Ok (dict_get d k)
  | _ => Raise AttributeError
  end.

(** [v[k]] with a string key. *)
Definition py_getitem (v : pyval) (k : string) : result pyval :=
  match v with
  | PDict d => match dict_find d k with
               | Some x => Ok x
               | None => Raise (KeyError k)
               end
  | _ => Raise TypeError
  end.

(** ["/".join(parts)] and ["".join(parts)] *)
Definition join_slash (parts : list string) : string :=
  String.concat "/" parts.
Definition join_empty (parts : list string) : string :=
  String.concat EmptyString parts.

(** ** Collaborators and traces *)

(** What the code reads from a [requests] response. *)
Record Response : Type := { content : string; resp_headers : dict }.

(** What the code reads from the person object that
    [rtc_obj.getOwnedBy] returns. *)
Record Member : Type := { member_url : string; member_email : string }.

(** The collaborators of a work item: the HTTP methods inherited from
    [FieldBase] (they raise on a status that is not a success), the client
    object [rtc_obj], and the [xmltodict] codec.  They are parameters of the
    embedding; each field gives the outcome of one call. *)
Record Collab : Type := {
  rtc_headers : dict;
  http_get : string -> dict -> result Response;
  http_put : string -> dict -> string -> result Response;
  http_post : string -> dict -> string -> result Response;
  getOwnedBy : string -> result Member;
  fetch_resource : string -> result pyval;
  xmltodict_parse : string -> result pyval;
  xmltodict_unparse : pyval -> result string
}.

(** One entry per call that leaves the process. *)
Inductive event : Type :=
| EvGet (url : string) (headers : dict)
| EvPut (url : string) (headers : dict) (data : string)
| EvPost (url : string) (headers : dict) (data : string)
| EvOwnedBy (email : string)
| EvFetch (url : string).

Definition is_get (e : event) : bool :=
  match e with EvGet _ _ => true | _ => false end.
Definition is_put (e : event) : bool :=
  match e with EvPut _ _ _ => true | _ => false end.
Definition is_post (e : event) : bool :=
  match e with EvPost _ _ _ => true | _ => false end.

Definition count_events (p : event -> bool) (t : list event) : nat :=
  List.length (filter p t).

(** A computation: the calls it made, in order, and how it ended. *)
Definition M (A : Type) : Type := (list event * result A)%type.

Definition ret {A} (a : A) : M A := ([], Ok a).
Definition raise {A} (e : exn) : M A := ([], Raise e).
Definition lift {A} (r : result A) : M A := ([], r).
Definition call {A} (ev : event) (r : result A) : M A := ([ev], r).

Definition bind {A B} (m : M A) (f : A -> M B) : M B :=
  match m with
  | (t, Ok a) => let (t', r) := f a in ((t ++ t')%list, r)
  | (t, Raise e) => (t, Raise e)
  end.

Definition rbind {A B} (r : result A) (f : A -> result B) : result B :=
  match r with
  | Ok a => f a
  | Raise e => Raise e
  end.

Definition trace {A} (m : M A) : list event := fst m.
Definition outcome {A} (m : M A) : result A := snd m.

Declare Scope py_scope.
Notation "x <- m ;; k" := (bind m (fun x => k))
  (at level 100, m at next level, right associativity) : py_scope.
Notation "' p <- m ;; k" := (bind m (fun x => let p := x in k))
  (at level 100, p pattern, m at next level, right associativity) : py_scope.
Notation "x <-- r ;; k" := (rbind r (fun x => k))
  (at level 100, r at next level, right associativity) : py_scope.
Open Scope py_scope.

(** ** The work item *)

Record Workitem : Type := {
  url : string;
  rtc_obj : Collab;
  identifier : string
}.

(** Modelled from the spec: [FieldBase.__init__], which sets [self.url]
    from the URL it is given, is not part of the sources at hand;
    [canonical] stands for what it stores, the canonical URL of the work
    item.  [Workitem.__init__] itself: without an id, the identifier is the
    last path segment of [self.url]. *)
Definition Workitem_init (canonical : string -> string) (u : string)
    (rtc : Collab) (workitem_id : option string) : Workitem :=
  {| url := canonical u;
     rtc_obj := rtc;
     identifier := match workitem_id with
                   | Some i => i
                   | None => last_segment (canonical u)
                   end |}.

Definition OSLC_CR_RDF : string := "application/rdf+xml".

(** ** Comments *)

Record Comment : Type := { comment_url : string; comment_raw_data : pyval }.

(** Modelled from the spec: the class [Comment] of [rtcclient.models] is
    not part of the sources at hand.  A comment is a resource object bound
    to its URL; built from the raw data when the caller supplies them, and
    otherwise read from its URL, which fails with the transport's error
    when the server does not answer with a success. *)
Definition Comment_init (rtc : Collab) (u : string) (raw_data : pyval)
    : M Comment :=
  match raw_data with
  | PNone =>
      raw <- call (EvFetch u) (fetch_resource rtc u);;
      ret {| comment_url := u; comment_raw_data := raw |}
  | raw => ret {| comment_url := u; comment_raw_data := raw |}
  end.

(** Modelled from the spec: the identifier of a comment is its position,
    the final path segment of its URL. *)
Definition comment_identifier (c : Comment) : string :=
  last_segment (comment_url c).

(** A float: a finite one is [m * 2^e]. *)
Inductive pyfloat : Type :=
| Finite (m e : Z)
| Infinity (negative : bool)
| NaN.

(** What a caller can pass as comment id: one of the values above, or a
    float. *)
Inductive pyobj : Type :=
| Val (v : pyval)
| Float (f : pyfloat).

(** The [try] block of [getCommentByID]: a boolean is refused first, a
    string is handed to [int], and whatever is not an integer by then is
    refused. *)
Definition coerce_comment_id (py : Interp) (comment_id : pyobj)
    : result Z :=
  match comment_id with
  | Val (PBool _) => Raise ValueError
  | Val (PStr s) => match int_of_str py s with
                    | Some n => Ok n
                    | None => Raise ValueError
                    end
  | Val (PInt n) => Ok n
  | _ => Raise ValueError
  end.

(** ... and its [except (ValueError, TypeError)] clause. *)
Definition check_comment_id (py : Interp) (comment_id : pyobj)
    : result Z :=
  match coerce_comment_id py comment_id with
  | Raise ValueError | Raise TypeError => Raise (BadValue InvalidCommentId)
  | r => r
  end.

(** The URL of the comment with number [n]:
    ["/".join([self.url, "rtc_cm:comments/%s" % comment_id])], outside the
    [try]: a [ValueError] of the formatting is not caught. *)
Definition comment_url_of (py : Interp) (self : Workitem) (n : Z)
    : result string :=
  match str_of_int py n with
  | Some t => Ok (join_slash [url self; "rtc_cm:comments/" ++ t])
  | None => Raise ValueError
  end.

(** ["/".join([self.url, "rtc_cm:comments"])] *)
Definition comments_url (self : Workitem) : string :=
  join_slash [url self; "rtc_cm:comments"].

Definition getCommentByID (py : Interp) (self : Workitem)
    (comment_id : pyobj) : M Comment :=
  n <- lift (check_comment_id py comment_id);;
  comment_url <- lift (comment_url_of py self n);;
  match Comment_init (rtc_obj self) comment_url PNone with
  | (t, Raise HTTPError) => (t, Raise (BadValue (CommentNotExist n)))
  | r => r
  end.

(** The double quote and the line feed, written by code point. *)
Definition dq : string := String (ascii_of_nat 34) EmptyString.
Definition nl : string := String (ascii_of_nat 10) EmptyString.

(** [name="value"] *)
Definition xml_attr (name value : string) : string :=
  name ++ "=" ++ dq ++ value ++ dq.

(** [origin_comment], cut at its two placeholders: the text before [{0}],
    the text between [{0}] and [{1}], and the text after [{1}]. *)
Definition origin_comment_head : string :=
  nl ++ "<rdf:RDF" ++ nl
  ++ "    "
  ++ xml_attr "xmlns:rdf" "http://www.w3.org/1999/02/22-rdf-syntax-ns#" ++ nl
  ++ "    "
  ++ xml_attr "xmlns:rtc_ext" "http://jazz.net/xmlns/prod/jazz/rtc/ext/1.0/"
  ++ nl
  ++ "    "
  ++ xml_attr "xmlns:rtc_cm" "http://jazz.net/xmlns/prod/jazz/rtc/cm/1.0/"
  ++ nl
  ++ "    " ++ xml_attr "xmlns:oslc_cm" "http://open-services.net/ns/cm#" ++ nl
  ++ "    " ++ xml_attr "xmlns:dcterms" "http://purl.org/dc/terms/" ++ nl
  ++ "    "
  ++ xml_attr "xmlns:oslc_cmx" "http://open-services.net/ns/cm-x#" ++ nl
  ++ "    " ++ xml_attr "xmlns:oslc" "http://open-services.net/ns/core#"
  ++ ">" ++ nl
  ++ "  <rdf:Description rdf:about=" ++ dq.

Definition origin_comment_mid : string :=
  dq ++ ">" ++ nl
  ++ "    <rdf:type "
  ++ xml_attr "rdf:resource" "http://open-services.net/ns/core#Comment"
  ++ "/>" ++ nl
  ++ "    <dcterms:description " ++ xml_attr "rdf:parseType" "Literal" ++ ">".

Definition origin_comment_tail : string :=
  "</dcterms:description>" ++ nl
  ++ "  </rdf:Description>" ++ nl
  ++ "</rdf:RDF>" ++ nl.

(** [origin_comment.format(comment_url, msg)] for two strings. *)
Definition format_comment (comment_url msg : string) : string :=
  origin_comment_head ++ comment_url ++ origin_comment_mid ++ msg
  ++ origin_comment_tail.

(** How [format] renders the message: [None], the default of the
    parameter, prints as its name; a string is taken as it is. *)
Definition format_msg (msg : option string) : string :=
  match msg with
  | None => "None"
  | Some m => m
  end.

(** ["/".join([a, v])] where [v] comes out of a parsed document: only
    strings can be joined. *)
Definition join_slash_val (a : string) (v : pyval) : result string :=
  match v with
  | PStr s => Ok (join_slash [a; s])
  | _ => Raise TypeError
  end.

Definition addComment (self : Workitem) (msg : option string) : M Comment :=
  let rtc := rtc_obj self in
  let comments_url := comments_url self in
  let headers := rtc_headers rtc in
  resp <- call (EvGet comments_url headers)
               (http_get rtc comments_url headers);;
  raw_data <- lift (xmltodict_parse rtc (content resp));;
  total_cnt <- lift (coll <-- py_getitem raw_data "oslc_cm:Collection";;
                     py_getitem coll "@oslc_cm:totalCount");;
  comment_url <- lift (join_slash_val comments_url total_cnt);;
  let comment_msg := format_comment comment_url (format_msg msg) in
  let headers := dict_set headers "Content-Type" (PStr OSLC_CR_RDF) in
  let headers := dict_set headers "Accept" (PStr OSLC_CR_RDF) in
  let headers := dict_set headers "OSLC-Core-Version" (PStr "2.0") in
  let headers :=
    dict_set headers "If-Match" (dict_get (resp_headers resp) "etag") in
  let req_url := join_slash [comments_url; "oslc:comment"] in
  resp <- call (EvPost req_url headers comment_msg)
               (http_post rtc req_url headers comment_msg);;
  raw_data <- lift (xmltodict_parse rtc (content resp));;
  description <- lift (rdf <-- py_getitem raw_data "rdf:RDF";;
                       py_getitem rdf "rdf:Description");;
  Comment_init rtc comment_url description.

(** ** Subscribers *)

Definition subscribers_url (self : Workitem) : string :=
  join_empty [url self; "?oslc_cm.properties=rtc_cm:subscribers"].

Definition _update_subscribe (self : Workitem) (headers : dict)
    (raw_data : pyval) : M unit :=
  let rtc := rtc_obj self in
  data <- lift (xmltodict_unparse rtc raw_data);;
  _ <- call (EvPut (subscribers_url self) headers data)
            (http_put rtc (subscribers_url self) headers data);;
  ret tt.

Definition _perform_subscribe (self : Workitem) : M (dict * pyval) :=
  let rtc := rtc_obj self in
  let headers := rtc_headers rtc in
  let headers := dict_set headers "Content-Type" (PStr OSLC_CR_RDF) in
  let headers := dict_set headers "Accept" (PStr OSLC_CR_RDF) in
  let headers := dict_set headers "OSLC-Core-Version" (PStr "2.0") in
  resp <- call (EvGet (subscribers_url self) headers)
               (http_get rtc (subscribers_url self) headers);;
  let headers :=
    dict_set headers "If-Match" (dict_get (resp_headers resp) "etag") in
  raw_data <- lift (xmltodict_parse rtc (content resp));;
  ret (headers, raw_data).

Definition _check_exist_subscriber (new_subscriber : Member)
    (exist_sub : pyval) : result bool :=
  r <-- py_getitem exist_sub "@rdf:resource";;
  Ok (py_eqb (PStr (member_url new_subscriber)) r).

Definition _check_missing_subscriber (del_subscriber : Member)
    (exist_sub : pyval) : result bool :=
  r <-- py_getitem exist_sub "@rdf:resource";;
  Ok (negb (py_eqb (PStr (member_url del_subscriber)) r)).

(** The email check that opens [_add_subscriber] and [_remove_subscriber]:
    the address when it is a string with an [@]. *)
Definition valid_email (email : pyval) : option string :=
  match email with
  | PStr e => if contains_at e then Some e else None
  | _ => None
  end.

(** The [for ... else] of [_add_subscriber]: [true] when the loop stopped
    at a member with the new subscriber's URL. *)
Fixpoint scan_exist (new_subscriber : Member) (subs : list pyval)
    : result bool :=
  match subs with
  | [] => Ok false
  | exist_sub :: rest =>
      existed_flag <-- _check_exist_subscriber new_subscriber exist_sub;;
      if existed_flag then Ok true else scan_exist new_subscriber rest
  end.

(** The parsed document with its [rdf:RDF] and [rdf:Description] mappings
    written back: the code changes these two objects in place. *)
Definition with_description (raw : dict) (rdf description : dict) : pyval :=
  PDict (dict_set raw "rdf:RDF"
           (PDict (dict_set rdf "rdf:Description" (PDict description)))).

Definition rtc_cm_ns : string := "http://jazz.net/xmlns/prod/jazz/rtc/cm/1.0/".

Definition _add_subscriber (self : Workitem) (email : pyval)
    (raw_data : pyval) : M (bool * pyval) :=
  match valid_email email with
  | None => raise (BadValue (InvalidEmail email))
  | Some e =>
      new_subscriber <- call (EvOwnedBy e) (getOwnedBy (rtc_obj self) e);;
      let new_sub := PDict [("@rdf:resource",
                             PStr (member_url new_subscriber))] in
      match raw_data with
      | PDict raw =>
          match dict_get raw "rdf:RDF" with
          | PDict rdf =>
              match dict_get rdf "rdf:Description" with
              | PDict description =>
                  match dict_get description "rtc_cm:subscribers" with
                  | PNone =>
                      let rdf' := dict_set rdf "@xmlns:rtc_cm"
                                    (PStr rtc_cm_ns) in
                      let description' :=
                        dict_set description "rtc_cm:subscribers" new_sub in
                      ret (false, with_description raw rdf' description')
                  | PDict sub =>
                      existed_flag <-
                        lift (_check_exist_subscriber new_subscriber
                                (PDict sub));;
                      if existed_flag then ret (true, raw_data)
                      else
                        let description' :=
                          dict_set description "rtc_cm:subscribers"
                            (PList [PDict sub; new_sub]) in
                        ret (false, with_description raw rdf description')
                  | subs =>
                      match py_iter subs with
                      | None => raise TypeError
                      | Some items =>
                          existed_flag <-
                            lift (scan_exist new_subscriber items);;
                          if existed_flag then ret (true, raw_data)
                          else
                            match subs with
                            | PList l =>
                                let description' :=
                                  dict_set description "rtc_cm:subscribers"
                                    (PList (l ++ [new_sub])) in
                                ret (false,
                                     with_description raw rdf description')
                            | _ => raise AttributeError
                            end
                      end
                  end
              | _ => raise AttributeError
              end
          | _ => raise AttributeError
          end
      | _ => raise AttributeError
      end
  end.

(** The [for ... else] of [_remove_subscriber]: the member at which the
    loop stopped, if it did. *)
Fixpoint scan_missing (del_sub : Member) (subs : list pyval)
    : result (option pyval) :=
  match subs with
  | [] => Ok None
  | exist_sub :: rest =>
      missing_flag <-- _check_missing_subscriber del_sub exist_sub;;
      if missing_flag then scan_missing del_sub rest else Ok (Some exist_sub)
  end.

(** [l.remove(x)]: the first item equal to [x] goes; [ValueError] when no
    item is. *)
Fixpoint list_remove (x : pyval) (l : list pyval) : result (list pyval) :=
  match l with
  | [] => Raise ValueError
  | y :: rest =>
      if py_eqb y x then Ok rest
      else rest' <-- list_remove x rest;; Ok (y :: rest')
  end.

Definition _remove_subscriber (self : Workitem) (email : pyval)
    (raw_data : pyval) : M (bool * pyval) :=
  match valid_email email with
  | None => raise (BadValue (InvalidEmail email))
  | Some e =>
      del_sub <- call (EvOwnedBy e) (getOwnedBy (rtc_obj self) e);;
      match raw_data with
      | PDict raw =>
          match dict_get raw "rdf:RDF" with
          | PDict rdf =>
              match dict_get rdf "rdf:Description" with
              | PDict description =>
                  match dict_get description "rtc_cm:subscribers" with
                  | PNone => ret (true, raw_data)
                  | PDict sub =>
                      missing_flag <-
                        lift (_check_missing_subscriber del_sub (PDict sub));;
                      if missing_flag then ret (true, raw_data)
                      else
                        let description' :=
                          dict_pop description "rtc_cm:subscribers" in
                        ret (false, with_description raw rdf description')
                  | subs =>
                      match py_iter subs with
                      | None => raise TypeError
                      | Some items =>
                          found <- lift (scan_missing del_sub items);;
                          match found with
                          | None => ret (true, raw_data)
                          | Some exist_sub =>
                              match subs with
                              | PList l =>
                                  l' <- lift (list_remove exist_sub l);;
                                  let subs' :=
                                    match l' with
                                    | [only] => only
                                    | _ => PList l'
                                    end in
                                  let description' :=
                                    dict_set description "rtc_cm:subscribers"
                                      subs' in
                                  ret (false,
                                       with_description raw rdf description')
                              | _ => raise AttributeError
                              end
                          end
                      end
                  end
              | _ => raise AttributeError
              end
          | _ => raise AttributeError
          end
      | _ => raise AttributeError
      end
  end.

Definition addSubscriber (self : Workitem) (email : pyval) : M unit :=
  '(headers, raw_data) <- _perform_subscribe self;;
  '(existed_flag, raw_data) <- _add_subscriber self email raw_data;;
  if (existed_flag : bool) then ret tt
  else _update_subscribe self headers raw_data.

(** The loop of [addSubscribers], with the overall flag it carries. *)
Fixpoint add_loop (self : Workitem) (emails : list pyval)
    (existed_flags : bool) (raw_data : pyval) : M (bool * pyval) :=
  match emails with
  | [] => ret (existed_flags, raw_data)
  | email :: rest =>
      '(existed_flag, raw_data) <- _add_subscriber self email raw_data;;
      add_loop self rest (existed_flags && existed_flag) raw_data
  end.

Definition addSubscribers (self : Workitem) (emails_list : pyval) : M unit :=
  match py_iter emails_list with
  | None => raise (BadValue NotIterable)
  | Some emails =>
      let existed_flags := false in
      '(headers, raw_data) <- _perform_subscribe self;;
      '(existed_flags, raw_data) <-
        add_loop self emails existed_flags raw_data;;
      if (existed_flags : bool) then ret tt
      else _update_subscribe self headers raw_data
  end.

Definition removeSubscriber (self : Workitem) (email : pyval) : M unit :=
  '(headers, raw_data) <- _perform_subscribe self;;
  '(missing_flag, raw_data) <- _remove_subscriber self email raw_data;;
  if (missing_flag : bool) then ret tt
  else _update_subscribe self headers raw_data.

(** The loop of [removeSubscribers]. *)
Fixpoint remove_loop (self : Workitem) (emails : list pyval)
    (missing_flags : bool) (raw_data : pyval) : M (bool * pyval) :=
  match emails with
  | [] => ret (missing_flags, raw_data)
  | email :: rest =>
      '(missing_flag, raw_data) <- _remove_subscriber self email raw_data;;
      remove_loop self rest (missing_flags && missing_flag) raw_data
  end.

Definition removeSubscribers (self : Workitem) (emails_list : pyval)
    : M unit :=
  match py_iter emails_list with
  | None => raise (BadValue NotIterable)
  | Some emails =>
      let missing_flags := true in
      '(headers, raw_data) <- _perform_subscribe self;;
      '(missing_flags, raw_data) <-
        remove_loop self emails missing_flags raw_data;;
      if (missing_flags : bool) then ret tt
      else _update_subscribe self headers raw_data
  end.

(** The four public subscriber mutations, as one call. *)
Inductive mutation : Type :=
| AddSubscriber (email : pyval)
| AddSubscribers (emails_list : pyval)
| RemoveSubscriber (email : pyval)
| RemoveSubscribers (emails_list : pyval).

Definition run_mutation (self : Workitem) (m : mutation) : M unit :=
  match m with
  | AddSubscriber email => addSubscriber self email
  | AddSubscribers emails_list => addSubscribers self emails_list
  | RemoveSubscriber email => removeSubscriber self email
  | RemoveSubscribers emails_list => removeSubscribers self emails_list
  end.

(** ** Vocabulary of the specification *)

(** The description mapping of a parsed representation, where the code
    looks for it. *)
Definition description_of (raw_data : pyval) : option dict :=
  match raw_data with
  | PDict raw =>
      match dict_get raw "rdf:RDF" with
      | PDict rdf =>
          match dict_get rdf "rdf:Description" with
          | PDict description => Some description
          | _ => None
          end
      | _ => None
      end
  | _ => None
  end.

(** The wire value of the subscribers property; [None] when the property
    is not in the document. *)
Definition subscribers_property (raw_data : pyval) : option pyval :=
  match description_of raw_data with
  | Some description => dict_find description "rtc_cm:subscribers"
  | None => None
  end.

(** The Collection Normalizer of the specification: the wire value as a
    sequence of members, and back. *)
Definition normalize (prop : option pyval) : list pyval :=
  match prop with
  | None => []
  | Some PNone => []
  | Some (PList l) => l
  | Some m => [m]
  end.

Definition denormalize (members : list pyval) : option pyval :=
  match members with
  | [] => None
  | [m] => Some m
  | l => Some (PList l)
  end.

Definition members (raw_data : pyval) : list pyval :=
  normalize (subscribers_property raw_data).

(** A member is a mapping that carries a reference. *)
Definition member_ref (m : pyval) : option pyval :=
  match m with
  | PDict d => dict_find d "@rdf:resource"
  | _ => None
  end.

Definition is_member (m : pyval) : bool :=
  match member_ref m with Some _ => true | None => false end.

(** The member that refers to the person at URL [u]. *)
Definition refers_to (u : string) (m : pyval) : bool :=
  match member_ref m with
  | Some r => py_eqb (PStr u) r
  | None => false
  end.

Definition is_subscriber (u : string) (raw_data : pyval) : bool :=
  existsb (refers_to u) (members raw_data).

(** The absent / singleton / plural convention of the wire format: no
    property, one bare member, or a list of two or more members. *)
Definition wire_ok (prop : option pyval) : bool :=
  match prop with
  | None => true
  | Some (PDict d) => is_member (PDict d)
  | Some (PList l) => (2 <=? List.length l)%nat && forallb is_member l
  | Some _ => false
  end.

(** A representation in which the code finds the description and whose
    subscribers property follows the convention. *)
Definition wf_doc (raw_data : pyval) : bool :=
  match description_of raw_data with
  | Some _ => wire_ok (subscribers_property raw_data)
  | None => false
  end.

(** A sequence without its first item that satisfies [p]. *)
Fixpoint remove_first (p : pyval -> bool) (l : list pyval) : list pyval :=
  match l with
  | [] => []
  | x :: r => if p x then r else x :: remove_first p r
  end.

(** The person behind an email, when the email passes the check and the
    lookup succeeds. *)
Definition person (self : Workitem) (email : pyval) : option Member :=
  match valid_email email with
  | Some e => match getOwnedBy (rtc_obj self) e with
              | Ok m => Some m
              | Raise _ => None
              end
  | None => None
  end.

Definition resolvable (self : Workitem) (email : pyval) : bool :=
  match person self email with Some _ => true | None => false end.

(** The lookups a loop over [emails] makes, in the order of the emails. *)
Definition lookup_events (emails : list pyval) : list event :=
  flat_map (fun email => match valid_email email with
                         | Some e => [EvOwnedBy e]
                         | None => []
                         end) emails.

(** Whether the person behind an email is among the members. *)
Definition subscribed (self : Workitem) (raw_data : pyval) (email : pyval)
    : bool :=
  match person self email with
  | Some m => is_subscriber (member_url m) raw_data
  | None => false
  end.

(** The member written for a newly added person. *)
Definition new_member (m : Member) : pyval :=
  PDict [("@rdf:resource", PStr (member_url m))].





(** The data of the requests a run sent. *)
Definition put_data (t : list event) : list string :=
  flat_map (fun e => match e with EvPut _ _ d => [d] | _ => [] end) t.


(** A server that keeps what is written to it: once a run has sent a PUT,
    a later GET answers with the data of the last PUT. *)
Definition serve (rtc : Collab) (data : string) : Collab :=
  {| rtc_headers := rtc_headers rtc;
     http_get := fun _ _ => Ok {| content := data; resp_headers := [] |};
     http_put := http_put rtc;
     http_post := http_post rtc;
     getOwnedBy := getOwnedBy rtc;
     fetch_resource := fetch_resource rtc;
     xmltodict_parse := xmltodict_parse rtc;
     xmltodict_unparse := xmltodict_unparse rtc |}.

Definition after (self : Workitem) (t : list event) : Workitem :=
  match rev (put_data t) with
  | data :: _ =>
      {| url := url self;
         rtc_obj := serve (rtc_obj self) data;
         identifier := identifier self |}
  | [] => self
  end.

(** The headers of the subscribers GET. *)
Definition fetch_headers (self : Workitem) : dict :=
  dict_set
    (dict_set
       (dict_set (rtc_headers (rtc_obj self)) "Content-Type"
          (PStr OSLC_CR_RDF))
       "Accept" (PStr OSLC_CR_RDF))
    "OSLC-Core-Version" (PStr "2.0").

(** The calls that are person lookups. *)
Definition is_lookup (e : event) : bool :=
  match e with EvOwnedBy _ => true | _ => false end.

(** [int(f)] for a float: a finite one is truncated toward zero, an
    infinite one or a nan has no integer. *)
Definition int_of_float (f : pyfloat) : option Z :=
  match f with
  | Finite m e =>
      Some (if 0 <=? e then m * 2 ^ e else Z.quot m (2 ^ (- e)))
  | _ => None
  end.

(** Values that [int] turns into an integer: integers, booleans (they are
    integers in Python), the strings that [int] can read and the finite
    floats. *)
Definition int_coercible (py : Interp) (v : pyobj) : bool :=
  match v with
  | Val (PInt _) => true
  | Val (PBool _) => true
  | Val (PStr s) =>
      match int_of_str py s with Some _ => true | None => false end
  | Val _ => false
  | Float f => match int_of_float f with Some _ => true | None => false end
  end.

Definition is_bool (v : pyobj) : bool :=
  match v with Val (PBool _) => true | _ => false end.



(** The number that an accepted comment id stands for: an integer that is
    no boolean stands for itself, a string for what [int] reads in it. *)
Definition id_number (py : Interp) (v : pyobj) : option Z :=
  match v with
  | Val (PInt n) => Some n
  | Val (PStr s) => int_of_str py s
  | _ => None
  end.

(** The URL under which comment number [t] of a work item is kept. *)
Definition comment_location (self : Workitem) (t : string) : string :=
  url self ++ "/rtc_cm:comments/" ++ t.

(** The members once every requested person has been entered, one after
    the other in the order of the request: a person who is not among the
    members by then is appended. *)
Fixpoint members_after_add (self : Workitem) (emails : list pyval)
    (ms : list pyval) : list pyval :=
  match emails with
  | [] => ms
  | email :: rest =>
      match person self email with
      | Some m =>
          members_after_add self rest
            (if existsb (refers_to (member_url m)) ms then ms
             else ms ++ [new_member m])%list
      | None => members_after_add self rest ms
      end
  end.

(** The members once every requested person has been taken out, one after
    the other in the order of the request: the first member that refers
    to the person goes. *)
Fixpoint members_after_remove (self : Workitem) (emails : list pyval)
    (ms : list pyval) : list pyval :=
  match emails with
  | [] => ms
  | email :: rest =>
      match person self email with
      | Some m =>
          members_after_remove self rest
            (remove_first (refers_to (member_url m)) ms)
      | None => members_after_remove self rest ms
      end
  end.

(** The string of [k] characters [@]. *)
Fixpoint ats (k : nat) : string :=
  match k with
  | O => EmptyString
  | S k' => String "@" (ats k')
  end.


(** ["/" in s] *)
Fixpoint contains_slash (s : string) : bool :=
  match s with
  | EmptyString => false
  | String c r => Ascii.eqb c "/" || contains_slash r
  end.

(** [raw_data["oslc_cm:Collection"]["@oslc_cm:totalCount"]] *)
Definition total_count (raw_data : pyval) : result pyval :=
  coll <-- py_getitem raw_data "oslc_cm:Collection";;
  py_getitem coll "@oslc_cm:totalCount".

(** [raw_data["rdf:RDF"]["rdf:Description"]] *)
Definition created_description (raw_data : pyval) : result pyval :=
  rdf <-- py_getitem raw_data "rdf:RDF";;
  py_getitem rdf "rdf:Description".

(** The headers of the POST that adds a comment, after the response to
    the GET of the collection. *)
Definition comment_post_headers (self : Workitem) (resp : Response) : dict :=
  dict_set
    (dict_set
       (dict_set
          (dict_set (rtc_headers (rtc_obj self)) "Content-Type"
             (PStr OSLC_CR_RDF))
          "Accept" (PStr OSLC_CR_RDF))
       "OSLC-Core-Version" (PStr "2.0"))
    "If-Match" (dict_get (resp_headers resp) "etag").


(** ** A small server for the examples *)

Module Demo.

(** The interpreter of the examples reads and prints ASCII decimal
    numerals the way CPython 3.11 does with its default settings; text
    with any other character is unreadable to it. *)

(** The blanks that [int] skips around a numeral. *)
Definition is_space (c : ascii) : bool :=
  let n := Z.of_N (N_of_ascii c) in
  ((9 <=? n) && (n <=? 13)) || (n =? 32).

Fixpoint lstrip (s : string) : string :=
  match s with
  | EmptyString => EmptyString
  | String c r => if is_space c then lstrip r else s
  end.

Fixpoint rstrip (s : string) : string :=
  match s with
  | EmptyString => EmptyString
  | String c r =>
      match rstrip r with
      | EmptyString => if is_space c then EmptyString else String c EmptyString
      | r' => String c r'
      end
  end.

Definition digit_of (c : ascii) : option Z :=
  let n := Z.of_N (N_of_ascii c) in
  if (48 <=? n) && (n <=? 57) then Some (n - 48) else None.

(** Decimal digits, single underscores allowed between two digits. *)
Fixpoint py_digits (s : string) (acc : Z) (after_digit : bool) : option Z :=
  match s with
  | EmptyString => if after_digit then Some acc else None
  | String c r =>
      match digit_of c with
      | Some d => py_digits r (10 * acc + d) true
      | None =>
          if Ascii.eqb c "_" && after_digit then py_digits r acc false
          else None
      end
  end.

Fixpoint count_digits (s : string) : nat :=
  match s with
  | EmptyString => 0
  | String c r =>
      match digit_of c with
      | Some _ => S (count_digits r)
      | None => count_digits r
      end
  end.

(** The longest numeral that is read or printed. *)
Definition max_str_digits : nat := 4300.

(** [int(s)]: blanks around, one optional sign, then digits, no more
    than the limit. *)
Definition read_int (s : string) : option Z :=
  let t := rstrip (lstrip s) in
  if (max_str_digits <? count_digits t)%nat then None
  else match t with
       | String "-" r => option_map Z.opp (py_digits r 0 false)
       | String "+" r => py_digits r 0 false
       | _ => py_digits t 0 false
       end.

(** ["%s" % n]: the decimal numeral, no longer than the limit. *)
Definition print_int (n : Z) : option string :=
  let t := NilZero.string_of_int (Z.to_int n) in
  if (max_str_digits <? count_digits t)%nat then None else Some t.

Definition py : Interp :=
  {| int_of_str := read_int; str_of_int := print_int |}.


Definition item_url : string := "https://rtc.example/ccm/oslc/workitems/7".

Definition person_url (email : string) : string :=
  "https://rtc.example/jts/users/" ++ email.

(** Every address has a person. *)
Definition directory (email : string) : result Member :=
  Ok {| member_url := person_url email; member_email := email |}.

Definition ref (email : string) : pyval :=
  PDict [("@rdf:resource", PStr (person_url email))].

(** A work item representation with the given subscribers property. *)
Definition doc (prop : option pyval) : pyval :=
  PDict [("rdf:RDF",
          PDict [("@xmlns:rdf",
                  PStr "http://www.w3.org/1999/02/22-rdf-syntax-ns#");
                 ("rdf:Description",
                  PDict (("@rdf:about", PStr item_url)
                         :: match prop with
                            | Some v => [("rtc_cm:subscribers", v)]
                            | None => []
                            end))])].

(** The comments collection with its total count. *)
Definition collection (total : string) : pyval :=
  PDict [("oslc_cm:Collection", PDict [("@oslc_cm:totalCount", PStr total)])].

Definition created : pyval :=
  PDict [("rdf:RDF",
          PDict [("rdf:Description",
                  PDict [("dcterms:description", PStr "text")])])].

Definition response (body : string) : Response :=
  {| content := body; resp_headers := [("etag", PStr "v1")] |}.

(** A codec given by a table from bodies to representations; every
    representation is written as the body [written]. *)
Definition parse (table : list (string * pyval)) (body : string)
    : result pyval :=
  match dict_find table body with
  | Some d => Ok d
  | None => Raise (OtherError "not well-formed")
  end.

(** A server that answers a GET with the URL as body, accepts every
    write, and knows no comment. *)
Definition rtc (table : list (string * pyval)) (written : string)
    : Collab :=
  {| rtc_headers := [("Accept", PStr "text/xml")];
     http_get := fun u _ => Ok (response u);
     http_put := fun _ _ _ => Ok (response EmptyString);
     http_post := fun _ _ _ => Ok (response "created");
     getOwnedBy := directory;
     fetch_resource := fun _ => Raise HTTPError;
     xmltodict_parse := parse table;
     xmltodict_unparse := fun _ => Ok written |}.

(** The work item on a server that holds [fetched] and, once written
    to, [stored]. *)
Definition item (fetched stored : pyval) : Workitem :=
  {| url := item_url;
     rtc_obj :=
       rtc [(item_url ++ "?oslc_cm.properties=rtc_cm:subscribers", fetched);
            ("written", stored);
            (item_url ++ "/rtc_cm:comments", collection "3");
            ("created", created)]
           "written";
     identifier := "7" |}.

End Demo.

(** ** Listings: comments, subscribers, actions and states *)


(** What the code reads from a listed resource: its title. *)
Record Resource : Type := { resource_url : string; resource_title : pyval }.

(** One call of [rtc_obj._get_paged_resources]: the name of the resource
    and the keyword arguments, in the order they are written. *)
Record paged_call : Type := {
  paged_resource : string;
  paged_kwargs : list (string * pyval)
}.

(** What the listing methods raise: [BadValue] with the text of its
    message, or any other exception. *)
Inductive raised : Type :=
| BadValueMsg (msg : string)
| Exn (e : exn).

Inductive answer (A : Type) : Type :=
| Returned (a : A)
| Raised (r : raised).
Arguments Returned {A} a.
Arguments Raised {A} r.

(** A work item with the attributes that [FieldBase] sets on it, and the
    paged fetch of the client, a parameter: it answers with a list of
    resources or with [None]. *)
Record Listed : Type := {
  item : Workitem;
  wi_raw_data : pyval;
  wi_contextId : pyval;
  _get_paged_resources :
    string -> list (string * pyval) -> result (option (list Resource))
}.

(** A listing: the paged fetches it made, and how it ended. *)
Definition LM (A : Type) : Type := (list paged_call * answer A)%type.

Definition paged (self : Listed) (name : string)
    (kwargs : list (string * pyval)) : LM (option (list Resource)) :=
  ([{| paged_resource := name; paged_kwargs := kwargs |}],
   match _get_paged_resources self name kwargs with
   | Ok r => Returned r
   | Raise e => Raised (Exn e)
   end).

Definition getComments (self : Listed) : LM (option (list Resource)) :=
  paged self "Comment"
    [("workitem_id", PStr (identifier (item self)));
     ("page_size", PStr "100")].

Definition getSubscribers (self : Listed) : LM (option (list Resource)) :=
  paged self "Subscribers"
    [("workitem_id", PStr (identifier (item self)));
     ("page_size", PStr "10")].

(** [l[-2]] *)
Definition index_neg2 (l : list string) : result string :=
  match rev l with
  | _ :: x :: _ => Ok x
  | _ => Raise (OtherError "IndexError")
  end.

(** [v.split("/")]: only strings have the method. *)
Definition py_split_slash (v : pyval) : result (list string) :=
  match v with
  | PStr s => Ok (split_on "/" s)
  | _ => Raise AttributeError
  end.

(** [self.raw_data.get("rtc_cm:state").get("@rdf:resource").split("/")[-2]] *)
Definition cust_attr (self : Listed) : result string :=
  state <-- py_get (wi_raw_data self) "rtc_cm:state";;
  resource <-- py_get state "@rdf:resource";;
  parts <-- py_split_slash resource;;
  index_neg2 parts.

Definition getActions (self : Listed) : LM (option (list Resource)) :=
  match cust_attr self with
  | Raise e => ([], Raised (Exn e))
  | Ok c =>
      paged self "Action"
        [("projectarea_id", wi_contextId self);
         ("customized_attr", PStr c);
         ("page_size", PStr "100")]
  end.

Definition getStates (self : Listed) : LM (option (list Resource)) :=
  match cust_attr self with
  | Raise e => ([], Raised (Exn e))
  | Ok c =>
      paged self "State"
        [("projectarea_id", wi_contextId self);
         ("customized_attr", PStr c);
         ("page_size", PStr "50")]
  end.

(** The check that opens [getAction]: the name when it is a string that is
    not empty. *)
Definition valid_action_name (action_name : pyval) : option string :=
  match action_name with
  | PStr EmptyString => None
  | PStr s => Some s
  | _ => None
  end.

(** The loop of [getAction]: the first action with the title. *)
Fixpoint find_action (actions : list Resource) (action_name : string)
    : option Resource :=
  match actions with
  | [] => None
  | action :: rest =>
      if py_eqb (resource_title action) (PStr action_name) then Some action
      else find_action rest action_name
  end.

Definition getAction (self : Listed) (action_name : pyval) : LM Resource :=
  match valid_action_name action_name with
  | None => ([], Raised (BadValueMsg "Please specify a valid action name"))
  | Some name =>
      match getActions self with
      | (t, Returned actions) =>
          match match actions with
                | Some l => find_action l name
                | None => None
                end with
          | Some action => (t, Returned action)
          | None => (t, Raised (Exn (NotFound ("No Action named " ++ name))))
          end
      | (t, Raised r) => (t, Raised r)
      end
  end.

(** ** More vocabulary *)

(** What was raised is a [BadValue], the one of the name check or one
    that the paged fetch raised. *)
Definition is_bad_value (r : raised) : bool :=
  match r with
  | BadValueMsg _ => true
  | Exn (BadValue _) => true
  | Exn _ => false
  end.

(** The values on which a [for] loop can run. *)
Definition iterable (v : pyval) : bool :=
  match v with
  | PList _ | PStr _ | PDict _ => true
  | _ => false
  end.

(** The argument of a batch mutation is iterable; a single-email mutation
    has no such argument. *)
Definition iterable_argument (mu : mutation) : bool :=
  match mu with
  | AddSubscribers emails_list | RemoveSubscribers emails_list =>
      iterable emails_list
  | _ => true
  end.

(** The references of the members, in order. *)
Definition member_refs (raw_data : pyval) : list (option pyval) :=
  map member_ref (members raw_data).

(** An attribute or child of the [rdf:RDF] element of a representation. *)
Definition root_attr (raw_data : pyval) (k : string) : option pyval :=
  match raw_data with
  | PDict raw =>
      match dict_get raw "rdf:RDF" with
      | PDict rdf => dict_find rdf k
      | _ => None
      end
  | _ => None
  end.

(** A property of the description of a representation. *)
Definition description_attr (raw_data : pyval) (k : string)
    : option pyval :=
  match description_of raw_data with
  | Some description => dict_find description k
  | None => None
  end.

Module Demo2.

(** A work item in the state [s2] of the workflow [wf1], with two actions
    and no listing for anything else. *)
Definition listed : Listed :=
  {| item := Demo.item PNone PNone;
     wi_raw_data :=
       PDict [("rtc_cm:state",
               PDict [("@rdf:resource",
                       PStr "https://rtc.example/ccm/oslc/workflows/pa/states/wf1/s2")])];
     wi_contextId := PStr "pa";
     _get_paged_resources :=
       fun name kwargs =>
         if String.eqb name "Action" then
           Ok (Some [{| resource_url := "https://rtc.example/actions/1";
                        resource_title := PStr "Start Working" |};
                     {| resource_url := "https://rtc.example/actions/2";
                        resource_title := PStr "Resolve" |};
                     {| resource_url := "https://rtc.example/actions/3";
                        resource_title := PStr "Resolve" |}])
         else Ok None |}.

End Demo2.

Module Ledger.

(** A serialiser that writes the references of the members, separated by
    commas. *)
Definition show (raw_data : pyval) : result string :=
  Ok (String.concat ","
        (map (fun m => match member_ref m with
                       | Some (PStr u) => u
                       | _ => "?"
                       end)
             (members raw_data))).

(** A server like the one of [Demo] that holds [fetched] and writes with
    [show]. *)
Definition rtc (fetched : pyval) : Collab :=
  {| rtc_headers := [];
     http_get := fun u _ => Ok (Demo.response u);
     http_put := fun _ _ _ => Ok (Demo.response EmptyString);
     http_post := fun _ _ _ => Raise HTTPError;
     getOwnedBy := Demo.directory;
     fetch_resource := fun _ => Raise HTTPError;
     xmltodict_parse := fun _ => Ok fetched;
     xmltodict_unparse := show |}.

Definition item (fetched : pyval) : Workitem :=
  {| url := Demo.item_url; rtc_obj := rtc fetched; identifier := "7" |}.

End Ledger.

Module Faulty.

(** A server like the one of [Demo] that holds [fetched], whose directory
    knows only the addresses that [known] accepts, and that refuses every
    write when [stale] is set. *)
Definition rtc (fetched : pyval) (known : string -> bool) (stale : bool)
    : Collab :=
  {| rtc_headers := [];
     http_get := fun u _ => Ok (Demo.response u);
     http_put := fun _ _ _ =>
                   if stale then Raise HTTPError
                   else Ok (Demo.response EmptyString);
     http_post := fun _ _ _ => Raise HTTPError;
     getOwnedBy := fun e => if known e then Demo.directory e
                            else Raise (NotFound e);
     fetch_resource := fun _ => Raise HTTPError;
     xmltodict_parse := fun _ => Ok fetched;
     xmltodict_unparse := fun _ => Ok "written" |}.

Definition item (fetched : pyval) (known : string -> bool) (stale : bool)
    : Workitem :=
  {| url := Demo.item_url;
     rtc_obj := rtc fetched known stale;
     identifier := "7" |}.

(** The headers that the fetch of such a work item returns. *)
Definition headers : dict :=
  [("Content-Type", PStr "application/rdf+xml");
   ("Accept", PStr "application/rdf+xml");
   ("OSLC-Core-Version", PStr "2.0");
   ("If-Match", PStr "v1")].

End Faulty.

(** * Properties *)

(** ** The built-ins on examples *)

Example print_int_examples :
  Demo.print_int (-1) = Some "-1"
  /\ Demo.print_int 0 = Some "0"
  /\ Demo.print_int 31 = Some "31"
  /\ Demo.print_int (10 ^ 4300) = None
  /\ Demo.print_int (- (10 ^ 4300)) = None
  /\ option_map String.length (Demo.print_int (10 ^ 4300 - 1)) = Some 4300%nat.
Proof. repeat split; vm_compute; reflexivity. Qed.

Example read_int_examples :
  Demo.read_int " 12 " = Some 12
  /\ Demo.read_int "abc" = None
  /\ Demo.read_int "-7" = Some (-7)
  /\ Demo.read_int "+7" = Some 7
  /\ Demo.read_int "1_0" = Some 10
  /\ Demo.read_int "1__0" = None
  /\ Demo.read_int "_1" = None
  /\ Demo.read_int "" = None
  /\ Demo.read_int "- 1" = None
  /\ Demo.read_int "1.0" = None
  /\ Demo.read_int "007" = Some 7.
Proof. repeat split; reflexivity. Qed.

Example int_of_float_examples :
  int_of_float (Finite 3 0) = Some 3
  /\ int_of_float (Finite (-15) (-2)) = Some (-3)
  /\ int_of_float (Finite 5 1) = Some 10
  /\ int_of_float NaN = None.
Proof. repeat split; reflexivity. Qed.

Example last_segment_examples :
  last_segment "http://h/a/b/123" = "123"
  /\ last_segment "abc" = "abc"
  /\ last_segment "a/" = "".
Proof. repeat split; reflexivity. Qed.

Example Workitem_init_identifier :
  Workitem_init (fun u => u) Demo.item_url (rtc_obj (Demo.item PNone PNone))
    None
  = Demo.item PNone PNone.
Proof. reflexivity. Qed.

(** ** Mappings *)

Lemma dict_find_set_same (d : dict) (k : string) (v : pyval) :
  dict_find (dict_set d k v) k = Some v.
Proof.
  induction d as [|[k' v'] r IH]; simpl.
  - now rewrite String.eqb_refl.
  - destruct (String.eqb k' k) eqn:E; simpl; now rewrite E.
Qed.

Lemma dict_get_set_same (d : dict) (k : string) (v : pyval) :
  dict_get (dict_set d k v) k = v.
Proof. unfold dict_get. now rewrite dict_find_set_same. Qed.

Lemma dict_find_set_other (d : dict) (k k' : string) (v : pyval) :
  String.eqb k k' = false ->
  dict_find (dict_set d k v) k' = dict_find d k'.
Proof.
  intros Hk. induction d as [|[k0 v0] r IH]; simpl.
  - now rewrite Hk.
  - destruct (String.eqb k0 k) eqn:E; simpl.
    + apply String.eqb_eq in E. subst k0. now rewrite Hk.
    + now rewrite IH.
Qed.

Lemma dict_find_pop_same (d : dict) (k : string) :
  dict_find (dict_pop d k) k = None.
Proof.
  unfold dict_pop. induction d as [|[k' v'] r IH]; simpl; [reflexivity|].
  destruct (String.eqb k' k) eqn:E; simpl; [assumption|].
  now rewrite E.
Qed.

Lemma description_of_with (raw rdf description : dict) :
  description_of (with_description raw rdf description) = Some description.
Proof.
  unfold description_of, with_description.
  now rewrite !dict_get_set_same.
Qed.

Lemma subscribers_property_with (raw rdf description : dict) :
  subscribers_property (with_description raw rdf description)
  = dict_find description "rtc_cm:subscribers".
Proof. unfold subscribers_property. now rewrite description_of_with. Qed.

(** A well-formed document, opened up. *)
Lemma wf_doc_inv (doc : pyval) :
  wf_doc doc = true ->
  exists raw rdf description,
    doc = PDict raw
    /\ dict_get raw "rdf:RDF" = PDict rdf
    /\ dict_get rdf "rdf:Description" = PDict description
    /\ subscribers_property doc = dict_find description "rtc_cm:subscribers"
    /\ wire_ok (dict_find description "rtc_cm:subscribers") = true.
Proof.
  unfold wf_doc, subscribers_property, description_of.
  destruct doc as [| | | | |raw]; try discriminate.
  destruct (dict_get raw "rdf:RDF") as [| | | | |rdf] eqn:E1;
    try discriminate.
  destruct (dict_get rdf "rdf:Description") as [| | | | |description] eqn:E2;
    try discriminate.
  intros H. exists raw, rdf, description. repeat split; assumption.
Qed.

(** ** Equality of values *)

Lemma py_eqb_refl (v : pyval) : py_eqb v v = true.
Proof.
  induction v using pyval_nested_ind; simpl.
  - reflexivity.
  - now destruct b.
  - apply Z.eqb_refl.
  - apply String.eqb_refl.
  - induction H as [|x r Hx _ IH]; [reflexivity|].
    now rewrite Hx, IH.
  - induction H as [|[k x] r Hx _ IH]; [reflexivity|].
    simpl in Hx. now rewrite String.eqb_refl, Hx, IH.
Qed.

Lemma py_eqb_str_l (s : string) (v : pyval) :
  py_eqb (PStr s) v = true -> v = PStr s.
Proof.
  destruct v; simpl; try discriminate.
  intros H. apply String.eqb_eq in H. now subst.
Qed.

Lemma py_eqb_str_r (s : string) (v : pyval) :
  py_eqb v (PStr s) = true -> v = PStr s.
Proof.
  destruct v; simpl; try discriminate.
  intros H. apply String.eqb_eq in H. now subst.
Qed.

(** ** The member scans *)

Lemma check_exist_member (m : Member) (x : pyval) :
  is_member x = true ->
  _check_exist_subscriber m x = Ok (refers_to (member_url m) x).
Proof.
  unfold is_member, refers_to, member_ref, _check_exist_subscriber.
  destruct x as [| | | | |d]; try discriminate.
  simpl. destruct (dict_find d "@rdf:resource"); [reflexivity|discriminate].
Qed.

Lemma check_missing_member (m : Member) (x : pyval) :
  is_member x = true ->
  _check_missing_subscriber m x = Ok (negb (refers_to (member_url m) x)).
Proof.
  unfold is_member, refers_to, member_ref, _check_missing_subscriber.
  destruct x as [| | | | |d]; try discriminate.
  simpl. destruct (dict_find d "@rdf:resource"); [reflexivity|discriminate].
Qed.

Lemma scan_exist_members (m : Member) (l : list pyval) :
  forallb is_member l = true ->
  scan_exist m l = Ok (existsb (refers_to (member_url m)) l).
Proof.
  induction l as [|x r IH]; simpl; [reflexivity|].
  intros H. apply andb_prop in H as [Hx Hr].
  rewrite (check_exist_member m x Hx). simpl.
  destruct (refers_to (member_url m) x); [reflexivity|]. now apply IH.
Qed.

Lemma scan_missing_members (m : Member) (l : list pyval) :
  forallb is_member l = true ->
  scan_missing m l = Ok (find (refers_to (member_url m)) l).
Proof.
  induction l as [|x r IH]; simpl; [reflexivity|].
  intros H. apply andb_prop in H as [Hx Hr].
  rewrite (check_missing_member m x Hx). simpl.
  destruct (refers_to (member_url m) x); [reflexivity|]. now apply IH.
Qed.

Lemma is_member_new (m : Member) : is_member (new_member m) = true.
Proof. reflexivity. Qed.

Lemma refers_to_new (m : Member) :
  refers_to (member_url m) (new_member m) = true.
Proof.
  unfold refers_to, new_member. simpl. apply String.eqb_refl.
Qed.

(** ** One member added *)

(** On a well-formed representation [_add_subscriber] looks the person up
    once, reports whether a member refers to that person, and otherwise
    appends the new member, keeping the representation well formed. *)
Lemma add_subscriber_wf (self : Workitem) (email : pyval) (e : string)
    (m : Member) (doc : pyval) :
  valid_email email = Some e ->
  getOwnedBy (rtc_obj self) e = Ok m ->
  wf_doc doc = true ->
  exists doc',
    _add_subscriber self email doc
    = ([EvOwnedBy e], Ok (is_subscriber (member_url m) doc, doc'))
    /\ wf_doc doc' = true
    /\ members doc'
       = (if is_subscriber (member_url m) doc then members doc
          else (members doc ++ [new_member m])%list)
    /\ (is_subscriber (member_url m) doc = true -> doc' = doc).
Proof.
  intros He Hm Hwf.
  destruct (wf_doc_inv doc Hwf) as (raw & rdf & description & -> & Hrdf
                                    & Hdesc & Hprop & Hwire).
  unfold _add_subscriber, is_subscriber, members.
  rewrite He, Hm, Hprop. cbn [call bind]. rewrite Hrdf, Hdesc.
  unfold dict_get at 1.
  destruct (dict_find description "rtc_cm:subscribers")
    as [[| | | |l|sub]|] eqn:Hfind; try discriminate.
  - (* plural *)
    unfold wire_ok in Hwire. apply andb_prop in Hwire as [Hlen Hall].
    apply Nat.leb_le in Hlen.
    cbn [py_iter normalize]. rewrite (scan_exist_members m l Hall).
    cbn [lift bind ret app].
    destruct (existsb (refers_to (member_url m)) l) eqn:Hex.
    + exists (PDict raw). repeat split; try assumption.
      unfold members. now rewrite Hprop.
    + eexists. split; [reflexivity|]. repeat split.
      * unfold wf_doc. rewrite description_of_with, subscribers_property_with.
        rewrite dict_find_set_same. unfold wire_ok.
        apply andb_true_intro. split.
        -- apply Nat.leb_le. rewrite length_app. simpl. lia.
        -- rewrite forallb_app, Hall. reflexivity.
      * rewrite subscribers_property_with, dict_find_set_same. reflexivity.
      * discriminate.
  - (* singleton *)
    cbn [normalize existsb].
    rewrite (check_exist_member m (PDict sub) Hwire), orb_false_r.
    cbn [lift bind ret app].
    destruct (refers_to (member_url m) (PDict sub)) eqn:Hex.
    + exists (PDict raw). repeat split; try assumption.
      unfold members. now rewrite Hprop.
    + eexists. split; [reflexivity|]. repeat split.
      * unfold wf_doc. rewrite description_of_with, subscribers_property_with.
        rewrite dict_find_set_same. simpl.
        unfold is_member in Hwire. simpl in Hwire. now rewrite Hwire.
      * rewrite subscribers_property_with, dict_find_set_same. reflexivity.
      * discriminate.
  - (* absent *)
    cbn [normalize existsb ret bind app].
    eexists. split; [reflexivity|]. repeat split.
    + unfold wf_doc. rewrite description_of_with, subscribers_property_with.
      now rewrite dict_find_set_same.
    + rewrite subscribers_property_with, dict_find_set_same. reflexivity.
    + discriminate.
Qed.

(** ** One member removed *)

Lemma py_eqb_dict_find (d1 d2 : dict) (k : string) :
  py_eqb (PDict d1) (PDict d2) = true ->
  match dict_find d1 k, dict_find d2 k with
  | Some v1, Some v2 => py_eqb v1 v2 = true
  | None, None => True
  | _, _ => False
  end.
Proof.
  revert d2. induction d1 as [|[k1 v1] r1 IH]; intros [|[k2 v2] r2];
    try discriminate.
  - intros _. exact I.
  - intros H. simpl in H.
    apply andb_prop in H as [H Hr]. apply andb_prop in H as [Hk Hv].
    apply String.eqb_eq in Hk. subst k2. simpl.
    destruct (String.eqb k1 k); [assumption|]. now apply IH.
Qed.

Lemma py_eqb_refers_to (u : string) (x y : pyval) :
  is_member x = true -> is_member y = true ->
  py_eqb y x = true -> refers_to u y = refers_to u x.
Proof.
  unfold is_member, refers_to, member_ref.
  destruct x as [| | | | |dx]; try discriminate.
  destruct y as [| | | | |dy]; try discriminate.
  intros Hx Hy Heq.
  pose proof (py_eqb_dict_find dy dx "@rdf:resource" Heq) as H.
  destruct (dict_find dx "@rdf:resource") as [vx|]; [|discriminate].
  destruct (dict_find dy "@rdf:resource") as [vy|]; [|discriminate].
  destruct (py_eqb (PStr u) vy) eqn:Ey.
  - apply py_eqb_str_l in Ey. subst vy. symmetry.
    destruct vx; simpl in *; try discriminate. assumption.
  - destruct (py_eqb (PStr u) vx) eqn:Ex; [|reflexivity].
    apply py_eqb_str_l in Ex. subst vx.
    apply py_eqb_str_r in H. subst vy.
    simpl in Ey. now rewrite String.eqb_refl in Ey.
Qed.

(** [list.remove] takes out the member at which the scan stopped. *)
Lemma list_remove_found (u : string) (l : list pyval) (x : pyval) :
  forallb is_member l = true ->
  find (refers_to u) l = Some x ->
  list_remove x l = Ok (remove_first (refers_to u) l).
Proof.
  induction l as [|y r IH]; simpl; [discriminate|].
  intros Hall Hfind. apply andb_prop in Hall as [Hy Hr].
  destruct (refers_to u y) eqn:Ey.
  - injection Hfind as ->. now rewrite py_eqb_refl.
  - destruct (py_eqb y x) eqn:Eyx.
    + exfalso. apply find_some in Hfind as [Hin Hx].
      assert (Hmx : is_member x = true).
      { rewrite forallb_forall in Hr. now apply Hr. }
      rewrite (py_eqb_refers_to u x y Hmx Hy Eyx) in Ey. congruence.
    + rewrite (IH Hr Hfind). reflexivity.
Qed.

Lemma find_none_existsb (p : pyval -> bool) (l : list pyval) :
  find p l = None -> existsb p l = false.
Proof.
  induction l as [|x r IH]; simpl; [reflexivity|].
  destruct (p x); [discriminate|]. exact IH.
Qed.

Lemma find_some_existsb (p : pyval -> bool) (l : list pyval) (x : pyval) :
  find p l = Some x -> existsb p l = true.
Proof.
  induction l as [|y r IH]; simpl; [discriminate|].
  destruct (p y); [reflexivity|]. exact IH.
Qed.

Lemma remove_first_absent (p : pyval -> bool) (l : list pyval) :
  existsb p l = false -> remove_first p l = l.
Proof.
  induction l as [|x r IH]; simpl; [reflexivity|].
  destruct (p x); [discriminate|]. intros H. now rewrite IH.
Qed.

Lemma remove_first_present (p q : pyval -> bool) (l : list pyval) :
  existsb p l = true ->
  S (List.length (remove_first p l)) = List.length l
  /\ (forallb q l = true -> forallb q (remove_first p l) = true).
Proof.
  induction l as [|x r IH]; simpl; [discriminate|].
  destruct (p x).
  - intros _. split; [reflexivity|].
    intros H. now apply andb_prop in H as [_ H].
  - intros H. destruct (IH H) as [Hlen Hq]. simpl. split; [now rewrite Hlen|].
    intros Hx. apply andb_prop in Hx as [Hx Hr]. now rewrite Hx, Hq.
Qed.

(** On a well-formed representation [_remove_subscriber] looks the person
    up once, reports whether no member refers to that person, and
    otherwise takes the first such member out, keeping the representation
    well formed. *)
Lemma remove_subscriber_wf (self : Workitem) (email : pyval) (e : string)
    (m : Member) (doc : pyval) :
  valid_email email = Some e ->
  getOwnedBy (rtc_obj self) e = Ok m ->
  wf_doc doc = true ->
  exists doc',
    _remove_subscriber self email doc
    = ([EvOwnedBy e], Ok (negb (is_subscriber (member_url m) doc), doc'))
    /\ wf_doc doc' = true
    /\ members doc' = remove_first (refers_to (member_url m)) (members doc)
    /\ (is_subscriber (member_url m) doc = false -> doc' = doc).
Proof.
  intros He Hm Hwf.
  destruct (wf_doc_inv doc Hwf) as (raw & rdf & description & -> & Hrdf
                                    & Hdesc & Hprop & Hwire).
  unfold _remove_subscriber, is_subscriber, members.
  rewrite He, Hm, Hprop. cbn [call bind]. rewrite Hrdf, Hdesc.
  unfold dict_get at 1.
  destruct (dict_find description "rtc_cm:subscribers")
    as [[| | | |l|sub]|] eqn:Hfind; try discriminate.
  - (* plural *)
    unfold wire_ok in Hwire. apply andb_prop in Hwire as [Hlen Hall].
    apply Nat.leb_le in Hlen.
    cbn [py_iter normalize]. rewrite (scan_missing_members m l Hall).
    cbn [lift bind ret app].
    destruct (find (refers_to (member_url m)) l) as [x|] eqn:Hx.
    + rewrite (list_remove_found _ l x Hall Hx).
      rewrite (find_some_existsb _ _ _ Hx).
      destruct (remove_first_present (refers_to (member_url m)) is_member l
                  (find_some_existsb _ _ _ Hx)) as [Hl' Hall'].
      specialize (Hall' Hall).
      cbn [lift bind ret app negb].
      eexists. split; [reflexivity|]. repeat split; try discriminate.
      * unfold wf_doc. rewrite description_of_with, subscribers_property_with.
        rewrite dict_find_set_same.
        destruct (remove_first (refers_to (member_url m)) l)
          as [|a [|b t]] eqn:El'; simpl in Hl'; [lia| |].
        -- simpl in Hall'. rewrite andb_true_r in Hall'.
           destruct a; try discriminate. exact Hall'.
        -- unfold wire_ok. now rewrite Hall'.
      * rewrite subscribers_property_with, dict_find_set_same.
        destruct (remove_first (refers_to (member_url m)) l)
          as [|a [|b t]] eqn:El'; simpl in Hl'; [lia| |reflexivity].
        simpl in Hall'. rewrite andb_true_r in Hall'.
        destruct a; try discriminate. reflexivity.
    + rewrite (find_none_existsb _ _ Hx). cbn [negb].
      exists (PDict raw). repeat split; try assumption.
      now rewrite Hprop, (remove_first_absent _ _ (find_none_existsb _ _ Hx)).
  - (* singleton *)
    cbn [normalize existsb remove_first].
    rewrite (check_missing_member m (PDict sub) Hwire), orb_false_r.
    cbn [lift bind ret app].
    destruct (refers_to (member_url m) (PDict sub)) eqn:Hex; cbn [negb].
    + eexists. split; [reflexivity|]. repeat split; try discriminate.
      * unfold wf_doc. rewrite description_of_with, subscribers_property_with.
        now rewrite dict_find_pop_same.
      * now rewrite subscribers_property_with, dict_find_pop_same.
    + exists (PDict raw). repeat split; try assumption.
      now rewrite Hprop.
  - (* absent *)
    cbn [normalize existsb ret bind app negb remove_first].
    exists (PDict raw). repeat split; try assumption.
    now rewrite Hprop.
Qed.

(** ** Traces of composed computations *)

Lemma trace_bind {A B} (m : M A) (f : A -> M B) :
  trace (bind m f)
  = (trace m ++ match outcome m with
                | Ok a => trace (f a)
                | Raise _ => []
                end)%list.
Proof.
  destruct m as [t [a|e]]; simpl.
  - now destruct (f a).
  - now rewrite app_nil_r.
Qed.

Lemma outcome_bind {A B} (m : M A) (f : A -> M B) :
  outcome (bind m f)
  = match outcome m with
    | Ok a => outcome (f a)
    | Raise e => Raise e
    end.
Proof.
  destruct m as [t [a|e]]; simpl; [|reflexivity]. now destruct (f a).
Qed.

Lemma M_eta {A} (m : M A) : m = (trace m, outcome m).
Proof. now destruct m. Qed.

Lemma count_events_app (p : event -> bool) (t1 t2 : list event) :
  count_events p (t1 ++ t2) = (count_events p t1 + count_events p t2)%nat.
Proof. unfold count_events. now rewrite filter_app, length_app. Qed.

(** The fetch is one GET, however it ends. *)
Lemma perform_subscribe_trace (self : Workitem) :
  trace (_perform_subscribe self)
  = [EvGet (subscribers_url self) (fetch_headers self)].
Proof.
  unfold _perform_subscribe. cbv zeta. rewrite trace_bind. simpl.
  destruct (http_get _ _ _) as [resp|e]; simpl; [|reflexivity].
  now destruct (xmltodict_parse _ _).
Qed.

(** The write is at most one PUT, and no other call. *)
Lemma update_subscribe_trace (self : Workitem) (headers : dict)
    (doc : pyval) :
  trace (_update_subscribe self headers doc)
  = match xmltodict_unparse (rtc_obj self) doc with
    | Ok data => [EvPut (subscribers_url self) headers data]
    | Raise _ => []
    end.
Proof.
  unfold _update_subscribe. cbv zeta. rewrite trace_bind. simpl.
  destruct (xmltodict_unparse _ _) as [data|e]; simpl; [|reflexivity].
  now destruct (http_put _ _ _ _).
Qed.

(** The member helpers call nothing but the person lookup. *)
Lemma add_subscriber_trace (self : Workitem) (email doc : pyval) :
  forallb is_lookup (trace (_add_subscriber self email doc)) = true.
Proof.
  unfold _add_subscriber.
  destruct (valid_email email) as [e|]; [|reflexivity].
  rewrite trace_bind. simpl.
  destruct (getOwnedBy _ _) as [m|]; [|reflexivity]. simpl.
  destruct doc as [| | | | |raw]; try reflexivity.
  destruct (dict_get raw "rdf:RDF") as [| | | | |rdf]; try reflexivity.
  destruct (dict_get rdf "rdf:Description") as [| | | | |description];
    try reflexivity.
  destruct (dict_get description "rtc_cm:subscribers") as [| | |s|l|sub];
    try reflexivity.
  - destruct (scan_exist _ _) as [[|]|]; reflexivity.
  - destruct (scan_exist _ _) as [[|]|]; reflexivity.
  - destruct (_check_exist_subscriber _ _) as [[|]|]; reflexivity.
Qed.

Lemma remove_subscriber_trace (self : Workitem) (email doc : pyval) :
  forallb is_lookup (trace (_remove_subscriber self email doc)) = true.
Proof.
  unfold _remove_subscriber.
  destruct (valid_email email) as [e|]; [|reflexivity].
  rewrite trace_bind. simpl.
  destruct (getOwnedBy _ _) as [m|]; [|reflexivity]. simpl.
  destruct doc as [| | | | |raw]; try reflexivity.
  destruct (dict_get raw "rdf:RDF") as [| | | | |rdf]; try reflexivity.
  destruct (dict_get rdf "rdf:Description") as [| | | | |description];
    try reflexivity.
  destruct (dict_get description "rtc_cm:subscribers") as [| | |s|l|sub];
    try reflexivity.
  - destruct (scan_missing _ _) as [[x|]|]; reflexivity.
  - destruct (scan_missing _ _) as [[x|]|]; try reflexivity.
    now destruct (list_remove x l).
  - destruct (_check_missing_subscriber _ _) as [[|]|]; reflexivity.
Qed.

Lemma add_loop_trace (self : Workitem) (emails : list pyval) :
  forall flags doc,
    forallb is_lookup (trace (add_loop self emails flags doc)) = true.
Proof.
  induction emails as [|email rest IH]; intros flags doc; [reflexivity|].
  simpl. rewrite trace_bind, forallb_app, add_subscriber_trace. simpl.
  destruct (outcome _) as [[flag doc']|]; [apply IH|reflexivity].
Qed.

Lemma remove_loop_trace (self : Workitem) (emails : list pyval) :
  forall flags doc,
    forallb is_lookup (trace (remove_loop self emails flags doc)) = true.
Proof.
  induction emails as [|email rest IH]; intros flags doc; [reflexivity|].
  simpl. rewrite trace_bind, forallb_app, remove_subscriber_trace. simpl.
  destruct (outcome _) as [[flag doc']|]; [apply IH|reflexivity].
Qed.

Lemma lookups_count (p : event -> bool) (t : list event) :
  (forall e, is_lookup e = true -> p e = false) ->
  forallb is_lookup t = true -> count_events p t = 0%nat.
Proof.
  intros Hp. unfold count_events.
  induction t as [|e r IH]; simpl; [reflexivity|].
  intros H. apply andb_prop in H as [He Hr].
  rewrite (Hp e He). now apply IH.
Qed.

(** ** The loops of the batch calls *)

Lemma resolvable_inv (self : Workitem) (email : pyval) :
  resolvable self email = true ->
  exists e m,
    valid_email email = Some e
    /\ getOwnedBy (rtc_obj self) e = Ok m
    /\ person self email = Some m.
Proof.
  unfold resolvable, person.
  destruct (valid_email email) as [e|]; [|discriminate].
  destruct (getOwnedBy (rtc_obj self) e) as [m|] eqn:Hm; [|discriminate].
  intros _. now exists e, m.
Qed.

Lemma is_subscriber_app (u : string) (doc doc' : pyval)
    (added : list pyval) :
  members doc' = (members doc ++ added)%list ->
  is_subscriber u doc = true -> is_subscriber u doc' = true.
Proof.
  unfold is_subscriber. intros ->. rewrite existsb_app. now intros ->.
Qed.

(** The loop of [addSubscribers] on a well-formed representation, with
    every email resolvable: it completes; the overall flag stays false
    when it starts false; members are only appended; every requested
    person ends up a member. *)
Lemma add_loop_wf (self : Workitem) (emails : list pyval) :
  forall flags doc,
    wf_doc doc = true ->
    forallb (resolvable self) emails = true ->
    exists flags' doc' added,
      add_loop self emails flags doc
      = (lookup_events emails, Ok (flags', doc'))
      /\ wf_doc doc' = true
      /\ (flags = false -> flags' = false)
      /\ members doc' = (members doc ++ added)%list
      /\ forallb (subscribed self doc') emails = true
      /\ (forallb (subscribed self doc) emails = true -> doc' = doc).
Proof.
  induction emails as [|email rest IH]; intros flags doc Hwf Hres.
  - exists flags, doc, []. simpl. rewrite app_nil_r. repeat split; auto.
  - simpl in Hres. apply andb_prop in Hres as [Hres1 Hres].
    destruct (resolvable_inv self email Hres1) as (e & m & He & Hm & Hp).
    destruct (add_subscriber_wf self email e m doc He Hm Hwf)
      as (doc1 & Hrun & Hwf1 & Hmem1 & Hsame1).
    destruct (IH (flags && is_subscriber (member_url m) doc) doc1 Hwf1 Hres)
      as (flags' & doc' & added & Hloop & Hwf' & Hflag & Hmem' & Hall & Hsame).
    exists flags', doc'.
    exists ((if is_subscriber (member_url m) doc then []
             else [new_member m]) ++ added)%list.
    simpl. rewrite He, Hrun. cbn [bind]. rewrite Hloop.
    repeat split; auto.
    + intros ->. now apply Hflag.
    + rewrite Hmem', Hmem1.
      destruct (is_subscriber (member_url m) doc); simpl;
        [reflexivity | now rewrite <- app_assoc].
    + apply andb_true_intro. split; [|assumption].
      unfold subscribed. rewrite Hp.
      apply (is_subscriber_app _ doc1 doc' added Hmem').
      unfold is_subscriber. rewrite Hmem1.
      destruct (is_subscriber (member_url m) doc) eqn:Hin; [exact Hin|].
      rewrite existsb_app. simpl. now rewrite refers_to_new, orb_true_r.
    + intros H. apply andb_prop in H as [H1 Hr].
      unfold subscribed in H1. rewrite Hp in H1.
      rewrite (Hsame1 H1) in *. now apply Hsame.
Qed.

(** The loop of [removeSubscribers] on a well-formed representation, with
    every email resolvable: it completes, and its overall flag says
    whether every requested person was absent from the fetched members. *)
Lemma remove_loop_wf (self : Workitem) (emails : list pyval) :
  forall flags doc,
    wf_doc doc = true ->
    forallb (resolvable self) emails = true ->
    exists flags' doc',
      remove_loop self emails flags doc
      = (lookup_events emails, Ok (flags', doc'))
      /\ wf_doc doc' = true
      /\ flags'
         = flags && forallb (fun email => negb (subscribed self doc email))
                      emails
      /\ (flags' = true -> doc' = doc).
Proof.
  induction emails as [|email rest IH]; intros flags doc Hwf Hres.
  - exists flags, doc. simpl. rewrite andb_true_r. repeat split; auto.
  - simpl in Hres. apply andb_prop in Hres as [Hres1 Hres].
    destruct (resolvable_inv self email Hres1) as (e & m & He & Hm & Hp).
    destruct (remove_subscriber_wf self email e m doc He Hm Hwf)
      as (doc1 & Hrun & Hwf1 & Hmem1 & Hsame1).
    destruct (IH (flags && negb (is_subscriber (member_url m) doc)) doc1
                Hwf1 Hres)
      as (flags' & doc' & Hloop & Hwf' & Hflag & Hsame).
    exists flags', doc'.
    simpl. rewrite He, Hrun. cbn [bind]. rewrite Hloop.
    unfold subscribed at 1. rewrite Hp.
    destruct (is_subscriber (member_url m) doc) eqn:Hin.
    + simpl in *. rewrite andb_false_r in Hflag. simpl in Hflag.
      repeat split; auto.
      * now rewrite andb_false_r.
      * intros Ht. congruence.
    + rewrite (Hsame1 eq_refl) in *. simpl in *.
      rewrite andb_true_r in Hflag. repeat split; auto.
Qed.

(** ** Comment lookup by id *)

Lemma check_comment_id_number (py : Interp) (comment_id : pyobj) :
  check_comment_id py comment_id
  = match id_number py comment_id with
    | Some n => Ok n
    | None => Raise (BadValue InvalidCommentId)
    end.
Proof.
  unfold check_comment_id, coerce_comment_id, id_number.
  destruct comment_id as [[|b|z|s|l|d]|f]; try reflexivity.
  now destruct (int_of_str py s).
Qed.




Lemma getCommentByID_accepted (py : Interp) (self : Workitem)
    (comment_id : pyobj) (n : Z) (t : string) :
  id_number py comment_id = Some n ->
  str_of_int py n = Some t ->
  trace (getCommentByID py self comment_id)
  = [EvFetch (comment_location self t)]
  /\ outcome (getCommentByID py self comment_id)
     = match fetch_resource (rtc_obj self) (comment_location self t) with
       | Ok raw => Ok {| comment_url := comment_location self t;
                         comment_raw_data := raw |}
       | Raise HTTPError => Raise (BadValue (CommentNotExist n))
       | Raise e => Raise e
       end.
Proof.
  intros H Hs. unfold getCommentByID, comment_url_of.
  rewrite check_comment_id_number, H. cbn [lift bind].
  rewrite Hs. cbn [lift bind Comment_init call ret].
  change (join_slash [url self; "rtc_cm:comments/" ++ t])
    with (comment_location self t).
  destruct (fetch_resource (rtc_obj self) (comment_location self t))
    as [raw|[]]; split; reflexivity.
Qed.



(** C4, as the specification has it, fails: the float [3.0] is no boolean
    and [int] turns it into the integer 3, yet [getCommentByID] refuses
    it as a comment id. *)
Lemma getCommentByID_refuses_integral_float :
  is_bool (Float (Finite 3 0)) = false
  /\ int_of_float (Finite 3 0) = Some 3
  /\ int_coercible Demo.py (Float (Finite 3 0)) = true
  /\ getCommentByID Demo.py (Demo.item PNone PNone) (Float (Finite 3 0))
     = ([], Raise (BadValue InvalidCommentId)).
Proof. repeat split. Qed.

(** C3, as the code has it.  When the comment id is accepted, its number
    is formatted into the URL of the comment and the transport answers
    the fetch of the comment with an HTTP error, [getCommentByID] raises
    [BadValue] ("Comment ... does not exist"), after that one call. *)
Theorem getCommentByID_http_error (py : Interp) (self : Workitem)
    (comment_id : pyobj) (n : Z) (t : string) :
  id_number py comment_id = Some n ->
  str_of_int py n = Some t ->
  fetch_resource (rtc_obj self) (url self ++ "/rtc_cm:comments/" ++ t)
  = Raise HTTPError ->
  getCommentByID py self comment_id
  = ([EvFetch (url self ++ "/rtc_cm:comments/" ++ t)],
     Raise (BadValue (CommentNotExist n))).
Proof.
  intros Hid Ht Hfetch.
  destruct (getCommentByID_accepted py self comment_id n t Hid Ht)
    as [Htr Ho].
  unfold comment_location in Htr, Ho. rewrite Hfetch in Ho.
  rewrite (M_eta (getCommentByID py self comment_id)).
  now rewrite Htr, Ho.
Qed.

Lemma getCommentByID_http_error_witness :
  getCommentByID Demo.py (Demo.item PNone PNone) (Val (PStr "7"))
  = ([EvFetch (Demo.item_url ++ "/rtc_cm:comments/7")],
     Raise (BadValue (CommentNotExist 7))).
Proof.
  apply (getCommentByID_http_error Demo.py (Demo.item PNone PNone)
           (Val (PStr "7")) 7 "7");
    reflexivity.
Defined.

(** C3, as the specification has it, fails: on a server that answers the
    fetch of comment 7 with an HTTP error, the error raised is [BadValue]
    and not [NotFound]. *)
Lemma getCommentByID_not_NotFound :
  fetch_resource (rtc_obj (Demo.item PNone PNone))
    (Demo.item_url ++ "/rtc_cm:comments/7") = Raise HTTPError
  /\ outcome (getCommentByID Demo.py (Demo.item PNone PNone)
                (Val (PInt 7)))
     = Raise (BadValue (CommentNotExist 7))
  /\ ~ exists msg,
         outcome (getCommentByID Demo.py (Demo.item PNone PNone)
                    (Val (PInt 7)))
         = Raise (NotFound msg).
Proof.
  repeat split. intros [msg H]. discriminate H.
Qed.

(** ** Emails that do not pass the check *)

Lemma invalid_email_inv (email : pyval) :
  is_string email = false
  \/ (exists s, email = PStr s /\ contains_at s = false) ->
  valid_email email = None.
Proof.
  intros [H|(s & -> & H)].
  - destruct email; try reflexivity. discriminate.
  - simpl. now rewrite H.
Qed.

Lemma perform_subscribe_ok (self : Workitem) (h : dict) (doc : pyval) :
  outcome (_perform_subscribe self) = Ok (h, doc) ->
  _perform_subscribe self
  = ([EvGet (subscribers_url self) (fetch_headers self)], Ok (h, doc)).
Proof.
  intros H. rewrite (M_eta (_perform_subscribe self)).
  now rewrite perform_subscribe_trace, H.
Qed.

Lemma add_loop_invalid (self : Workitem) (email : pyval)
    (items : list pyval) :
  valid_email email = None -> In email items ->
  forall flags doc,
    exists err, outcome (add_loop self items flags doc) = Raise err.
Proof.
  intros Hbad. induction items as [|x r IH]; intros Hin flags doc;
    [contradiction|].
  simpl. rewrite outcome_bind.
  destruct (outcome (_add_subscriber self x doc)) as [[f d]|err] eqn:Hx.
  - destruct Hin as [->|Hin]; [|now apply IH].
    unfold _add_subscriber in Hx. rewrite Hbad in Hx. discriminate.
  - now exists err.
Qed.

Lemma remove_loop_invalid (self : Workitem) (email : pyval)
    (items : list pyval) :
  valid_email email = None -> In email items ->
  forall flags doc,
    exists err, outcome (remove_loop self items flags doc) = Raise err.
Proof.
  intros Hbad. induction items as [|x r IH]; intros Hin flags doc;
    [contradiction|].
  simpl. rewrite outcome_bind.
  destruct (outcome (_remove_subscriber self x doc)) as [[f d]|err] eqn:Hx.
  - destruct Hin as [->|Hin]; [|now apply IH].
    unfold _remove_subscriber in Hx. rewrite Hbad in Hx. discriminate.
  - now exists err.
Qed.

Lemma add_loop_stops (self : Workitem) (email : pyval)
    (pre post : list pyval) :
  valid_email email = None ->
  forallb (resolvable self) pre = true ->
  forall flags doc,
    wf_doc doc = true ->
    add_loop self (pre ++ email :: post) flags doc
    = (lookup_events pre, Raise (BadValue (InvalidEmail email))).
Proof.
  intros Hbad. induction pre as [|x r IH]; intros Hres flags doc Hwf.
  - simpl. unfold _add_subscriber. now rewrite Hbad.
  - simpl in Hres. apply andb_prop in Hres as [Hx Hr].
    destruct (resolvable_inv self x Hx) as (e & m & He & Hm & _).
    destruct (add_subscriber_wf self x e m doc He Hm Hwf)
      as (doc1 & Hrun & Hwf1 & _).
    simpl. rewrite Hrun, He. cbn [bind]. now rewrite (IH Hr _ _ Hwf1).
Qed.

Lemma remove_loop_stops (self : Workitem) (email : pyval)
    (pre post : list pyval) :
  valid_email email = None ->
  forallb (resolvable self) pre = true ->
  forall flags doc,
    wf_doc doc = true ->
    remove_loop self (pre ++ email :: post) flags doc
    = (lookup_events pre, Raise (BadValue (InvalidEmail email))).
Proof.
  intros Hbad. induction pre as [|x r IH]; intros Hres flags doc Hwf.
  - simpl. unfold _remove_subscriber. now rewrite Hbad.
  - simpl in Hres. apply andb_prop in Hres as [Hx Hr].
    destruct (resolvable_inv self x Hx) as (e & m & He & Hm & _).
    destruct (remove_subscriber_wf self x e m doc He Hm Hwf)
      as (doc1 & Hrun & Hwf1 & _).
    simpl. rewrite Hrun, He. cbn [bind]. now rewrite (IH Hr _ _ Hwf1).
Qed.

(** The calls of a batch run whose loop raises: the fetch and lookups. *)
Lemma batch_failed_counts (t : list event) (g : event) :
  is_get g = true -> is_put g = false ->
  forallb is_lookup t = true ->
  count_events is_get (g :: t) = 1%nat
  /\ count_events is_put (g :: t) = 0%nat.
Proof.
  intros Hg Hp Ht.
  change (g :: t) with ([g] ++ t)%list. rewrite !count_events_app.
  rewrite (lookups_count is_get t), (lookups_count is_put t); auto.
  - unfold count_events. simpl. now rewrite Hg, Hp.
  - now intros [].
  - now intros [].
Qed.

(** C2, as the code has it.  An email that is not a string, or that has no
    [@], makes the four subscriber calls raise [BadValue] after the GET
    that fetches the subscribers, not before it.  When that fetch
    succeeds, [addSubscriber] and [removeSubscriber] raise [BadValue]
    having made exactly that one GET.  A batch call whose emails contain
    such an email makes one GET, no PUT, and does not return normally; on
    a well-formed representation it raises [BadValue] when the loop
    reaches the email, after the lookups of the emails before it. *)
Theorem invalid_email_raises_after_fetch (self : Workitem) (email : pyval) :
  is_string email = false
  \/ (exists s, email = PStr s /\ contains_at s = false) ->
  (forall h doc,
      outcome (_perform_subscribe self) = Ok (h, doc) ->
      addSubscriber self email
      = ([EvGet (subscribers_url self) (fetch_headers self)],
         Raise (BadValue (InvalidEmail email)))
      /\ removeSubscriber self email
         = ([EvGet (subscribers_url self) (fetch_headers self)],
            Raise (BadValue (InvalidEmail email))))
  /\ (forall emails_list items run,
         py_iter emails_list = Some items -> In email items ->
         run = addSubscribers self emails_list
         \/ run = removeSubscribers self emails_list ->
         count_events is_get (trace run) = 1%nat
         /\ count_events is_put (trace run) = 0%nat
         /\ exists err, outcome run = Raise err)
  /\ (forall emails_list pre post h doc,
         py_iter emails_list = Some (pre ++ email :: post)%list ->
         forallb (resolvable self) pre = true ->
         outcome (_perform_subscribe self) = Ok (h, doc) ->
         wf_doc doc = true ->
         addSubscribers self emails_list
         = (EvGet (subscribers_url self) (fetch_headers self)
              :: lookup_events pre,
            Raise (BadValue (InvalidEmail email)))
         /\ removeSubscribers self emails_list
            = (EvGet (subscribers_url self) (fetch_headers self)
                 :: lookup_events pre,
               Raise (BadValue (InvalidEmail email)))).
Proof.
  intros Hemail. apply invalid_email_inv in Hemail as Hbad.
  split; [|split].
  - intros h doc Hfetch.
    unfold addSubscriber, removeSubscriber.
    rewrite (perform_subscribe_ok self h doc Hfetch).
    unfold _add_subscriber, _remove_subscriber. rewrite Hbad.
    split; reflexivity.
  - intros emails_list items run Hiter Hin Hrun.
    assert (Hg : is_get (EvGet (subscribers_url self) (fetch_headers self))
                 = true) by reflexivity.
    assert (Hp : is_put (EvGet (subscribers_url self) (fetch_headers self))
                 = false) by reflexivity.
    destruct Hrun as [-> | ->].
    + unfold addSubscribers. rewrite Hiter. cbv zeta.
      rewrite trace_bind, outcome_bind, perform_subscribe_trace.
      destruct (outcome (_perform_subscribe self)) as [[h doc]|err].
      * destruct (add_loop_invalid self email items Hbad Hin false doc)
          as [err Herr].
        rewrite trace_bind, outcome_bind, Herr, app_nil_r.
        destruct (batch_failed_counts _ _ Hg Hp
                    (add_loop_trace self items false doc)) as [H1 H2].
        repeat split; try assumption. now exists err.
      * repeat split. now exists err.
    + unfold removeSubscribers. rewrite Hiter. cbv zeta.
      rewrite trace_bind, outcome_bind, perform_subscribe_trace.
      destruct (outcome (_perform_subscribe self)) as [[h doc]|err].
      * destruct (remove_loop_invalid self email items Hbad Hin true doc)
          as [err Herr].
        rewrite trace_bind, outcome_bind, Herr, app_nil_r.
        destruct (batch_failed_counts _ _ Hg Hp
                    (remove_loop_trace self items true doc)) as [H1 H2].
        repeat split; try assumption. now exists err.
      * repeat split. now exists err.
  - intros emails_list pre post h doc Hiter Hres Hfetch Hwf.
    unfold addSubscribers, removeSubscribers. rewrite Hiter. cbv zeta.
    rewrite (perform_subscribe_ok self h doc Hfetch). cbn [bind].
    rewrite (add_loop_stops self email pre post Hbad Hres false doc Hwf).
    rewrite (remove_loop_stops self email pre post Hbad Hres true doc Hwf).
    split; reflexivity.
Qed.

Lemma invalid_email_raises_after_fetch_witness :
  addSubscriber (Demo.item (Demo.doc None) PNone) (PStr "nobody")
  = ([EvGet (subscribers_url (Demo.item (Demo.doc None) PNone))
        (fetch_headers (Demo.item (Demo.doc None) PNone))],
     Raise (BadValue (InvalidEmail (PStr "nobody"))))
  /\ removeSubscribers (Demo.item (Demo.doc None) PNone)
       (PList [PStr "a@x.com"; PInt 5; PStr "b@x.com"])
     = ([EvGet (subscribers_url (Demo.item (Demo.doc None) PNone))
           (fetch_headers (Demo.item (Demo.doc None) PNone));
         EvOwnedBy "a@x.com"],
        Raise (BadValue (InvalidEmail (PInt 5)))).
Proof.
  split.
  - assert (Hbad : is_string (PStr "nobody") = false
                   \/ (exists s, PStr "nobody" = PStr s
                                 /\ contains_at s = false)).
    { right. exists "nobody". split; reflexivity. }
    pose proof (invalid_email_raises_after_fetch
                  (Demo.item (Demo.doc None) PNone) (PStr "nobody") Hbad)
      as [Hsingle _].
    apply (Hsingle (dict_set
                      (fetch_headers (Demo.item (Demo.doc None) PNone))
                      "If-Match" (PStr "v1"))
                   (Demo.doc None)).
    reflexivity.
  - assert (Hbad : is_string (PInt 5) = false
                   \/ (exists s, PInt 5 = PStr s /\ contains_at s = false)).
    { left. reflexivity. }
    pose proof (invalid_email_raises_after_fetch
                  (Demo.item (Demo.doc None) PNone) (PInt 5) Hbad)
      as [_ [_ Hbatch]].
    apply (Hbatch (PList [PStr "a@x.com"; PInt 5; PStr "b@x.com"])
                  [PStr "a@x.com"] [PStr "b@x.com"]
                  (dict_set
                     (fetch_headers (Demo.item (Demo.doc None) PNone))
                     "If-Match" (PStr "v1"))
                  (Demo.doc None)); reflexivity.
Defined.

(** C2, as the specification has it, fails: [addSubscriber] with an email
    without [@] raises [BadValue], and by then the transport has been
    called: the trace holds the GET. *)
Lemma addSubscriber_invalid_email_fetches :
  valid_email (PStr "nobody") = None
  /\ outcome (addSubscriber (Demo.item (Demo.doc None) PNone)
                (PStr "nobody"))
     = Raise (BadValue (InvalidEmail (PStr "nobody")))
  /\ count_events is_get
       (trace (addSubscriber (Demo.item (Demo.doc None) PNone)
                 (PStr "nobody")))
     = 1%nat
  /\ trace (addSubscriber (Demo.item (Demo.doc None) PNone) (PStr "nobody"))
     <> [].
Proof.
  repeat split. discriminate.
Qed.

(** ** A string passed for the list of emails *)



(** ** Whole runs on a well-formed representation *)

Lemma addSubscriber_run (self : Workitem) (email : pyval) (e : string)
    (m : Member) (h : dict) (doc : pyval) :
  valid_email email = Some e ->
  getOwnedBy (rtc_obj self) e = Ok m ->
  outcome (_perform_subscribe self) = Ok (h, doc) ->
  wf_doc doc = true ->
  exists doc',
    _add_subscriber self email doc
    = ([EvOwnedBy e], Ok (is_subscriber (member_url m) doc, doc'))
    /\ wf_doc doc' = true
    /\ members doc'
       = (if is_subscriber (member_url m) doc then members doc
          else (members doc ++ [new_member m])%list)
    /\ addSubscriber self email
       = if is_subscriber (member_url m) doc
         then ([EvGet (subscribers_url self) (fetch_headers self);
                EvOwnedBy e], Ok tt)
         else (EvGet (subscribers_url self) (fetch_headers self)
                 :: EvOwnedBy e :: trace (_update_subscribe self h doc'),
               outcome (_update_subscribe self h doc')).
Proof.
  intros He Hm Hfetch Hwf.
  destruct (add_subscriber_wf self email e m doc He Hm Hwf)
    as (doc' & Hrun & Hwf' & Hmem & _).
  exists doc'. repeat split; try assumption.
  unfold addSubscriber.
  rewrite (perform_subscribe_ok self h doc Hfetch). cbn [bind].
  rewrite Hrun. cbn [bind].
  destruct (is_subscriber (member_url m) doc); [reflexivity|].
  now destruct (_update_subscribe self h doc').
Qed.

Lemma removeSubscriber_run (self : Workitem) (email : pyval) (e : string)
    (m : Member) (h : dict) (doc : pyval) :
  valid_email email = Some e ->
  getOwnedBy (rtc_obj self) e = Ok m ->
  outcome (_perform_subscribe self) = Ok (h, doc) ->
  wf_doc doc = true ->
  exists doc',
    wf_doc doc' = true
    /\ members doc' = remove_first (refers_to (member_url m)) (members doc)
    /\ removeSubscriber self email
       = if is_subscriber (member_url m) doc
         then (EvGet (subscribers_url self) (fetch_headers self)
                 :: EvOwnedBy e :: trace (_update_subscribe self h doc'),
               outcome (_update_subscribe self h doc'))
         else ([EvGet (subscribers_url self) (fetch_headers self);
                EvOwnedBy e], Ok tt).
Proof.
  intros He Hm Hfetch Hwf.
  destruct (remove_subscriber_wf self email e m doc He Hm Hwf)
    as (doc' & Hrun & Hwf' & Hmem & _).
  exists doc'. repeat split; try assumption.
  unfold removeSubscriber.
  rewrite (perform_subscribe_ok self h doc Hfetch). cbn [bind].
  rewrite Hrun. cbn [bind].
  destruct (is_subscriber (member_url m) doc); [|reflexivity].
  cbn [negb]. now destruct (_update_subscribe self h doc').
Qed.

Lemma addSubscribers_run (self : Workitem) (emails_list : pyval)
    (items : list pyval) (h : dict) (doc : pyval) :
  py_iter emails_list = Some items ->
  forallb (resolvable self) items = true ->
  outcome (_perform_subscribe self) = Ok (h, doc) ->
  wf_doc doc = true ->
  exists doc' added,
    wf_doc doc' = true
    /\ members doc' = (members doc ++ added)%list
    /\ forallb (subscribed self doc') items = true
    /\ (forallb (subscribed self doc) items = true -> doc' = doc)
    /\ addSubscribers self emails_list
       = ((EvGet (subscribers_url self) (fetch_headers self)
             :: lookup_events items
             ++ trace (_update_subscribe self h doc'))%list,
          outcome (_update_subscribe self h doc')).
Proof.
  intros Hiter Hres Hfetch Hwf.
  destruct (add_loop_wf self items false doc Hwf Hres)
    as (flags' & doc' & added & Hloop & Hwf' & Hflag & Hmem & Hall & Hsame).
  rewrite (Hflag eq_refl) in Hloop.
  exists doc', added. repeat split; try assumption.
  unfold addSubscribers. rewrite Hiter. cbv zeta.
  rewrite (perform_subscribe_ok self h doc Hfetch). cbn [bind].
  rewrite Hloop. cbn [bind].
  now destruct (_update_subscribe self h doc').
Qed.

Lemma removeSubscribers_run (self : Workitem) (emails_list : pyval)
    (items : list pyval) (h : dict) (doc : pyval) :
  py_iter emails_list = Some items ->
  forallb (resolvable self) items = true ->
  outcome (_perform_subscribe self) = Ok (h, doc) ->
  wf_doc doc = true ->
  exists doc',
    wf_doc doc' = true
    /\ removeSubscribers self emails_list
       = if forallb (fun email => negb (subscribed self doc email)) items
         then (EvGet (subscribers_url self) (fetch_headers self)
                 :: lookup_events items, Ok tt)
         else ((EvGet (subscribers_url self) (fetch_headers self)
                  :: lookup_events items
                  ++ trace (_update_subscribe self h doc'))%list,
               outcome (_update_subscribe self h doc')).
Proof.
  intros Hiter Hres Hfetch Hwf.
  destruct (remove_loop_wf self items true doc Hwf Hres)
    as (flags' & doc' & Hloop & Hwf' & Hflag & Hsame).
  simpl in Hflag. subst flags'.
  exists doc'. split; [assumption|].
  unfold removeSubscribers. rewrite Hiter. cbv zeta.
  rewrite (perform_subscribe_ok self h doc Hfetch). cbn [bind].
  rewrite Hloop. cbn [bind].
  destruct (forallb (fun email => negb (subscribed self doc email)) items).
  - cbn [ret]. now rewrite app_nil_r.
  - now destruct (_update_subscribe self h doc').
Qed.

(** A helper that ends normally was given a resolvable email. *)
Lemma add_subscriber_ok_resolvable (self : Workitem) (email doc : pyval)
    (r : bool * pyval) :
  outcome (_add_subscriber self email doc) = Ok r ->
  resolvable self email = true.
Proof.
  unfold _add_subscriber, resolvable, person.
  destruct (valid_email email) as [e|]; [|discriminate].
  rewrite outcome_bind. simpl.
  now destruct (getOwnedBy (rtc_obj self) e).
Qed.

Lemma remove_subscriber_ok_resolvable (self : Workitem) (email doc : pyval)
    (r : bool * pyval) :
  outcome (_remove_subscriber self email doc) = Ok r ->
  resolvable self email = true.
Proof.
  unfold _remove_subscriber, resolvable, person.
  destruct (valid_email email) as [e|]; [|discriminate].
  rewrite outcome_bind. simpl.
  now destruct (getOwnedBy (rtc_obj self) e).
Qed.

Lemma add_loop_ok_resolvable (self : Workitem) (items : list pyval) :
  forall flags doc r,
    outcome (add_loop self items flags doc) = Ok r ->
    forallb (resolvable self) items = true.
Proof.
  induction items as [|x rest IH]; intros flags doc r; [reflexivity|].
  simpl. rewrite outcome_bind.
  destruct (outcome (_add_subscriber self x doc)) as [[f d]|] eqn:Hx;
    [|discriminate].
  intros H. rewrite (add_subscriber_ok_resolvable _ _ _ _ Hx). simpl.
  now apply (IH _ _ _ H).
Qed.

Lemma remove_loop_ok_resolvable (self : Workitem) (items : list pyval) :
  forall flags doc r,
    outcome (remove_loop self items flags doc) = Ok r ->
    forallb (resolvable self) items = true.
Proof.
  induction items as [|x rest IH]; intros flags doc r; [reflexivity|].
  simpl. rewrite outcome_bind.
  destruct (outcome (_remove_subscriber self x doc)) as [[f d]|] eqn:Hx;
    [|discriminate].
  intros H. rewrite (remove_subscriber_ok_resolvable _ _ _ _ Hx). simpl.
  now apply (IH _ _ _ H).
Qed.

(** ** Batch calls: one fetch, at most one write *)

Lemma update_subscribe_counts (self : Workitem) (h : dict) (doc : pyval) :
  count_events is_get (trace (_update_subscribe self h doc)) = 0%nat
  /\ (count_events is_put (trace (_update_subscribe self h doc)) <= 1)%nat
  /\ filter is_lookup (trace (_update_subscribe self h doc)) = [].
Proof.
  rewrite update_subscribe_trace.
  destruct (xmltodict_unparse (rtc_obj self) doc); repeat split;
    unfold count_events; simpl; lia.
Qed.

Lemma batch_counts (g : event) (tl tu : list event) :
  is_get g = true -> is_put g = false ->
  forallb is_lookup tl = true ->
  count_events is_get tu = 0%nat ->
  (count_events is_put tu <= 1)%nat ->
  count_events is_get ([g] ++ tl ++ tu) = 1%nat
  /\ (count_events is_put ([g] ++ tl ++ tu) <= 1)%nat.
Proof.
  intros Hg Hp Hl Hug Hup. rewrite !count_events_app.
  rewrite (lookups_count is_get tl), (lookups_count is_put tl); auto;
    try (now intros []).
  unfold count_events at 1 3. simpl. rewrite Hg, Hp. simpl. lia.
Qed.

Lemma addSubscribers_counts (self : Workitem) (emails_list : pyval)
    (items : list pyval) :
  py_iter emails_list = Some items ->
  count_events is_get (trace (addSubscribers self emails_list)) = 1%nat
  /\ (count_events is_put (trace (addSubscribers self emails_list)) <= 1)%nat.
Proof.
  intros Hiter. unfold addSubscribers. rewrite Hiter. cbv zeta.
  rewrite trace_bind, perform_subscribe_trace.
  destruct (outcome (_perform_subscribe self)) as [[h doc]|err].
  - rewrite trace_bind.
    apply batch_counts; try reflexivity; [apply add_loop_trace| |].
    + destruct (outcome (add_loop self items false doc)) as [[[|] d]|];
        try reflexivity. apply update_subscribe_counts.
    + destruct (outcome (add_loop self items false doc)) as [[[|] d]|];
        try (unfold count_events; simpl; lia). apply update_subscribe_counts.
  - split; [reflexivity|]. unfold count_events. simpl. lia.
Qed.

Lemma removeSubscribers_counts (self : Workitem) (emails_list : pyval)
    (items : list pyval) :
  py_iter emails_list = Some items ->
  count_events is_get (trace (removeSubscribers self emails_list)) = 1%nat
  /\ (count_events is_put (trace (removeSubscribers self emails_list))
      <= 1)%nat.
Proof.
  intros Hiter. unfold removeSubscribers. rewrite Hiter. cbv zeta.
  rewrite trace_bind, perform_subscribe_trace.
  destruct (outcome (_perform_subscribe self)) as [[h doc]|err].
  - rewrite trace_bind.
    apply batch_counts; try reflexivity; [apply remove_loop_trace| |].
    + destruct (outcome (remove_loop self items true doc)) as [[[|] d]|];
        try reflexivity. apply update_subscribe_counts.
    + destruct (outcome (remove_loop self items true doc)) as [[[|] d]|];
        try (unfold count_events; simpl; lia). apply update_subscribe_counts.
  - split; [reflexivity|]. unfold count_events. simpl. lia.
Qed.

(** The loop of [addSubscribers] on a well-formed representation, with
    every email resolvable: it completes, and the members afterwards are
    those of the request entered one after the other. *)
Lemma add_loop_members (self : Workitem) (emails : list pyval) :
  forall flags doc,
    wf_doc doc = true ->
    forallb (resolvable self) emails = true ->
    exists flags' doc',
      add_loop self emails flags doc
      = (lookup_events emails, Ok (flags', doc'))
      /\ wf_doc doc' = true
      /\ (flags = false -> flags' = false)
      /\ members doc' = members_after_add self emails (members doc).
Proof.
  induction emails as [|email rest IH]; intros flags doc Hwf Hres.
  - exists flags, doc. simpl. repeat split; auto.
  - simpl in Hres. apply andb_prop in Hres as [Hres1 Hres].
    destruct (resolvable_inv self email Hres1) as (e & m & He & Hm & Hp).
    destruct (add_subscriber_wf self email e m doc He Hm Hwf)
      as (doc1 & Hrun & Hwf1 & Hmem1 & _).
    destruct (IH (flags && is_subscriber (member_url m) doc) doc1 Hwf1 Hres)
      as (flags' & doc' & Hloop & Hwf' & Hflag & Hmem').
    exists flags', doc'.
    simpl. rewrite He, Hrun. cbn [bind]. rewrite Hloop, Hp.
    repeat split; auto.
    + intros ->. now apply Hflag.
    + rewrite Hmem', Hmem1. unfold is_subscriber.
      now destruct (existsb (refers_to (member_url m)) (members doc)).
Qed.

(** The loop of [removeSubscribers] likewise: the members afterwards are
    what is left once the persons of the request have been taken out one
    after the other, and the overall flag says whether every one of them
    was absent from the fetched members. *)
Lemma remove_loop_members (self : Workitem) (emails : list pyval) :
  forall flags doc,
    wf_doc doc = true ->
    forallb (resolvable self) emails = true ->
    exists flags' doc',
      remove_loop self emails flags doc
      = (lookup_events emails, Ok (flags', doc'))
      /\ wf_doc doc' = true
      /\ flags'
         = flags && forallb (fun email => negb (subscribed self doc email))
                      emails
      /\ members doc' = members_after_remove self emails (members doc).
Proof.
  induction emails as [|email rest IH]; intros flags doc Hwf Hres.
  - exists flags, doc. simpl. rewrite andb_true_r. repeat split; auto.
  - simpl in Hres. apply andb_prop in Hres as [Hres1 Hres].
    destruct (resolvable_inv self email Hres1) as (e & m & He & Hm & Hp).
    destruct (remove_subscriber_wf self email e m doc He Hm Hwf)
      as (doc1 & Hrun & Hwf1 & Hmem1 & Hsame1).
    destruct (IH (flags && negb (is_subscriber (member_url m) doc)) doc1
                Hwf1 Hres)
      as (flags' & doc' & Hloop & Hwf' & Hflag & Hmem').
    exists flags', doc'.
    simpl. rewrite He, Hrun. cbn [bind]. rewrite Hloop, Hp.
    unfold subscribed at 1. rewrite Hp.
    repeat split; auto.
    + rewrite Hflag.
      destruct (is_subscriber (member_url m) doc) eqn:Hin.
      * simpl. now rewrite andb_false_r.
      * rewrite (Hsame1 eq_refl). simpl.
        now rewrite andb_true_r.
    + now rewrite Hmem', Hmem1.
Qed.

(** C9.  A batch call with an iterable argument makes exactly one GET and
    at most one PUT, however it ends.  When the fetch yields a well-formed
    representation, every email is resolvable and the representation can
    be serialised, the lookups follow the order of the emails, between the
    GET and the PUT, and what is written is a well-formed representation
    whose members are those fetched with the requested persons entered,
    or taken out, one after the other in the order of the request;
    [removeSubscribers] makes no PUT exactly when every requested person
    is absent from the fetched members, and one PUT otherwise. *)
Theorem batch_one_fetch_one_write (self : Workitem) (emails_list : pyval)
    (items : list pyval) :
  py_iter emails_list = Some items ->
  (count_events is_get (trace (addSubscribers self emails_list)) = 1%nat
   /\ (count_events is_put (trace (addSubscribers self emails_list))
       <= 1)%nat
   /\ count_events is_get (trace (removeSubscribers self emails_list))
      = 1%nat
   /\ (count_events is_put (trace (removeSubscribers self emails_list))
       <= 1)%nat)
  /\ (forall h doc,
         outcome (_perform_subscribe self) = Ok (h, doc) ->
         wf_doc doc = true ->
         forallb (resolvable self) items = true ->
         (forall d, wf_doc d = true ->
                    exists data, xmltodict_unparse (rtc_obj self) d
                                 = Ok data) ->
         (exists doc' data,
             wf_doc doc' = true
             /\ members doc' = members_after_add self items (members doc)
             /\ xmltodict_unparse (rtc_obj self) doc' = Ok data
             /\ trace (addSubscribers self emails_list)
                = (EvGet (subscribers_url self) (fetch_headers self)
                     :: lookup_events items
                     ++ [EvPut (subscribers_url self) h data])%list)
         /\ (forallb (fun email => negb (subscribed self doc email)) items
             = true ->
             removeSubscribers self emails_list
             = (EvGet (subscribers_url self) (fetch_headers self)
                  :: lookup_events items, Ok tt))
         /\ (forallb (fun email => negb (subscribed self doc email)) items
             = false ->
             exists doc' data,
               wf_doc doc' = true
               /\ members doc'
                  = members_after_remove self items (members doc)
               /\ xmltodict_unparse (rtc_obj self) doc' = Ok data
               /\ trace (removeSubscribers self emails_list)
                  = (EvGet (subscribers_url self) (fetch_headers self)
                       :: lookup_events items
                       ++ [EvPut (subscribers_url self) h data])%list)
         /\ (count_events is_put (trace (removeSubscribers self emails_list))
             = 0%nat
             <-> forallb (fun email => negb (subscribed self doc email))
                   items = true)).
Proof.
  intros Hiter. split.
  - destruct (addSubscribers_counts self emails_list items Hiter).
    destruct (removeSubscribers_counts self emails_list items Hiter).
    repeat split; assumption.
  - intros h doc Hfetch Hwf Hres Hser.
    destruct (add_loop_members self items false doc Hwf Hres)
      as (fa & da & Hloopa & Hwfa & Hfa & Hmema).
    rewrite (Hfa eq_refl) in Hloopa.
    destruct (remove_loop_members self items true doc Hwf Hres)
      as (fr & dr & Hloopr & Hwfr & Hfr & Hmemr).
    simpl in Hfr. subst fr.
    destruct (Hser da Hwfa) as [xa Hxa].
    destruct (Hser dr Hwfr) as [xr Hxr].
    assert (Hadd : trace (addSubscribers self emails_list)
                   = (EvGet (subscribers_url self) (fetch_headers self)
                        :: lookup_events items
                        ++ [EvPut (subscribers_url self) h xa])%list).
    { unfold addSubscribers. rewrite Hiter. cbv zeta.
      rewrite (perform_subscribe_ok self h doc Hfetch). cbn [bind].
      rewrite Hloopa. cbn [bind].
      pose proof (update_subscribe_trace self h da) as Hup.
      rewrite Hxa in Hup.
      destruct (_update_subscribe self h da) as [tu ru].
      cbn [trace fst] in *. now rewrite Hup. }
    assert (Hrem : removeSubscribers self emails_list
                   = if forallb
                          (fun email => negb (subscribed self doc email))
                          items
                     then (EvGet (subscribers_url self) (fetch_headers self)
                             :: lookup_events items, Ok tt)
                     else ((EvGet (subscribers_url self)
                              (fetch_headers self)
                              :: lookup_events items
                              ++ [EvPut (subscribers_url self) h xr])%list,
                           outcome (_update_subscribe self h dr))).
    { unfold removeSubscribers. rewrite Hiter. cbv zeta.
      rewrite (perform_subscribe_ok self h doc Hfetch). cbn [bind].
      rewrite Hloopr. cbn [bind].
      destruct (forallb (fun email => negb (subscribed self doc email))
                  items).
      - cbn [ret]. now rewrite app_nil_r.
      - pose proof (update_subscribe_trace self h dr) as Hup.
        rewrite Hxr in Hup.
        destruct (_update_subscribe self h dr) as [tu ru].
        cbn [trace fst outcome snd] in *. now rewrite Hup. }
    assert (Hcount :
              count_events is_put
                (EvGet (subscribers_url self) (fetch_headers self)
                   :: lookup_events items) = 0%nat).
    { pose proof (remove_loop_trace self items true doc) as Ht.
      rewrite Hloopr in Ht. simpl in Ht.
      change (EvGet (subscribers_url self) (fetch_headers self)
                :: lookup_events items)
        with ([EvGet (subscribers_url self) (fetch_headers self)]
                ++ lookup_events items)%list.
      rewrite count_events_app, (lookups_count is_put (lookup_events items));
        [reflexivity | now intros [] | exact Ht]. }
    split; [exists da, xa; now repeat split|].
    rewrite Hrem.
    destruct (forallb (fun email => negb (subscribed self doc email)) items).
    + split; [reflexivity|].
      split; [discriminate|]. split; [reflexivity|]. intros _. exact Hcount.
    + split; [discriminate|].
      split; [intros _; exists dr, xr; now repeat split|].
      split; [|discriminate].
      cbn [trace fst].
      change (EvGet (subscribers_url self) (fetch_headers self)
                :: lookup_events items
                ++ [EvPut (subscribers_url self) h xr])%list
        with ((EvGet (subscribers_url self) (fetch_headers self)
                 :: lookup_events items)
                ++ [EvPut (subscribers_url self) h xr])%list.
      rewrite count_events_app, Hcount. discriminate.
Qed.

Lemma batch_one_fetch_one_write_witness :
  trace (removeSubscribers
           (Ledger.item (Demo.doc (Some (PList [Demo.ref "a@x.com";
                                                Demo.ref "b@x.com"]))))
           (PList [PStr "b@x.com"; PStr "c@x.com"]))
  = [EvGet (subscribers_url (Ledger.item PNone))
       (fetch_headers (Ledger.item PNone));
     EvOwnedBy "b@x.com"; EvOwnedBy "c@x.com";
     EvPut (subscribers_url (Ledger.item PNone))
       (dict_set (fetch_headers (Ledger.item PNone)) "If-Match" (PStr "v1"))
       "https://rtc.example/jts/users/a@x.com"]
  /\ trace (addSubscribers
              (Ledger.item (Demo.doc (Some (PList [Demo.ref "a@x.com";
                                                   Demo.ref "b@x.com"]))))
              (PList [PStr "c@x.com"; PStr "a@x.com"]))
     = [EvGet (subscribers_url (Ledger.item PNone))
          (fetch_headers (Ledger.item PNone));
        EvOwnedBy "c@x.com"; EvOwnedBy "a@x.com";
        EvPut (subscribers_url (Ledger.item PNone))
          (dict_set (fetch_headers (Ledger.item PNone)) "If-Match"
             (PStr "v1"))
          ("https://rtc.example/jts/users/a@x.com,"
           ++ "https://rtc.example/jts/users/b@x.com,"
           ++ "https://rtc.example/jts/users/c@x.com")].
Proof.
  pose proof (batch_one_fetch_one_write
                (Ledger.item (Demo.doc (Some (PList [Demo.ref "a@x.com";
                                                     Demo.ref "b@x.com"]))))
                (PList [PStr "b@x.com"; PStr "c@x.com"])
                [PStr "b@x.com"; PStr "c@x.com"] eq_refl)
    as [_ Hremove].
  pose proof (batch_one_fetch_one_write
                (Ledger.item (Demo.doc (Some (PList [Demo.ref "a@x.com";
                                                     Demo.ref "b@x.com"]))))
                (PList [PStr "c@x.com"; PStr "a@x.com"])
                [PStr "c@x.com"; PStr "a@x.com"] eq_refl)
    as [_ Hadd].
  split.
  - destruct (Hremove
                (dict_set (fetch_headers (Ledger.item PNone)) "If-Match"
                   (PStr "v1"))
                (Demo.doc (Some (PList [Demo.ref "a@x.com";
                                        Demo.ref "b@x.com"])))
                eq_refl eq_refl eq_refl
                (fun d _ => ex_intro _ _ eq_refl))
      as (_ & _ & Hwrite & _).
    destruct (Hwrite eq_refl) as (doc' & data & _ & Hmem & Hdata & Htrace).
    cbn [xmltodict_unparse rtc_obj Ledger.item Ledger.rtc] in Hdata.
    unfold Ledger.show in Hdata. rewrite Hmem in Hdata.
    injection Hdata as <-. exact Htrace.
  - destruct (Hadd
                (dict_set (fetch_headers (Ledger.item PNone)) "If-Match"
                   (PStr "v1"))
                (Demo.doc (Some (PList [Demo.ref "a@x.com";
                                        Demo.ref "b@x.com"])))
                eq_refl eq_refl eq_refl
                (fun d _ => ex_intro _ _ eq_refl))
      as ((doc' & data & _ & Hmem & Hdata & Htrace) & _).
    cbn [xmltodict_unparse rtc_obj Ledger.item Ledger.rtc] in Hdata.
    unfold Ledger.show in Hdata. rewrite Hmem in Hdata.
    injection Hdata as <-. exact Htrace.
Defined.

(** ** Batch add: the overall flag *)

(** The overall flag of [addSubscribers] starts false and is only ever
    and-ed: the loop cannot make it true. *)
Lemma add_loop_flag_false (self : Workitem) (items : list pyval) :
  forall doc flags doc',
    outcome (add_loop self items false doc) = Ok (flags, doc') ->
    flags = false.
Proof.
  induction items as [|x rest IH]; intros doc flags doc'; simpl.
  - now intros [= <- _].
  - rewrite outcome_bind.
    destruct (outcome (_add_subscriber self x doc)) as [[f d]|];
      [|discriminate].
    apply IH.
Qed.

(** On a well-formed representation, with resolvable emails and a
    serialiser that accepts it, [addSubscribers] always makes one PUT;
    the representation it writes holds the fetched members followed by
    the added ones, and every requested person is among them. *)
Lemma addSubscribers_writes_once (self : Workitem) (emails_list : pyval)
    (items : list pyval) (h : dict) (doc : pyval) :
  py_iter emails_list = Some items ->
  forallb (resolvable self) items = true ->
  outcome (_perform_subscribe self) = Ok (h, doc) ->
  wf_doc doc = true ->
  (forall d, wf_doc d = true ->
             exists data, xmltodict_unparse (rtc_obj self) d = Ok data) ->
  exists doc' added data,
    xmltodict_unparse (rtc_obj self) doc' = Ok data
    /\ put_data (trace (addSubscribers self emails_list)) = [data]
    /\ members doc' = (members doc ++ added)%list
    /\ forallb (subscribed self doc') items = true
    /\ (forallb (subscribed self doc) items = true -> doc' = doc).
Proof.
  intros Hiter Hres Hfetch Hwf Hser.
  destruct (addSubscribers_run self emails_list items h doc
              Hiter Hres Hfetch Hwf)
    as (doc' & added & Hwf' & Hmem & Hall & Hsame & Hrun).
  destruct (Hser doc' Hwf') as [data Hdata].
  exists doc', added, data. repeat split; try assumption.
  rewrite Hrun, update_subscribe_trace, Hdata. cbn [trace fst].
  pose proof (add_loop_wf self items false doc Hwf Hres)
    as (f & d & a & Hloop & _).
  pose proof (add_loop_trace self items false doc) as Ht.
  rewrite Hloop in Ht. cbn [trace fst] in Ht.
  unfold put_data. simpl. rewrite flat_map_app. simpl.
  assert (Hnil : forall t, forallb is_lookup t = true ->
                 flat_map (fun e => match e with
                                    | EvPut _ _ d0 => [d0]
                                    | _ => []
                                    end) t = []).
  { induction t as [|[] r IH]; simpl; try discriminate; auto. }
  now rewrite (Hnil _ Ht).
Qed.

(** C1, first half, fails on the code.  The person behind ["a@x.com"] is
    the one subscriber of the work item; [addSubscribers] with just that
    email returns normally and has sent a PUT, where [addSubscriber] with
    the same email sends none. *)
Theorem addSubscribers_all_present_still_writes :
  let fetched := Demo.doc (Some (Demo.ref "a@x.com")) in
  let self := Demo.item fetched PNone in
  forallb (subscribed self fetched) [PStr "a@x.com"] = true
  /\ outcome (addSubscribers self (PList [PStr "a@x.com"])) = Ok tt
  /\ count_events is_put (trace (addSubscribers self (PList [PStr "a@x.com"])))
     = 1%nat
  /\ put_data (trace (addSubscribers self (PList [PStr "a@x.com"])))
     = ["written"]
  /\ count_events is_put (trace (addSubscriber self (PStr "a@x.com")))
     = 0%nat.
Proof.
  repeat split.
Qed.

(** ** The shape of what is written *)

Lemma wf_doc_convention (doc : pyval) :
  wf_doc doc = true ->
  subscribers_property doc = denormalize (members doc)
  /\ forallb is_member (members doc) = true.
Proof.
  intros Hwf.
  destruct (wf_doc_inv doc Hwf) as (raw & rdf & description & -> & _ & _
                                    & Hprop & Hwire).
  unfold members. rewrite Hprop.
  destruct (dict_find description "rtc_cm:subscribers")
    as [[| | | |l|sub]|]; try discriminate.
  - unfold wire_ok in Hwire. apply andb_prop in Hwire as [Hlen Hall].
    apply Nat.leb_le in Hlen. simpl.
    destruct l as [|a [|b t]]; simpl in Hlen; try lia. now split.
  - simpl. simpl in Hwire. now rewrite Hwire.
  - now split.
Qed.

Lemma lookups_no_put (t : list event) (u : string) (h : dict)
    (data : string) :
  forallb is_lookup t = true -> ~ In (EvPut u h data) t.
Proof.
  intros Ht Hin. rewrite forallb_forall in Ht.
  specialize (Ht _ Hin). discriminate.
Qed.

Lemma update_subscribe_put (self : Workitem) (h : dict) (doc : pyval)
    (u : string) (hd : dict) (data : string) :
  In (EvPut u hd data) (trace (_update_subscribe self h doc)) ->
  xmltodict_unparse (rtc_obj self) doc = Ok data.
Proof.
  rewrite update_subscribe_trace.
  destruct (xmltodict_unparse (rtc_obj self) doc) as [d|]; simpl.
  - intros [[= _ _ ->]|[]]. reflexivity.
  - intros [].
Qed.

(** Every PUT of a subscriber mutation carries a well-formed
    representation, when the fetched one is well formed. *)
Lemma mutation_writes_wf (self : Workitem) (mu : mutation) (h : dict)
    (doc : pyval) (u : string) (hd : dict) (data : string) :
  outcome (_perform_subscribe self) = Ok (h, doc) ->
  wf_doc doc = true ->
  In (EvPut u hd data) (trace (run_mutation self mu)) ->
  exists doc',
    wf_doc doc' = true /\ xmltodict_unparse (rtc_obj self) doc' = Ok data.
Proof.
  intros Hfetch Hwf.
  destruct mu as [email|emails_list|email|emails_list]; simpl.
  - (* addSubscriber *)
    destruct (resolvable self email) eqn:R.
    + destruct (resolvable_inv self email R) as (e & m & He & Hm & _).
      destruct (addSubscriber_run self email e m h doc He Hm Hfetch Hwf)
        as (doc' & _ & Hwf' & _ & Hrun).
      rewrite Hrun.
      destruct (is_subscriber (member_url m) doc); simpl.
      * intros [H|[H|[]]]; discriminate.
      * intros [H|[H|H]]; try discriminate.
        exists doc'. split; [assumption|].
        now apply (update_subscribe_put self h doc' u hd data).
    + unfold addSubscriber.
      rewrite (perform_subscribe_ok self h doc Hfetch). cbn [bind].
      destruct (_add_subscriber self email doc) as [t [[f d]|err]] eqn:Hrun.
      * pose proof (add_subscriber_ok_resolvable self email doc (f, d)) as H.
        rewrite Hrun in H. rewrite (H eq_refl) in R. discriminate.
      * pose proof (add_subscriber_trace self email doc) as Ht.
        rewrite Hrun in Ht. simpl.
        intros [H|H]; [discriminate|].
        now apply (lookups_no_put _ _ _ _ Ht) in H.
  - (* addSubscribers *)
    unfold addSubscribers.
    destruct (py_iter emails_list) as [items|] eqn:Hiter; [|intros []].
    cbv zeta.
    destruct (forallb (resolvable self) items) eqn:R.
    + destruct (addSubscribers_run self emails_list items h doc
                  Hiter R Hfetch Hwf)
        as (doc' & added & Hwf' & _ & _ & _ & Hrun).
      unfold addSubscribers in Hrun. rewrite Hiter in Hrun. rewrite Hrun.
      simpl. intros [H|H]; [discriminate|].
      apply in_app_or in H as [H|H].
      * pose proof (add_loop_wf self items false doc Hwf R)
          as (f & d & a & Hloop & _).
        pose proof (add_loop_trace self items false doc) as Ht.
        rewrite Hloop in Ht.
        now apply (lookups_no_put _ _ _ _ Ht) in H.
      * exists doc'. split; [assumption|].
        now apply (update_subscribe_put self h doc' u hd data).
    + rewrite (perform_subscribe_ok self h doc Hfetch). cbn [bind].
      destruct (add_loop self items false doc) as [t [[f d]|err]] eqn:Hrun.
      * pose proof (add_loop_ok_resolvable self items false doc (f, d)) as H.
        rewrite Hrun in H. rewrite (H eq_refl) in R. discriminate.
      * pose proof (add_loop_trace self items false doc) as Ht.
        rewrite Hrun in Ht. simpl.
        intros [H|H]; [discriminate|].
        now apply (lookups_no_put _ _ _ _ Ht) in H.
  - (* removeSubscriber *)
    destruct (resolvable self email) eqn:R.
    + destruct (resolvable_inv self email R) as (e & m & He & Hm & _).
      destruct (removeSubscriber_run self email e m h doc He Hm Hfetch Hwf)
        as (doc' & Hwf' & _ & Hrun).
      rewrite Hrun.
      destruct (is_subscriber (member_url m) doc); simpl.
      * intros [H|[H|H]]; try discriminate.
        exists doc'. split; [assumption|].
        now apply (update_subscribe_put self h doc' u hd data).
      * intros [H|[H|[]]]; discriminate.
    + unfold removeSubscriber.
      rewrite (perform_subscribe_ok self h doc Hfetch). cbn [bind].
      destruct (_remove_subscriber self email doc)
        as [t [[f d]|err]] eqn:Hrun.
      * pose proof (remove_subscriber_ok_resolvable self email doc (f, d))
          as H.
        rewrite Hrun in H. rewrite (H eq_refl) in R. discriminate.
      * pose proof (remove_subscriber_trace self email doc) as Ht.
        rewrite Hrun in Ht. simpl.
        intros [H|H]; [discriminate|].
        now apply (lookups_no_put _ _ _ _ Ht) in H.
  - (* removeSubscribers *)
    unfold removeSubscribers.
    destruct (py_iter emails_list) as [items|] eqn:Hiter; [|intros []].
    cbv zeta.
    destruct (forallb (resolvable self) items) eqn:R.
    + destruct (removeSubscribers_run self emails_list items h doc
                  Hiter R Hfetch Hwf) as (doc' & Hwf' & Hrun).
      unfold removeSubscribers in Hrun. rewrite Hiter in Hrun. rewrite Hrun.
      pose proof (remove_loop_wf self items true doc Hwf R)
        as (f & d & Hloop & _).
      pose proof (remove_loop_trace self items true doc) as Ht.
      rewrite Hloop in Ht.
      destruct (forallb (fun email => negb (subscribed self doc email))
                  items); simpl.
      * intros [H|H]; [discriminate|].
        now apply (lookups_no_put _ _ _ _ Ht) in H.
      * intros [H|H]; [discriminate|].
        apply in_app_or in H as [H|H].
        -- now apply (lookups_no_put _ _ _ _ Ht) in H.
        -- exists doc'. split; [assumption|].
           now apply (update_subscribe_put self h doc' u hd data).
    + rewrite (perform_subscribe_ok self h doc Hfetch). cbn [bind].
      destruct (remove_loop self items true doc)
        as [t [[f d]|err]] eqn:Hrun.
      * pose proof (remove_loop_ok_resolvable self items true doc (f, d))
          as H.
        rewrite Hrun in H. rewrite (H eq_refl) in R. discriminate.
      * pose proof (remove_loop_trace self items true doc) as Ht.
        rewrite Hrun in Ht. simpl.
        intros [H|H]; [discriminate|].
        now apply (lookups_no_put _ _ _ _ Ht) in H.
Qed.

Lemma mutation_fetch_failed (self : Workitem) (mu : mutation) (err : exn)
    (u : string) (hd : dict) (data : string) :
  outcome (_perform_subscribe self) = Raise err ->
  ~ In (EvPut u hd data) (trace (run_mutation self mu)).
Proof.
  intros Hfetch.
  assert (Hrun : forall (k : dict * pyval -> M unit),
             trace (bind (_perform_subscribe self) k)
             = [EvGet (subscribers_url self) (fetch_headers self)]).
  { intros k. now rewrite trace_bind, perform_subscribe_trace, Hfetch. }
  destruct mu as [email|emails_list|email|emails_list]; simpl.
  - unfold addSubscriber. rewrite Hrun. intros [H|[]]. discriminate.
  - unfold addSubscribers. destruct (py_iter emails_list); [|intros []].
    cbv zeta. rewrite Hrun. intros [H|[]]. discriminate.
  - unfold removeSubscriber. rewrite Hrun. intros [H|[]]. discriminate.
  - unfold removeSubscribers. destruct (py_iter emails_list); [|intros []].
    cbv zeta. rewrite Hrun. intros [H|[]]. discriminate.
Qed.

(** C5.  When the representation that the fetch yields follows the
    absent / singleton / plural convention, so does every representation
    that a subscriber mutation writes: with no member the property is not
    in the document (an empty list is never written), with one member the
    property is that member, a bare mapping (never a one-element list),
    and with two or more members it is the list of them. *)
Theorem written_subscribers_shape (self : Workitem) (mu : mutation)
    (u : string) (hd : dict) (data : string) :
  (forall h doc,
      outcome (_perform_subscribe self) = Ok (h, doc) -> wf_doc doc = true) ->
  In (EvPut u hd data) (trace (run_mutation self mu)) ->
  exists doc',
    xmltodict_unparse (rtc_obj self) doc' = Ok data
    /\ (members doc' = [] -> subscribers_property doc' = None)
    /\ (forall x, members doc' = [x] ->
                  subscribers_property doc' = Some x
                  /\ exists d, x = PDict d)
    /\ ((2 <= List.length (members doc'))%nat ->
        subscribers_property doc' = Some (PList (members doc'))).
Proof.
  intros Hfetched Hin.
  destruct (outcome (_perform_subscribe self)) as [[h doc]|err] eqn:Hfetch.
  2: { now apply (mutation_fetch_failed self mu err u hd data Hfetch) in Hin. }
  specialize (Hfetched h doc eq_refl).
  destruct (mutation_writes_wf self mu h doc u hd data Hfetch Hfetched Hin)
    as (doc' & Hwf' & Hdata).
  exists doc'. split; [assumption|].
  destruct (wf_doc_convention doc' Hwf') as [Hshape Hmembers].
  rewrite Hshape. split; [|split].
  - now intros ->.
  - intros x Hx. rewrite Hx in *. split; [reflexivity|].
    simpl in Hmembers. rewrite andb_true_r in Hmembers.
    unfold is_member, member_ref in Hmembers.
    destruct x as [| | | | |d]; try discriminate. now exists d.
  - destruct (members doc') as [|a [|b t]]; simpl; try lia. reflexivity.
Qed.

Lemma written_subscribers_shape_witness :
  exists doc',
    xmltodict_unparse
      (rtc_obj (Demo.item (Demo.doc (Some (PList [Demo.ref "a@x.com";
                                                  Demo.ref "b@x.com"])))
                  PNone))
      doc' = Ok "written"
    /\ (members doc' = [] -> subscribers_property doc' = None)
    /\ (forall x, members doc' = [x] ->
                  subscribers_property doc' = Some x
                  /\ exists d, x = PDict d)
    /\ ((2 <= List.length (members doc'))%nat ->
        subscribers_property doc' = Some (PList (members doc'))).
Proof.
  apply (written_subscribers_shape
           (Demo.item (Demo.doc (Some (PList [Demo.ref "a@x.com";
                                              Demo.ref "b@x.com"])))
              PNone)
           (RemoveSubscriber (PStr "a@x.com"))
           (subscribers_url (Demo.item PNone PNone))
           (dict_set (fetch_headers (Demo.item PNone PNone))
              "If-Match" (PStr "v1"))
           "written").
  - intros h doc Hfetch. injection Hfetch as _ <-. reflexivity.
  - simpl. right. right. left. reflexivity.
Defined.

(** The scenario of the specification: from no subscriber to one, to two,
    back to one, and to none. *)
Example scenario_add_first :
  outcome (_add_subscriber (Demo.item PNone PNone) (PStr "a@x.com")
             (Demo.doc None))
  = Ok (false,
        PDict [("rdf:RDF",
                PDict [("@xmlns:rdf",
                        PStr "http://www.w3.org/1999/02/22-rdf-syntax-ns#");
                       ("rdf:Description",
                        PDict [("@rdf:about", PStr Demo.item_url);
                               ("rtc_cm:subscribers", Demo.ref "a@x.com")]);
                       ("@xmlns:rtc_cm", PStr rtc_cm_ns)])]).
Proof. reflexivity. Qed.

Example scenario_add_second :
  outcome (_add_subscriber (Demo.item PNone PNone) (PStr "b@x.com")
             (Demo.doc (Some (Demo.ref "a@x.com"))))
  = Ok (false, Demo.doc (Some (PList [Demo.ref "a@x.com";
                                      Demo.ref "b@x.com"]))).
Proof. reflexivity. Qed.

Example scenario_remove_first :
  outcome (_remove_subscriber (Demo.item PNone PNone) (PStr "a@x.com")
             (Demo.doc (Some (PList [Demo.ref "a@x.com";
                                     Demo.ref "b@x.com"]))))
  = Ok (false, Demo.doc (Some (Demo.ref "b@x.com"))).
Proof. reflexivity. Qed.

Example scenario_remove_last :
  outcome (_remove_subscriber (Demo.item PNone PNone) (PStr "b@x.com")
             (Demo.doc (Some (Demo.ref "b@x.com"))))
  = Ok (false, Demo.doc None).
Proof. reflexivity. Qed.

Example scenario_remove_from_three :
  outcome (_remove_subscriber (Demo.item PNone PNone) (PStr "b@x.com")
             (Demo.doc (Some (PList [Demo.ref "a@x.com"; Demo.ref "b@x.com";
                                     Demo.ref "c@x.com"]))))
  = Ok (false, Demo.doc (Some (PList [Demo.ref "a@x.com";
                                      Demo.ref "c@x.com"]))).
Proof. reflexivity. Qed.

(** ** Idempotence of the single-email mutations *)

Lemma update_subscribe_ok (self : Workitem) (h : dict) (doc : pyval)
    (data : string) (resp : Response) :
  xmltodict_unparse (rtc_obj self) doc = Ok data ->
  http_put (rtc_obj self) (subscribers_url self) h data = Ok resp ->
  _update_subscribe self h doc
  = ([EvPut (subscribers_url self) h data], Ok tt).
Proof.
  intros Hdata Hput. unfold _update_subscribe. cbv zeta.
  rewrite Hdata. cbn [lift bind]. rewrite Hput. reflexivity.
Qed.

(** C8.  On a well-formed representation and with a resolvable email:
    when the person is not yet a subscriber and the write goes through,
    [addSubscriber] called twice in succession, the second call fetching
    what the first one wrote, makes exactly one PUT in total, the second
    call finding the member and returning without a write; when the
    person is already a subscriber [addSubscriber] makes no PUT; and
    [removeSubscriber] for a person who is not a subscriber makes no PUT.
    All of them return normally. *)
Theorem single_mutations_idempotent (self : Workitem) (email : pyval)
    (e : string) (m : Member) (h : dict) (doc : pyval) :
  valid_email email = Some e ->
  getOwnedBy (rtc_obj self) e = Ok m ->
  outcome (_perform_subscribe self) = Ok (h, doc) ->
  wf_doc doc = true ->
  (is_subscriber (member_url m) doc = false ->
   forall doc' data resp,
     outcome (_add_subscriber self email doc) = Ok (false, doc') ->
     xmltodict_unparse (rtc_obj self) doc' = Ok data ->
     http_put (rtc_obj self) (subscribers_url self) h data = Ok resp ->
     xmltodict_parse (rtc_obj self) data = Ok doc' ->
     let first := addSubscriber self email in
     let second := addSubscriber (after self (trace first)) email in
     outcome first = Ok tt
     /\ outcome second = Ok tt
     /\ count_events is_put (trace first) = 1%nat
     /\ count_events is_put (trace second) = 0%nat
     /\ count_events is_put (trace first ++ trace second) = 1%nat)
  /\ (is_subscriber (member_url m) doc = true ->
      addSubscriber self email
      = ([EvGet (subscribers_url self) (fetch_headers self); EvOwnedBy e],
         Ok tt))
  /\ (is_subscriber (member_url m) doc = false ->
      removeSubscriber self email
      = ([EvGet (subscribers_url self) (fetch_headers self); EvOwnedBy e],
         Ok tt)).
Proof.
  intros He Hm Hfetch Hwf. split; [|split].
  - intros Hnew doc' data resp Hadd Hdata Hput Hparse first second.
    destruct (addSubscriber_run self email e m h doc He Hm Hfetch Hwf)
      as (doc1 & Hhelper & Hwf1 & Hmem1 & Hrun).
    rewrite Hhelper in Hadd. injection Hadd as _ <-.
    rewrite Hnew in Hrun, Hmem1.
    rewrite (update_subscribe_ok self h doc1 data resp Hdata Hput) in Hrun.
    cbn [trace outcome fst snd] in Hrun.
    assert (Hafter :
              after self (trace first)
              = {| url := url self;
                   rtc_obj := serve (rtc_obj self) data;
                   identifier := identifier self |}).
    { unfold first. rewrite Hrun. reflexivity. }
    assert (Hfetch2 :
              outcome (_perform_subscribe (after self (trace first)))
              = Ok (dict_set (fetch_headers self) "If-Match" PNone, doc1)).
    { rewrite Hafter. unfold _perform_subscribe. cbv zeta.
      cbn [rtc_obj serve http_get xmltodict_parse rtc_headers call bind
           content resp_headers].
      rewrite Hparse. reflexivity. }
    assert (Hin : is_subscriber (member_url m) doc1 = true).
    { unfold is_subscriber. rewrite Hmem1, existsb_app. simpl.
      now rewrite refers_to_new, orb_true_r. }
    assert (Hm2 : getOwnedBy (rtc_obj (after self (trace first))) e = Ok m).
    { rewrite Hafter. exact Hm. }
    destruct (addSubscriber_run (after self (trace first)) email e m _ doc1
                He Hm2 Hfetch2 Hwf1) as (doc2 & _ & _ & _ & Hrun2).
    rewrite Hin in Hrun2.
    unfold second. rewrite Hrun2. unfold first. rewrite Hrun.
    repeat split.
  - intros Hin.
    destruct (addSubscriber_run self email e m h doc He Hm Hfetch Hwf)
      as (doc1 & _ & _ & _ & Hrun).
    now rewrite Hin in Hrun.
  - intros Hout.
    destruct (removeSubscriber_run self email e m h doc He Hm Hfetch Hwf)
      as (doc1 & _ & _ & Hrun).
    now rewrite Hout in Hrun.
Qed.

Lemma single_mutations_idempotent_witness :
  count_events is_put
    (trace (addSubscriber
              (Demo.item (Demo.doc (Some (Demo.ref "a@x.com")))
                 (Demo.doc (Some (PList [Demo.ref "a@x.com";
                                         Demo.ref "b@x.com"]))))
              (PStr "b@x.com"))
     ++ trace (addSubscriber
                 (after
                    (Demo.item (Demo.doc (Some (Demo.ref "a@x.com")))
                       (Demo.doc (Some (PList [Demo.ref "a@x.com";
                                               Demo.ref "b@x.com"]))))
                    (trace (addSubscriber
                              (Demo.item
                                 (Demo.doc (Some (Demo.ref "a@x.com")))
                                 (Demo.doc
                                    (Some (PList [Demo.ref "a@x.com";
                                                  Demo.ref "b@x.com"]))))
                              (PStr "b@x.com"))))
                 (PStr "b@x.com")))
  = 1%nat
  /\ removeSubscriber
       (Demo.item (Demo.doc (Some (Demo.ref "a@x.com"))) PNone)
       (PStr "b@x.com")
     = ([EvGet (subscribers_url (Demo.item PNone PNone))
           (fetch_headers (Demo.item PNone PNone));
         EvOwnedBy "b@x.com"], Ok tt).
Proof.
  split.
  - pose proof (single_mutations_idempotent
                  (Demo.item (Demo.doc (Some (Demo.ref "a@x.com")))
                     (Demo.doc (Some (PList [Demo.ref "a@x.com";
                                             Demo.ref "b@x.com"]))))
                  (PStr "b@x.com") "b@x.com"
                  {| member_url := Demo.person_url "b@x.com";
                     member_email := "b@x.com" |}
                  (dict_set (fetch_headers (Demo.item PNone PNone))
                     "If-Match" (PStr "v1"))
                  (Demo.doc (Some (Demo.ref "a@x.com")))
                  eq_refl eq_refl eq_refl eq_refl) as [Htwice _].
    apply (Htwice eq_refl
             (Demo.doc (Some (PList [Demo.ref "a@x.com";
                                     Demo.ref "b@x.com"])))
             "written" (Demo.response EmptyString));
      reflexivity.
  - pose proof (single_mutations_idempotent
                  (Demo.item (Demo.doc (Some (Demo.ref "a@x.com"))) PNone)
                  (PStr "b@x.com") "b@x.com"
                  {| member_url := Demo.person_url "b@x.com";
                     member_email := "b@x.com" |}
                  (dict_set (fetch_headers (Demo.item PNone PNone))
                     "If-Match" (PStr "v1"))
                  (Demo.doc (Some (Demo.ref "a@x.com")))
                  eq_refl eq_refl eq_refl eq_refl) as [_ [_ Hremove]].
    apply Hremove. reflexivity.
Defined.

(** ** Adding a comment *)

Lemma split_on_nonempty (sep : ascii) (s : string) : split_on sep s <> [].
Proof.
  destruct s as [|c r]; simpl; [discriminate|].
  destruct (Ascii.eqb c sep); [discriminate|].
  destruct (split_on sep r); discriminate.
Qed.

Lemma split_on_app (sep : ascii) (a b : string) :
  split_on sep (a ++ String sep b) = (split_on sep a ++ split_on sep b)%list.
Proof.
  induction a as [|c a' IH]; simpl.
  - now rewrite Ascii.eqb_refl.
  - destruct (Ascii.eqb c sep); [now rewrite IH|].
    rewrite IH. pose proof (split_on_nonempty sep a') as Hne.
    destruct (split_on sep a'); [contradiction|reflexivity].
Qed.

Lemma split_on_no_sep (s : string) :
  contains_slash s = false -> split_on "/" s = [s].
Proof.
  induction s as [|c r IH]; simpl; [reflexivity|].
  destruct (Ascii.eqb c "/"); [discriminate|]. simpl.
  intros H. now rewrite (IH H).
Qed.

Lemma last_segment_join (a b : string) :
  contains_slash b = false -> last_segment (join_slash [a; b]) = b.
Proof.
  intros Hb. unfold last_segment, join_slash. simpl.
  rewrite split_on_app, (split_on_no_sep b Hb). apply last_last.
Qed.

(** What [addComment] does once the collection has been fetched and its
    total count read: the POST follows the GET, with the URL of the new
    comment in its body, and a comment that is returned has that URL. *)
Lemma addComment_fetched (self : Workitem) (msg : option string)
    (resp : Response) (raw : pyval) (cnt : string) :
  http_get (rtc_obj self) (comments_url self) (rtc_headers (rtc_obj self))
  = Ok resp ->
  xmltodict_parse (rtc_obj self) (content resp) = Ok raw ->
  total_count raw = Ok (PStr cnt) ->
  (exists rest,
      trace (addComment self msg)
      = EvGet (comments_url self) (rtc_headers (rtc_obj self))
          :: EvPost (join_slash [comments_url self; "oslc:comment"])
               (comment_post_headers self resp)
               (format_comment (join_slash [comments_url self; cnt])
                  (format_msg msg))
          :: rest
      /\ (rest = [] \/ exists u, rest = [EvFetch u]))
  /\ (forall c,
         outcome (addComment self msg) = Ok c ->
         comment_url c = join_slash [comments_url self; cnt])
  /\ (forall resp2 raw2 description,
         http_post (rtc_obj self)
           (join_slash [comments_url self; "oslc:comment"])
           (comment_post_headers self resp)
           (format_comment (join_slash [comments_url self; cnt])
              (format_msg msg)) = Ok resp2 ->
         xmltodict_parse (rtc_obj self) (content resp2) = Ok raw2 ->
         created_description raw2 = Ok description ->
         description <> PNone ->
         addComment self msg
         = ([EvGet (comments_url self) (rtc_headers (rtc_obj self));
             EvPost (join_slash [comments_url self; "oslc:comment"])
               (comment_post_headers self resp)
               (format_comment (join_slash [comments_url self; cnt])
                  (format_msg msg))],
            Ok {| comment_url := join_slash [comments_url self; cnt];
                  comment_raw_data := description |})).
Proof.
  intros Hget Hparse Hcnt. unfold addComment. cbv zeta.
  rewrite Hget. cbn [call bind]. rewrite Hparse. cbn [lift bind].
  fold (total_count raw). rewrite Hcnt. cbn [bind join_slash_val app].
  fold (comment_post_headers self resp).
  destruct (http_post (rtc_obj self) _ _ _) as [resp2|err] eqn:Hpost.
  - destruct (xmltodict_parse (rtc_obj self) (content resp2))
      as [raw2|err] eqn:Hparse2.
    + fold (created_description raw2).
      destruct (created_description raw2) as [description|err] eqn:Hdesc.
      * cbn [bind app].
        destruct description as [| | | | |d];
          try (split; [eexists; split; [reflexivity|now left]|];
               split; [now intros c [= <-]|];
               intros r2 w2 d2 [= <-]; rewrite Hparse2; intros [= <-];
               rewrite Hdesc; now intros [= <-]).
        unfold Comment_init. cbn [call bind ret].
        destruct (fetch_resource (rtc_obj self) _) as [fetched|err].
        -- split; [eexists; split; [reflexivity|right; now eexists]|].
           split; [now intros c [= <-]|].
           intros r2 w2 d2 [= <-]. rewrite Hparse2. intros [= <-].
           rewrite Hdesc. intros [= <-] Hne. now contradiction Hne.
        -- split; [eexists; split; [reflexivity|right; now eexists]|].
           split; [discriminate|].
           intros r2 w2 d2 [= <-]. rewrite Hparse2. intros [= <-].
           rewrite Hdesc. intros [= <-] Hne. now contradiction Hne.
      * cbn [bind app].
        split; [eexists; split; [reflexivity|now left]|].
        split; [discriminate|].
        intros r2 w2 d2 [= <-]. rewrite Hparse2. intros [= <-].
        rewrite Hdesc. discriminate.
    + cbn [bind app].
      split; [eexists; split; [reflexivity|now left]|].
      split; [discriminate|].
      intros r2 w2 d2 [= <-]. rewrite Hparse2. discriminate.
  - cbn [bind app].
    split; [eexists; split; [reflexivity|now left]|].
    split; [discriminate|]. discriminate.
Qed.

(** C6.  Once the comments collection has been fetched, [addComment]
    sends the POST next, and the URL of the new comment in the fragment is
    the comments URL followed by the total count read from that
    collection.  A comment that is returned is bound to that URL, so that
    its identifier, the last segment of the URL, is the count: zero-based
    numbering.  When the POST succeeds and its response holds a
    description, the comment is returned. *)
Theorem addComment_position (self : Workitem) (msg : option string)
    (resp : Response) (raw : pyval) (cnt : string) :
  http_get (rtc_obj self) (comments_url self) (rtc_headers (rtc_obj self))
  = Ok resp ->
  xmltodict_parse (rtc_obj self) (content resp) = Ok raw ->
  total_count raw = Ok (PStr cnt) ->
  (exists rest,
      trace (addComment self msg)
      = EvGet (comments_url self) (rtc_headers (rtc_obj self))
          :: EvPost (comments_url self ++ "/oslc:comment")
               (comment_post_headers self resp)
               (format_comment (comments_url self ++ "/" ++ cnt)
                  (format_msg msg))
          :: rest)
  /\ (forall c,
         outcome (addComment self msg) = Ok c ->
         comment_url c = comments_url self ++ "/" ++ cnt
         /\ (contains_slash cnt = false -> comment_identifier c = cnt))
  /\ (forall resp2 raw2 description,
         http_post (rtc_obj self) (comments_url self ++ "/oslc:comment")
           (comment_post_headers self resp)
           (format_comment (comments_url self ++ "/" ++ cnt)
              (format_msg msg)) = Ok resp2 ->
         xmltodict_parse (rtc_obj self) (content resp2) = Ok raw2 ->
         created_description raw2 = Ok description ->
         description <> PNone ->
         outcome (addComment self msg)
         = Ok {| comment_url := comments_url self ++ "/" ++ cnt;
                 comment_raw_data := description |}).
Proof.
  intros Hget Hparse Hcnt.
  destruct (addComment_fetched self msg resp raw cnt Hget Hparse Hcnt)
    as ((rest & Htrace & _) & Hurl & Hok).
  split; [|split].
  - exists rest. exact Htrace.
  - intros c Hc. specialize (Hurl c Hc). split; [exact Hurl|].
    intros Hslash. unfold comment_identifier. rewrite Hurl.
    now apply last_segment_join.
  - intros resp2 raw2 description Hpost Hparse2 Hdesc Hne.
    now rewrite (Hok resp2 raw2 description Hpost Hparse2 Hdesc Hne).
Qed.

Lemma addComment_position_witness :
  exists c,
    outcome (addComment (Demo.item PNone PNone) (Some "hello")) = Ok c
    /\ comment_url c = Demo.item_url ++ "/rtc_cm:comments/3"
    /\ comment_identifier c = "3".
Proof.
  pose proof (addComment_position (Demo.item PNone PNone) (Some "hello")
                (Demo.response (Demo.item_url ++ "/rtc_cm:comments"))
                (Demo.collection "3") "3" eq_refl eq_refl eq_refl)
    as (_ & Hurl & Hok).
  specialize (Hok (Demo.response "created") Demo.created
                (PDict [("dcterms:description", PStr "text")])
                eq_refl eq_refl eq_refl).
  eexists. split; [apply Hok; discriminate|].
  destruct (Hurl _ (Hok ltac:(discriminate))) as [_ Hid].
  split; [reflexivity|]. apply Hid. reflexivity.
Defined.

(** ** The text of a comment *)

Lemma addComment_posts (self : Workitem) (msg : option string)
    (u : string) (hd : dict) (data : string) :
  In (EvPost u hd data) (trace (addComment self msg)) ->
  exists cu, data = format_comment cu (format_msg msg).
Proof.
  destruct (http_get (rtc_obj self) (comments_url self)
              (rtc_headers (rtc_obj self))) as [resp|e] eqn:Hget.
  2: { unfold addComment. cbv zeta. rewrite Hget. simpl.
       intros [H|[]]. discriminate. }
  destruct (xmltodict_parse (rtc_obj self) (content resp))
    as [raw|e] eqn:Hparse.
  2: { unfold addComment. cbv zeta. rewrite Hget. cbn [call bind].
       rewrite Hparse. simpl. intros [H|[]]. discriminate. }
  destruct (total_count raw) as [v|e] eqn:Hcnt.
  2: { unfold addComment. cbv zeta. rewrite Hget. cbn [call bind].
       rewrite Hparse. cbn [lift bind]. fold (total_count raw).
       rewrite Hcnt. simpl. intros [H|[]]. discriminate. }
  destruct v as [| | |cnt| |];
    try (unfold addComment; cbv zeta; rewrite Hget; cbn [call bind];
         rewrite Hparse; cbn [lift bind]; fold (total_count raw);
         rewrite Hcnt; simpl; intros [H|[]]; discriminate).
  destruct (addComment_fetched self msg resp raw cnt Hget Hparse Hcnt)
    as ((rest & Htrace & Hrest) & _).
  rewrite Htrace. intros [H|[H|H]].
  - discriminate.
  - injection H as _ _ <-. now eexists.
  - destruct Hrest as [->|[u' ->]]; [contradiction|].
    destruct H as [H|[]]. discriminate.
Qed.










(** ** The order of the lookups *)

(** For emails given as strings that pass the check, the lookups of a loop
    are those of the emails, one for one and in the same order. *)
Lemma lookup_events_in_order (emails : list string) :
  forallb contains_at emails = true ->
  lookup_events (map PStr emails) = map EvOwnedBy emails.
Proof.
  induction emails as [|e r IH]; simpl; [reflexivity|].
  intros H. apply andb_prop in H as [He Hr].
  unfold lookup_events in *. simpl. rewrite He. simpl. now rewrite IH.
Qed.

(** * Further properties of the work item *)

(** ** Actions and states *)

Lemma py_eqb_str_iff (v : pyval) (s : string) :
  py_eqb v (PStr s) = true <-> v = PStr s.
Proof.
  split; [apply py_eqb_str_r|]. intros ->. apply py_eqb_refl.
Qed.

Lemma find_action_some (l : list Resource) (name : string) (a : Resource) :
  find_action l name = Some a ->
  exists before rest,
    l = (before ++ a :: rest)%list
    /\ resource_title a = PStr name
    /\ forall x, In x before -> resource_title x <> PStr name.
Proof.
  induction l as [|x r IH]; simpl; [discriminate|].
  destruct (py_eqb (resource_title x) (PStr name)) eqn:E.
  - intros [= ->]. exists [], r. repeat split.
    + now apply py_eqb_str_iff.
    + intros y [].
  - intros H. destruct (IH H) as (before & rest & -> & Ht & Hb).
    exists (x :: before), rest. repeat split; [assumption|].
    intros y [<-|Hy]; [|now apply Hb].
    intros Heq. apply py_eqb_str_iff in Heq. congruence.
Qed.

Lemma find_action_none (l : list Resource) (name : string) :
  find_action l name = None <->
  forall x, In x l -> resource_title x <> PStr name.
Proof.
  induction l as [|x r IH]; simpl.
  - split; [intros _ y []|reflexivity].
  - destruct (py_eqb (resource_title x) (PStr name)) eqn:E.
    + split; [discriminate|]. intros H. exfalso.
      apply (H x); [now left|]. now apply py_eqb_str_iff.
    + rewrite IH. split.
      * intros H y [<-|Hy]; [|now apply H].
        intros Heq. apply py_eqb_str_iff in Heq. congruence.
      * intros H y Hy. apply H. now right.
Qed.

(** The keyword arguments of the fetch of the actions. *)
Lemma getActions_call (self : Listed) (c : string) :
  cust_attr self = Ok c ->
  getActions self
  = paged self "Action"
      [("projectarea_id", wi_contextId self);
       ("customized_attr", PStr c);
       ("page_size", PStr "100")].
Proof. intros H. unfold getActions. now rewrite H. Qed.


(** When [getAction] returns an action, it has made one fetch, that of the
    actions of the project area and of the workflow of the state, and the
    action is the first one listed whose title is the name. *)
Theorem getAction_returns_first_match (self : Listed) (action_name : pyval)
    (t : list paged_call) (a : Resource) :
  getAction self action_name = (t, Returned a) ->
  exists name c before rest,
    action_name = PStr name
    /\ cust_attr self = Ok c
    /\ t = [{| paged_resource := "Action";
               paged_kwargs := [("projectarea_id", wi_contextId self);
                                ("customized_attr", PStr c);
                                ("page_size", PStr "100")] |}]
    /\ _get_paged_resources self "Action"
         [("projectarea_id", wi_contextId self);
          ("customized_attr", PStr c);
          ("page_size", PStr "100")]
       = Ok (Some (before ++ a :: rest)%list)
    /\ resource_title a = PStr name
    /\ forall x, In x before -> resource_title x <> PStr name.
Proof.
  unfold getAction.
  destruct (valid_action_name action_name) as [name|] eqn:Hname;
    [|discriminate].
  assert (action_name = PStr name) as ->.
  { destruct action_name as [| | |[|c s]| |]; try discriminate.
    now injection Hname as <-. }
  unfold getActions.
  destruct (cust_attr self) as [c|e]; [|discriminate].
  unfold paged.
  destruct (_get_paged_resources self _ _) as [[l|]|e] eqn:Hl;
    try discriminate.
  destruct (find_action l name) as [a'|] eqn:Hfind; [|discriminate].
  intros [= <- ->].
  destruct (find_action_some l name a Hfind)
    as (before & rest & -> & Ht & Hb).
  exists name, c, before, rest. repeat split; assumption.
Qed.

Lemma getAction_returns_first_match_witness :
  exists before rest,
    _get_paged_resources Demo2.listed "Action"
      [("projectarea_id", PStr "pa");
       ("customized_attr", PStr "wf1");
       ("page_size", PStr "100")]
    = Ok (Some (before
                  ++ {| resource_url := "https://rtc.example/actions/2";
                        resource_title := PStr "Resolve" |} :: rest)%list)
    /\ forall x, In x before -> resource_title x <> PStr "Resolve".
Proof.
  destruct (getAction_returns_first_match Demo2.listed (PStr "Resolve")
              [{| paged_resource := "Action";
                  paged_kwargs := [("projectarea_id", PStr "pa");
                                   ("customized_attr", PStr "wf1");
                                   ("page_size", PStr "100")] |}]
              {| resource_url := "https://rtc.example/actions/2";
                 resource_title := PStr "Resolve" |} eq_refl)
    as (name & c & before & rest & Hn & Hc & _ & Hl & _ & Hb).
  injection Hn as <-. injection Hc as <-.
  exists before, rest. split; assumption.
Defined.

(** When the listing has an action with the title, [getAction] returns
    one; when it has none, or the listing is [None], [getAction] raises
    [NotFound] after the one fetch.  Titles are compared as they are: a
    title in another case does not match. *)
Theorem getAction_found_or_NotFound (self : Listed) (name c : string)
    (listing : option (list Resource)) :
  name <> EmptyString ->
  cust_attr self = Ok c ->
  _get_paged_resources self "Action"
    [("projectarea_id", wi_contextId self);
     ("customized_attr", PStr c);
     ("page_size", PStr "100")] = Ok listing ->
  ((exists l x, listing = Some l /\ In x l /\ resource_title x = PStr name)
   -> exists a, snd (getAction self (PStr name)) = Returned a)
  /\ ((forall l x, listing = Some l -> In x l ->
                   resource_title x <> PStr name)
      -> getAction self (PStr name)
         = ([{| paged_resource := "Action";
                paged_kwargs := [("projectarea_id", wi_contextId self);
                                 ("customized_attr", PStr c);
                                 ("page_size", PStr "100")] |}],
            Raised (Exn (NotFound ("No Action named " ++ name))))).
Proof.
  intros Hne Hc Hl.
  assert (Hname : valid_action_name (PStr name) = Some name).
  { destruct name; [contradiction|reflexivity]. }
  unfold getAction. rewrite Hname, (getActions_call self c Hc).
  unfold paged. rewrite Hl. split.
  - intros (l & x & -> & Hin & Hx).
    destruct (find_action l name) as [a|] eqn:Hfind; [now exists a|].
    exfalso. rewrite find_action_none in Hfind. now apply (Hfind x).
  - intros Hnone. destruct listing as [l|]; [|reflexivity].
    assert (Hfind : find_action l name = None).
    { apply find_action_none. intros x Hx. now apply (Hnone l). }
    now rewrite Hfind.
Qed.

Lemma getAction_found_or_NotFound_witness :
  (exists a, snd (getAction Demo2.listed (PStr "Resolve")) = Returned a)
  /\ getAction Demo2.listed (PStr "resolve")
     = ([{| paged_resource := "Action";
            paged_kwargs := [("projectarea_id", PStr "pa");
                             ("customized_attr", PStr "wf1");
                             ("page_size", PStr "100")] |}],
        Raised (Exn (NotFound "No Action named resolve"))).
Proof.
  split.
  - destruct (getAction_found_or_NotFound Demo2.listed "Resolve" "wf1" _
                ltac:(discriminate) eq_refl eq_refl) as [Hfound _].
    apply Hfound. eexists. eexists. split; [reflexivity|].
    split; [right; left; reflexivity|reflexivity].
  - destruct (getAction_found_or_NotFound Demo2.listed "resolve" "wf1" _
                ltac:(discriminate) eq_refl eq_refl) as [_ Hnone].
    apply Hnone. intros l x [= <-] Hin.
    destruct Hin as [<-|[<-|[<-|[]]]]; discriminate.
Defined.

(** ** The workflow of the state *)

Lemma index_neg2_app (l : list string) (a b : string) :
  index_neg2 (l ++ [a; b]) = Ok a.
Proof.
  unfold index_neg2. now rewrite rev_app_distr.
Qed.

Lemma split_on_two_last (p a b : string) :
  contains_slash a = false -> contains_slash b = false ->
  split_on "/" (p ++ String "/" (a ++ String "/" b))
  = (split_on "/" p ++ [a; b])%list.
Proof.
  intros Ha Hb.
  now rewrite !split_on_app, (split_on_no_sep a Ha), (split_on_no_sep b Hb).
Qed.

(** When the reference of the state of the work item is a URL that ends
    in [.../a/b], [getActions] and [getStates] ask for the resources of
    the project area of the work item with [a], the segment before the
    last one, as [customized_attr]: actions by pages of 100, states by
    pages of 50. *)
Theorem listing_by_workflow (self : Listed) (raw : dict) (state : dict)
    (p a b : string) :
  wi_raw_data self = PDict raw ->
  dict_find raw "rtc_cm:state" = Some (PDict state) ->
  dict_find state "@rdf:resource"
  = Some (PStr (p ++ String "/" (a ++ String "/" b))) ->
  contains_slash a = false -> contains_slash b = false ->
  cust_attr self = Ok a
  /\ fst (getActions self)
     = [{| paged_resource := "Action";
           paged_kwargs := [("projectarea_id", wi_contextId self);
                            ("customized_attr", PStr a);
                            ("page_size", PStr "100")] |}]
  /\ fst (getStates self)
     = [{| paged_resource := "State";
           paged_kwargs := [("projectarea_id", wi_contextId self);
                            ("customized_attr", PStr a);
                            ("page_size", PStr "50")] |}].
Proof.
  intros Hraw Hstate Hres Ha Hb.
  assert (Hc : cust_attr self = Ok a).
  { unfold cust_attr. rewrite Hraw. simpl. unfold dict_get.
    rewrite Hstate. simpl. unfold dict_get. rewrite Hres. simpl.
    rewrite (split_on_two_last p a b Ha Hb). apply index_neg2_app. }
  unfold getActions, getStates. rewrite Hc. repeat split.
Qed.

Lemma listing_by_workflow_witness :
  cust_attr Demo2.listed = Ok "wf1"
  /\ fst (getStates Demo2.listed)
     = [{| paged_resource := "State";
           paged_kwargs := [("projectarea_id", PStr "pa");
                            ("customized_attr", PStr "wf1");
                            ("page_size", PStr "50")] |}].
Proof.
  destruct (listing_by_workflow Demo2.listed _ _
              "https://rtc.example/ccm/oslc/workflows/pa/states" "wf1" "s2"
              eq_refl eq_refl eq_refl eq_refl eq_refl)
    as (Hc & _ & Hs).
  split; assumption.
Defined.

(** Without a usable state the three lookups fetch nothing and raise:
    [AttributeError] when the raw data have no [rtc_cm:state] or the state
    has no [@rdf:resource], [IndexError] when the reference has no slash.
    [getAction] with a valid name passes that exception on; it does not
    turn it into [NotFound]. *)
Theorem listing_without_state (self : Listed) (raw : dict) (name : string) :
  wi_raw_data self = PDict raw ->
  name <> EmptyString ->
  (dict_find raw "rtc_cm:state" = None
   \/ (exists state, dict_find raw "rtc_cm:state" = Some (PDict state)
                     /\ dict_find state "@rdf:resource" = None) ->
   getActions self = ([], Raised (Exn AttributeError))
   /\ getStates self = ([], Raised (Exn AttributeError))
   /\ getAction self (PStr name) = ([], Raised (Exn AttributeError)))
  /\ (forall state s,
         dict_find raw "rtc_cm:state" = Some (PDict state) ->
         dict_find state "@rdf:resource" = Some (PStr s) ->
         contains_slash s = false ->
         getActions self = ([], Raised (Exn (OtherError "IndexError")))
         /\ getStates self = ([], Raised (Exn (OtherError "IndexError")))
         /\ getAction self (PStr name)
            = ([], Raised (Exn (OtherError "IndexError")))).
Proof.
  intros Hraw Hne.
  assert (Hname : valid_action_name (PStr name) = Some name).
  { destruct name; [contradiction|reflexivity]. }
  split.
  - intros H.
    assert (Hc : cust_attr self = Raise AttributeError).
    { unfold cust_attr. rewrite Hraw. simpl. unfold dict_get.
      destruct H as [H|(state & H1 & H2)].
      - now rewrite H.
      - rewrite H1. simpl. unfold dict_get. now rewrite H2. }
    unfold getAction, getActions, getStates. rewrite Hname, Hc.
    repeat split.
  - intros state s Hstate Hres Hs.
    assert (Hc : cust_attr self = Raise (OtherError "IndexError")).
    { unfold cust_attr. rewrite Hraw. simpl. unfold dict_get.
      rewrite Hstate. simpl. unfold dict_get. rewrite Hres. simpl.
      now rewrite (split_on_no_sep s Hs). }
    unfold getAction, getActions, getStates. rewrite Hname, Hc.
    repeat split.
Qed.

Lemma listing_without_state_witness :
  getAction {| item := Demo.item PNone PNone;
               wi_raw_data := PDict [("dc:title", PStr "a task")];
               wi_contextId := PStr "pa";
               _get_paged_resources := fun _ _ => Ok None |}
    (PStr "Resolve")
  = ([], Raised (Exn AttributeError))
  /\ getStates {| item := Demo.item PNone PNone;
                  wi_raw_data :=
                    PDict [("rtc_cm:state",
                            PDict [("@rdf:resource", PStr "s2")])];
                  wi_contextId := PStr "pa";
                  _get_paged_resources := fun _ _ => Ok None |}
     = ([], Raised (Exn (OtherError "IndexError"))).
Proof.
  split.
  - destruct (listing_without_state
                {| item := Demo.item PNone PNone;
                   wi_raw_data := PDict [("dc:title", PStr "a task")];
                   wi_contextId := PStr "pa";
                   _get_paged_resources := fun _ _ => Ok None |}
                [("dc:title", PStr "a task")] "Resolve"
                eq_refl ltac:(discriminate)) as [Hmissing _].
    apply Hmissing. left. reflexivity.
  - destruct (listing_without_state
                {| item := Demo.item PNone PNone;
                   wi_raw_data :=
                     PDict [("rtc_cm:state",
                             PDict [("@rdf:resource", PStr "s2")])];
                   wi_contextId := PStr "pa";
                   _get_paged_resources := fun _ _ => Ok None |}
                [("rtc_cm:state", PDict [("@rdf:resource", PStr "s2")])]
                "Resolve" eq_refl ltac:(discriminate)) as [_ Hflat].
    apply (Hflat [("@rdf:resource", PStr "s2")] "s2"); reflexivity.
Defined.

(** ** Subscriber mutations: what is sent and what surfaces *)

Lemma py_iter_iterable (v : pyval) :
  iterable v = true <-> exists items, py_iter v = Some items.
Proof.
  destruct v; simpl; split; try discriminate; try (intros [? ?]; discriminate);
    try reflexivity; intros _; eexists; reflexivity.
Qed.

(** A batch call ends without having made any call exactly when its
    argument is not iterable ([None], a boolean, an integer), and then
    with [BadValue]; for a list, a string or a mapping the GET is made. *)
Theorem batch_argument_check (self : Workitem) (emails_list : pyval) :
  (iterable emails_list = false ->
   addSubscribers self emails_list = ([], Raise (BadValue NotIterable))
   /\ removeSubscribers self emails_list = ([], Raise (BadValue NotIterable)))
  /\ (iterable emails_list = true ->
      (exists rest,
          trace (addSubscribers self emails_list)
          = EvGet (subscribers_url self) (fetch_headers self) :: rest)
      /\ (exists rest,
             trace (removeSubscribers self emails_list)
             = EvGet (subscribers_url self) (fetch_headers self) :: rest)).
Proof.
  split.
  - intros H. unfold addSubscribers, removeSubscribers.
    destruct emails_list; try discriminate; split; reflexivity.
  - intros H. apply py_iter_iterable in H as [items Hiter].
    unfold addSubscribers, removeSubscribers. rewrite Hiter. cbv zeta.
    rewrite !trace_bind, perform_subscribe_trace.
    split; eexists; reflexivity.
Qed.

Lemma batch_argument_check_witness :
  addSubscribers (Demo.item (Demo.doc None) PNone) PNone
  = ([], Raise (BadValue NotIterable))
  /\ exists rest,
       trace (removeSubscribers (Demo.item (Demo.doc None) PNone)
                (PDict [("a@x.com", PInt 1)]))
       = EvGet (subscribers_url (Demo.item (Demo.doc None) PNone))
           (fetch_headers (Demo.item (Demo.doc None) PNone)) :: rest.
Proof.
  split.
  - destruct (batch_argument_check (Demo.item (Demo.doc None) PNone) PNone)
      as [Hno _].
    apply Hno. reflexivity.
  - destruct (batch_argument_check (Demo.item (Demo.doc None) PNone)
                (PDict [("a@x.com", PInt 1)])) as [_ Hyes].
    apply Hyes. reflexivity.
Defined.

Lemma perform_subscribe_inv (self : Workitem) (h : dict) (doc : pyval) :
  outcome (_perform_subscribe self) = Ok (h, doc) ->
  exists resp,
    http_get (rtc_obj self) (subscribers_url self) (fetch_headers self)
    = Ok resp
    /\ h = dict_set (fetch_headers self) "If-Match"
             (dict_get (resp_headers resp) "etag")
    /\ xmltodict_parse (rtc_obj self) (content resp) = Ok doc.
Proof.
  unfold _perform_subscribe. cbv zeta. fold (fetch_headers self).
  destruct (http_get (rtc_obj self) (subscribers_url self)
              (fetch_headers self)) as [resp|e]; [|discriminate].
  cbn [call bind lift].
  destruct (xmltodict_parse (rtc_obj self) (content resp)) as [d|e] eqn:Hp;
    [|discriminate].
  simpl. intros [= <- <-]. exists resp. now rewrite Hp.
Qed.

Lemma perform_subscribe_failed (self : Workitem) (e : exn) :
  http_get (rtc_obj self) (subscribers_url self) (fetch_headers self)
  = Raise e
  \/ (exists resp,
         http_get (rtc_obj self) (subscribers_url self) (fetch_headers self)
         = Ok resp
         /\ xmltodict_parse (rtc_obj self) (content resp) = Raise e) ->
  _perform_subscribe self
  = ([EvGet (subscribers_url self) (fetch_headers self)], Raise e).
Proof.
  unfold _perform_subscribe. cbv zeta. fold (fetch_headers self).
  intros [H|(resp & H & Hp)]; rewrite H; [reflexivity|].
  cbn [call bind lift]. now rewrite Hp.
Qed.

(** A failure of the fetch surfaces unchanged.  When the GET raises, or
    the body it returns cannot be parsed, each of the four mutations (a
    batch one with an iterable argument) raises that same exception,
    having made the GET and nothing else: no lookup, no PUT, no retry. *)
Theorem fetch_failure_surfaces (self : Workitem) (mu : mutation) (e : exn) :
  iterable_argument mu = true ->
  http_get (rtc_obj self) (subscribers_url self) (fetch_headers self)
  = Raise e
  \/ (exists resp,
         http_get (rtc_obj self) (subscribers_url self) (fetch_headers self)
         = Ok resp
         /\ xmltodict_parse (rtc_obj self) (content resp) = Raise e) ->
  run_mutation self mu
  = ([EvGet (subscribers_url self) (fetch_headers self)], Raise e).
Proof.
  intros Hit Hfail.
  pose proof (perform_subscribe_failed self e Hfail) as Hp.
  destruct mu as [email|emails_list|email|emails_list]; simpl in *.
  - unfold addSubscriber. now rewrite Hp.
  - apply py_iter_iterable in Hit as [items Hiter].
    unfold addSubscribers. now rewrite Hiter, Hp.
  - unfold removeSubscriber. now rewrite Hp.
  - apply py_iter_iterable in Hit as [items Hiter].
    unfold removeSubscribers. now rewrite Hiter, Hp.
Qed.

Lemma fetch_failure_surfaces_witness :
  removeSubscribers
    {| url := Demo.item_url;
       rtc_obj := Demo.rtc [] "written";
       identifier := "7" |}
    (PList [PStr "a@x.com"])
  = ([EvGet (Demo.item_url ++ "?oslc_cm.properties=rtc_cm:subscribers")
        (fetch_headers (Demo.item PNone PNone))],
     Raise (OtherError "not well-formed")).
Proof.
  apply (fetch_failure_surfaces
           {| url := Demo.item_url;
              rtc_obj := Demo.rtc [] "written";
              identifier := "7" |}
           (RemoveSubscribers (PList [PStr "a@x.com"]))
           (OtherError "not well-formed")).
  - reflexivity.
  - right. eexists. split; reflexivity.
Defined.

(** The shape shared by the four mutations: fetch, then a step that only
    looks persons up, then the write unless the flag of the step is set.
    A PUT in such a run is the one of the write, with the headers that
    the fetch returned. *)
Lemma read_modify_write_put (self : Workitem)
    (step : pyval -> M (bool * pyval)) (h : dict) (doc : pyval)
    (u : string) (hd : dict) (data : string) :
  outcome (_perform_subscribe self) = Ok (h, doc) ->
  (forall d, forallb is_lookup (trace (step d)) = true) ->
  In (EvPut u hd data)
     (trace (bind (_perform_subscribe self)
               (fun x => let '(headers, raw_data) := x in
                  bind (step raw_data)
                    (fun y => let '(flag, raw_data) := y in
                       if (flag : bool) then ret tt
                       else _update_subscribe self headers raw_data)))) ->
  u = subscribers_url self /\ hd = h.
Proof.
  intros Hfetch Hstep.
  rewrite (perform_subscribe_ok self h doc Hfetch). cbn [bind].
  destruct (step doc) as [t [[f d]|err]] eqn:Hrun;
    pose proof (Hstep doc) as Ht; rewrite Hrun in Ht; simpl in Ht.
  - cbn [bind]. destruct f.
    + simpl. rewrite app_nil_r. intros [H|H]; [discriminate|].
      now apply (lookups_no_put _ _ _ _ Ht) in H.
    + rewrite (M_eta (_update_subscribe self h d)), update_subscribe_trace.
      simpl. intros [H|H]; [discriminate|].
      apply in_app_or in H as [H|H];
        [now apply (lookups_no_put _ _ _ _ Ht) in H|].
      destruct (xmltodict_unparse (rtc_obj self) d); [|contradiction].
      destruct H as [[= <- <- _]|[]]. now split.
  - simpl. intros [H|H]; [discriminate|].
    now apply (lookups_no_put _ _ _ _ Ht) in H.
Qed.

Lemma mutation_put_origin (self : Workitem) (mu : mutation) (h : dict)
    (doc : pyval) (u : string) (hd : dict) (data : string) :
  outcome (_perform_subscribe self) = Ok (h, doc) ->
  In (EvPut u hd data) (trace (run_mutation self mu)) ->
  u = subscribers_url self /\ hd = h.
Proof.
  intros Hfetch.
  destruct mu as [email|emails_list|email|emails_list]; simpl.
  - apply (read_modify_write_put self
             (fun d => _add_subscriber self email d) h doc u hd data Hfetch).
    intros d. apply add_subscriber_trace.
  - unfold addSubscribers.
    destruct (py_iter emails_list) as [items|]; [|intros []].
    apply (read_modify_write_put self
             (fun d => add_loop self items false d) h doc u hd data Hfetch).
    intros d. apply add_loop_trace.
  - apply (read_modify_write_put self
             (fun d => _remove_subscriber self email d) h doc u hd data
             Hfetch).
    intros d. apply remove_subscriber_trace.
  - unfold removeSubscribers.
    destruct (py_iter emails_list) as [items|]; [|intros []].
    apply (read_modify_write_put self
             (fun d => remove_loop self items true d) h doc u hd data
             Hfetch).
    intros d. apply remove_loop_trace.
Qed.

(** Every PUT of a subscriber mutation goes to the URL that was fetched
    and is conditional on what was fetched: its [If-Match] header is the
    [etag] header of the response to the GET ([None] when the response
    has none), beside the RDF/XML content type, the same [Accept] and
    the OSLC version 2.0. *)
Theorem put_is_conditional (self : Workitem) (mu : mutation) (u : string)
    (hd : dict) (data : string) :
  In (EvPut u hd data) (trace (run_mutation self mu)) ->
  exists resp,
    http_get (rtc_obj self) (subscribers_url self) (fetch_headers self)
    = Ok resp
    /\ u = subscribers_url self
    /\ dict_find hd "If-Match" = Some (dict_get (resp_headers resp) "etag")
    /\ dict_find hd "Content-Type" = Some (PStr "application/rdf+xml")
    /\ dict_find hd "Accept" = Some (PStr "application/rdf+xml")
    /\ dict_find hd "OSLC-Core-Version" = Some (PStr "2.0").
Proof.
  intros Hin.
  destruct (outcome (_perform_subscribe self)) as [[h doc]|err] eqn:Hfetch.
  2: { now apply (mutation_fetch_failed self mu err u hd data Hfetch) in Hin. }
  destruct (mutation_put_origin self mu h doc u hd data Hfetch Hin)
    as [-> ->].
  destruct (perform_subscribe_inv self h doc Hfetch) as (resp & Hget & -> & _).
  exists resp. split; [assumption|]. split; [reflexivity|].
  unfold fetch_headers.
  repeat split.
  - apply dict_find_set_same.
  - rewrite !dict_find_set_other by reflexivity. apply dict_find_set_same.
  - rewrite !dict_find_set_other by reflexivity. apply dict_find_set_same.
  - rewrite dict_find_set_other by reflexivity. apply dict_find_set_same.
Qed.

Lemma put_is_conditional_witness :
  exists resp,
    http_get (rtc_obj (Demo.item (Demo.doc None) PNone))
      (subscribers_url (Demo.item (Demo.doc None) PNone))
      (fetch_headers (Demo.item (Demo.doc None) PNone)) = Ok resp
    /\ subscribers_url (Demo.item (Demo.doc None) PNone)
       = subscribers_url (Demo.item (Demo.doc None) PNone)
    /\ dict_find (dict_set (fetch_headers (Demo.item PNone PNone))
                    "If-Match" (PStr "v1")) "If-Match"
       = Some (dict_get (resp_headers resp) "etag")
    /\ dict_find (dict_set (fetch_headers (Demo.item PNone PNone))
                    "If-Match" (PStr "v1")) "Content-Type"
       = Some (PStr "application/rdf+xml")
    /\ dict_find (dict_set (fetch_headers (Demo.item PNone PNone))
                    "If-Match" (PStr "v1")) "Accept"
       = Some (PStr "application/rdf+xml")
    /\ dict_find (dict_set (fetch_headers (Demo.item PNone PNone))
                    "If-Match" (PStr "v1")) "OSLC-Core-Version"
       = Some (PStr "2.0").
Proof.
  apply (put_is_conditional (Demo.item (Demo.doc None) PNone)
           (AddSubscriber (PStr "a@x.com"))
           (subscribers_url (Demo.item (Demo.doc None) PNone))
           (dict_set (fetch_headers (Demo.item PNone PNone))
              "If-Match" (PStr "v1"))
           "written").
  simpl. right. right. left. reflexivity.
Defined.

(** An empty batch.  With no email to process, [addSubscribers] writes the
    fetched representation back as it is, whatever it holds, while
    [removeSubscribers] returns without a write. *)
Theorem empty_batch (self : Workitem) (emails_list : pyval) (h : dict)
    (doc : pyval) :
  py_iter emails_list = Some [] ->
  outcome (_perform_subscribe self) = Ok (h, doc) ->
  (forall data resp,
      xmltodict_unparse (rtc_obj self) doc = Ok data ->
      http_put (rtc_obj self) (subscribers_url self) h data = Ok resp ->
      addSubscribers self emails_list
      = ([EvGet (subscribers_url self) (fetch_headers self);
          EvPut (subscribers_url self) h data], Ok tt))
  /\ removeSubscribers self emails_list
     = ([EvGet (subscribers_url self) (fetch_headers self)], Ok tt).
Proof.
  intros Hiter Hfetch. unfold addSubscribers, removeSubscribers.
  rewrite Hiter. cbv zeta.
  rewrite (perform_subscribe_ok self h doc Hfetch). cbn [bind add_loop
    remove_loop ret app].
  split; [|reflexivity].
  intros data resp Hdata Hput.
  now rewrite (update_subscribe_ok self h doc data resp Hdata Hput).
Qed.

Lemma empty_batch_witness :
  addSubscribers (Demo.item (Demo.doc None) PNone) (PStr EmptyString)
  = ([EvGet (subscribers_url (Demo.item PNone PNone))
        (fetch_headers (Demo.item PNone PNone));
      EvPut (subscribers_url (Demo.item PNone PNone))
        (dict_set (fetch_headers (Demo.item PNone PNone))
           "If-Match" (PStr "v1"))
        "written"], Ok tt)
  /\ removeSubscribers (Demo.item (Demo.doc None) PNone) (PList [])
     = ([EvGet (subscribers_url (Demo.item PNone PNone))
           (fetch_headers (Demo.item PNone PNone))], Ok tt).
Proof.
  split.
  - destruct (empty_batch (Demo.item (Demo.doc None) PNone)
                (PStr EmptyString)
                (dict_set (fetch_headers (Demo.item PNone PNone))
                   "If-Match" (PStr "v1"))
                (Demo.doc None) eq_refl eq_refl) as [Hadd _].
    apply (Hadd "written" (Demo.response EmptyString)); reflexivity.
  - destruct (empty_batch (Demo.item (Demo.doc None) PNone) (PList [])
                (dict_set (fetch_headers (Demo.item PNone PNone))
                   "If-Match" (PStr "v1"))
                (Demo.doc None) eq_refl eq_refl) as [_ Hremove].
    exact Hremove.
Defined.

(** A batch is all or nothing.  When one of the emails of a batch call
    does not pass the check, or its person lookup fails, the call raises
    and no PUT is sent, also when emails before it were processed. *)
Theorem batch_all_or_nothing (self : Workitem) (emails_list : pyval)
    (items : list pyval) (email : pyval) :
  py_iter emails_list = Some items ->
  In email items ->
  resolvable self email = false ->
  (count_events is_put (trace (addSubscribers self emails_list)) = 0%nat
   /\ exists err, outcome (addSubscribers self emails_list) = Raise err)
  /\ (count_events is_put (trace (removeSubscribers self emails_list)) = 0%nat
      /\ exists err, outcome (removeSubscribers self emails_list) = Raise err).
Proof.
  intros Hiter Hin Hres.
  assert (Hall : forallb (resolvable self) items = false).
  { destruct (forallb (resolvable self) items) eqn:E; [|reflexivity].
    rewrite forallb_forall in E. rewrite (E email Hin) in Hres.
    discriminate. }
  assert (Hg : is_get (EvGet (subscribers_url self) (fetch_headers self))
               = true) by reflexivity.
  assert (Hp : is_put (EvGet (subscribers_url self) (fetch_headers self))
               = false) by reflexivity.
  unfold addSubscribers, removeSubscribers. rewrite Hiter. cbv zeta.
  rewrite !trace_bind, !outcome_bind, perform_subscribe_trace.
  destruct (outcome (_perform_subscribe self)) as [[h doc]|err].
  - rewrite !trace_bind, !outcome_bind. split.
    + destruct (outcome (add_loop self items false doc)) as [r|err] eqn:Hl.
      * apply add_loop_ok_resolvable in Hl. congruence.
      * rewrite app_nil_r.
        destruct (batch_failed_counts _ _ Hg Hp
                    (add_loop_trace self items false doc)) as [_ H2].
        split; [exact H2|now exists err].
    + destruct (outcome (remove_loop self items true doc)) as [r|err] eqn:Hl.
      * apply remove_loop_ok_resolvable in Hl. congruence.
      * rewrite app_nil_r.
        destruct (batch_failed_counts _ _ Hg Hp
                    (remove_loop_trace self items true doc)) as [_ H2].
        split; [exact H2|now exists err].
  - split; (split; [reflexivity|now exists err]).
Qed.

Lemma batch_all_or_nothing_witness :
  count_events is_put
    (trace (addSubscribers
              (Faulty.item (Demo.doc None) (String.eqb "a@x.com") false)
              (PList [PStr "a@x.com"; PStr "ghost@x.com"])))
  = 0%nat.
Proof.
  apply (batch_all_or_nothing
           (Faulty.item (Demo.doc None) (String.eqb "a@x.com") false)
           (PList [PStr "a@x.com"; PStr "ghost@x.com"])
           [PStr "a@x.com"; PStr "ghost@x.com"] (PStr "ghost@x.com")).
  - reflexivity.
  - right. left. reflexivity.
  - reflexivity.
Defined.

(** A failed lookup surfaces unchanged from the single-email mutations:
    after the GET and the lookup, the exception of [getOwnedBy] is the
    one raised, and no PUT is sent. *)
Theorem lookup_failure_surfaces (self : Workitem) (email : pyval)
    (e : string) (err : exn) (h : dict) (doc : pyval) :
  valid_email email = Some e ->
  getOwnedBy (rtc_obj self) e = Raise err ->
  outcome (_perform_subscribe self) = Ok (h, doc) ->
  addSubscriber self email
  = ([EvGet (subscribers_url self) (fetch_headers self); EvOwnedBy e],
     Raise err)
  /\ removeSubscriber self email
     = ([EvGet (subscribers_url self) (fetch_headers self); EvOwnedBy e],
        Raise err).
Proof.
  intros He Hm Hfetch. unfold addSubscriber, removeSubscriber.
  rewrite (perform_subscribe_ok self h doc Hfetch). cbn [bind].
  unfold _add_subscriber, _remove_subscriber. rewrite He, Hm.
  split; reflexivity.
Qed.

Lemma lookup_failure_surfaces_witness :
  removeSubscriber (Faulty.item (Demo.doc None) (fun _ => false) false)
    (PStr "ghost@x.com")
  = ([EvGet (Demo.item_url ++ "?oslc_cm.properties=rtc_cm:subscribers")
        (fetch_headers (Faulty.item PNone (fun _ => false) false));
      EvOwnedBy "ghost@x.com"],
     Raise (NotFound "ghost@x.com")).
Proof.
  apply (lookup_failure_surfaces
           (Faulty.item (Demo.doc None) (fun _ => false) false)
           (PStr "ghost@x.com") "ghost@x.com"
           (NotFound "ghost@x.com") Faulty.headers (Demo.doc None));
    reflexivity.
Defined.

(** A failed write surfaces unchanged.  For the representation that a
    single-email mutation is about to write: when the serialiser raises,
    the mutation raises that exception and no PUT is sent; when the PUT
    raises (a precondition that failed, say), the mutation raises that
    exception after that one PUT, without a retry. *)
Theorem write_failure_surfaces (self : Workitem) (email : pyval)
    (e : string) (h : dict) (doc doc' : pyval) (err : exn) :
  valid_email email = Some e ->
  outcome (_perform_subscribe self) = Ok (h, doc) ->
  (_add_subscriber self email doc = ([EvOwnedBy e], Ok (false, doc')) ->
   (xmltodict_unparse (rtc_obj self) doc' = Raise err ->
    addSubscriber self email
    = ([EvGet (subscribers_url self) (fetch_headers self); EvOwnedBy e],
       Raise err))
   /\ (forall data,
          xmltodict_unparse (rtc_obj self) doc' = Ok data ->
          http_put (rtc_obj self) (subscribers_url self) h data = Raise err ->
          addSubscriber self email
          = ([EvGet (subscribers_url self) (fetch_headers self);
              EvOwnedBy e; EvPut (subscribers_url self) h data],
             Raise err)))
  /\ (_remove_subscriber self email doc = ([EvOwnedBy e], Ok (false, doc')) ->
      (xmltodict_unparse (rtc_obj self) doc' = Raise err ->
       removeSubscriber self email
       = ([EvGet (subscribers_url self) (fetch_headers self); EvOwnedBy e],
          Raise err))
      /\ (forall data,
             xmltodict_unparse (rtc_obj self) doc' = Ok data ->
             http_put (rtc_obj self) (subscribers_url self) h data
             = Raise err ->
             removeSubscriber self email
             = ([EvGet (subscribers_url self) (fetch_headers self);
                 EvOwnedBy e; EvPut (subscribers_url self) h data],
                Raise err))).
Proof.
  intros He Hfetch. unfold addSubscriber, removeSubscriber.
  rewrite (perform_subscribe_ok self h doc Hfetch). cbn [bind].
  split; intros ->; cbn [bind]; unfold _update_subscribe; cbv zeta; split.
  - intros ->. reflexivity.
  - intros data -> Hput. cbn [lift bind]. now rewrite Hput.
  - intros ->. reflexivity.
  - intros data -> Hput. cbn [lift bind]. now rewrite Hput.
Qed.

Lemma write_failure_surfaces_witness :
  removeSubscriber
    (Faulty.item (Demo.doc (Some (Demo.ref "a@x.com"))) (fun _ => true) true)
    (PStr "a@x.com")
  = ([EvGet (Demo.item_url ++ "?oslc_cm.properties=rtc_cm:subscribers")
        (fetch_headers (Faulty.item PNone (fun _ => true) true));
      EvOwnedBy "a@x.com";
      EvPut (Demo.item_url ++ "?oslc_cm.properties=rtc_cm:subscribers")
        Faulty.headers "written"],
     Raise HTTPError).
Proof.
  destruct (write_failure_surfaces
              (Faulty.item (Demo.doc (Some (Demo.ref "a@x.com")))
                 (fun _ => true) true)
              (PStr "a@x.com") "a@x.com" Faulty.headers
              (Demo.doc (Some (Demo.ref "a@x.com"))) (Demo.doc None)
              HTTPError eq_refl eq_refl) as [_ Hremove].
  destruct (Hremove eq_refl) as [_ Hput].
  apply (Hput "written"); reflexivity.
Defined.

(** ** What a mutation does to the members *)

Lemma refers_to_iff (u : string) (x : pyval) :
  refers_to u x = true <-> member_ref x = Some (PStr u).
Proof.
  unfold refers_to. destruct (member_ref x) as [r|].
  - split.
    + intros H. apply py_eqb_str_l in H. now subst.
    + intros [= ->]. apply py_eqb_refl.
  - split; discriminate.
Qed.

Lemma refers_to_other (u u' : string) (x : pyval) :
  u' <> u -> refers_to u x = true -> refers_to u' x = false.
Proof.
  intros Hne H. apply refers_to_iff in H.
  destruct (refers_to u' x) eqn:E; [|reflexivity].
  apply refers_to_iff in E. congruence.
Qed.

Lemma existsb_refs (u : string) (l : list pyval) :
  existsb (refers_to u) l = true <-> In (Some (PStr u)) (map member_ref l).
Proof.
  rewrite existsb_exists, in_map_iff. split.
  - intros (x & Hin & Hx). exists x. split; [now apply refers_to_iff|easy].
  - intros (x & Hx & Hin). exists x. split; [easy|now apply refers_to_iff].
Qed.

Lemma remove_first_other (u u' : string) (l : list pyval) :
  u' <> u ->
  existsb (refers_to u') (remove_first (refers_to u) l)
  = existsb (refers_to u') l.
Proof.
  intros Hne. induction l as [|x r IH]; simpl; [reflexivity|].
  destruct (refers_to u x) eqn:E; simpl.
  - now rewrite (refers_to_other u u' x Hne E).
  - now rewrite IH.
Qed.

Lemma remove_first_sub (p q : pyval -> bool) (l : list pyval) :
  existsb q (remove_first p l) = true -> existsb q l = true.
Proof.
  induction l as [|x r IH]; simpl; [discriminate|].
  destruct (p x); simpl.
  - intros ->. apply orb_true_r.
  - destruct (q x); [reflexivity|]. exact IH.
Qed.

Lemma remove_first_refs_sub (p : pyval -> bool) (l : list pyval)
    (r : option pyval) :
  In r (map member_ref (remove_first p l)) -> In r (map member_ref l).
Proof.
  induction l as [|x t IH]; simpl; [easy|].
  destruct (p x); simpl; [now right|].
  intros [H|H]; [now left|right; now apply IH].
Qed.

Lemma remove_first_nodup (p : pyval -> bool) (l : list pyval) :
  NoDup (map member_ref l) -> NoDup (map member_ref (remove_first p l)).
Proof.
  induction l as [|x t IH]; simpl; [easy|].
  intros H. inversion H as [|? ? Hx Ht]; subst.
  destruct (p x); [assumption|]. simpl. constructor; [|now apply IH].
  intros Hin. apply Hx. now apply (remove_first_refs_sub p t).
Qed.

Lemma remove_first_gone (u : string) (l : list pyval) :
  NoDup (map member_ref l) ->
  existsb (refers_to u) (remove_first (refers_to u) l) = false.
Proof.
  induction l as [|x t IH]; simpl; [reflexivity|].
  intros H. inversion H as [|? ? Hx Ht]; subst.
  destruct (refers_to u x) eqn:E.
  - destruct (existsb (refers_to u) t) eqn:Et; [|reflexivity].
    exfalso. apply Hx. apply refers_to_iff in E. rewrite E.
    now apply existsb_refs.
  - simpl. rewrite E. now apply IH.
Qed.

(** What [_add_subscriber] does to the members of a well-formed
    representation: afterwards a member refers to the person; whether
    anybody else is a subscriber is unchanged; and references that were
    distinct stay distinct: a person is never entered twice. *)
Theorem add_subscriber_effect (self : Workitem) (email : pyval) (e : string)
    (m : Member) (doc : pyval) :
  valid_email email = Some e ->
  getOwnedBy (rtc_obj self) e = Ok m ->
  wf_doc doc = true ->
  exists doc',
    outcome (_add_subscriber self email doc)
    = Ok (is_subscriber (member_url m) doc, doc')
    /\ wf_doc doc' = true
    /\ is_subscriber (member_url m) doc' = true
    /\ (forall u, u <> member_url m ->
                  is_subscriber u doc' = is_subscriber u doc)
    /\ (NoDup (member_refs doc) -> NoDup (member_refs doc')).
Proof.
  intros He Hm Hwf.
  destruct (add_subscriber_wf self email e m doc He Hm Hwf)
    as (doc' & Hrun & Hwf' & Hmem & _).
  exists doc'. rewrite Hrun. split; [reflexivity|]. split; [assumption|].
  unfold is_subscriber, member_refs in *. rewrite Hmem.
  destruct (existsb (refers_to (member_url m)) (members doc)) eqn:Hin.
  - repeat split; auto.
  - repeat split.
    + rewrite existsb_app. simpl. now rewrite refers_to_new, orb_true_r.
    + intros u Hu. rewrite existsb_app. simpl.
      rewrite (refers_to_other (member_url m) u (new_member m) Hu
                 (refers_to_new m)).
      now rewrite !orb_false_r.
    + intros Hnd. rewrite map_app. simpl.
      apply NoDup_app; [assumption|repeat constructor; easy|].
      intros r Hr [<-|[]].
      apply existsb_refs in Hr. congruence.
Qed.

Lemma add_subscriber_effect_witness :
  exists doc',
    outcome (_add_subscriber (Demo.item PNone PNone) (PStr "b@x.com")
               (Demo.doc (Some (Demo.ref "a@x.com"))))
    = Ok (false, doc')
    /\ is_subscriber (Demo.person_url "b@x.com") doc' = true
    /\ is_subscriber (Demo.person_url "a@x.com") doc' = true
    /\ NoDup (member_refs doc').
Proof.
  destruct (add_subscriber_effect (Demo.item PNone PNone) (PStr "b@x.com")
              "b@x.com"
              {| member_url := Demo.person_url "b@x.com";
                 member_email := "b@x.com" |}
              (Demo.doc (Some (Demo.ref "a@x.com")))
              eq_refl eq_refl eq_refl)
    as (doc' & Hrun & _ & Hin & Hother & Hnd).
  exists doc'. split; [exact Hrun|]. split; [exact Hin|]. split.
  - rewrite (Hother (Demo.person_url "a@x.com")); [reflexivity|discriminate].
  - apply Hnd. repeat constructor. intros [].
Defined.

(** What [_remove_subscriber] does to the members of a well-formed
    representation: whether anybody else is a subscriber is unchanged, and
    when the references of the members are distinct, no member refers to
    the person afterwards. *)
Theorem remove_subscriber_effect (self : Workitem) (email : pyval)
    (e : string) (m : Member) (doc : pyval) :
  valid_email email = Some e ->
  getOwnedBy (rtc_obj self) e = Ok m ->
  wf_doc doc = true ->
  exists doc',
    outcome (_remove_subscriber self email doc)
    = Ok (negb (is_subscriber (member_url m) doc), doc')
    /\ wf_doc doc' = true
    /\ (forall u, u <> member_url m ->
                  is_subscriber u doc' = is_subscriber u doc)
    /\ (NoDup (member_refs doc) ->
        is_subscriber (member_url m) doc' = false
        /\ NoDup (member_refs doc')).
Proof.
  intros He Hm Hwf.
  destruct (remove_subscriber_wf self email e m doc He Hm Hwf)
    as (doc' & Hrun & Hwf' & Hmem & _).
  exists doc'. rewrite Hrun. split; [reflexivity|]. split; [assumption|].
  unfold is_subscriber, member_refs. rewrite Hmem. split.
  - intros u Hu. now apply remove_first_other.
  - intros Hnd. split; [now apply remove_first_gone|].
    now apply remove_first_nodup.
Qed.

Lemma remove_subscriber_effect_witness :
  exists doc',
    outcome (_remove_subscriber (Demo.item PNone PNone) (PStr "a@x.com")
               (Demo.doc (Some (PList [Demo.ref "a@x.com";
                                       Demo.ref "b@x.com"]))))
    = Ok (false, doc')
    /\ is_subscriber (Demo.person_url "b@x.com") doc' = true
    /\ is_subscriber (Demo.person_url "a@x.com") doc' = false.
Proof.
  destruct (remove_subscriber_effect (Demo.item PNone PNone)
              (PStr "a@x.com") "a@x.com"
              {| member_url := Demo.person_url "a@x.com";
                 member_email := "a@x.com" |}
              (Demo.doc (Some (PList [Demo.ref "a@x.com";
                                      Demo.ref "b@x.com"])))
              eq_refl eq_refl eq_refl)
    as (doc' & Hrun & _ & Hother & Hgone).
  exists doc'. split; [exact Hrun|]. split.
  - rewrite (Hother (Demo.person_url "b@x.com")); [reflexivity|discriminate].
  - apply Hgone. repeat constructor; simpl; intuition discriminate.
Defined.

Lemma remove_first_appended (p : pyval -> bool) (l : list pyval)
    (x : pyval) :
  existsb p l = false -> p x = true -> remove_first p (l ++ [x]) = l.
Proof.
  intros Hl Hx. induction l as [|y r IH]; simpl in *.
  - now rewrite Hx.
  - destruct (p y); [discriminate|]. now rewrite IH.
Qed.

(** Adding a person who is not a subscriber and then removing that person
    gives back the members, and with them the subscribers property, as
    they were fetched: absent stays absent, a bare member stays bare, a
    list stays that list. *)
Theorem add_then_remove_restores (self : Workitem) (email : pyval)
    (e : string) (m : Member) (doc : pyval) :
  valid_email email = Some e ->
  getOwnedBy (rtc_obj self) e = Ok m ->
  wf_doc doc = true ->
  is_subscriber (member_url m) doc = false ->
  exists doc1 doc2,
    outcome (_add_subscriber self email doc) = Ok (false, doc1)
    /\ outcome (_remove_subscriber self email doc1) = Ok (false, doc2)
    /\ members doc2 = members doc
    /\ subscribers_property doc2 = subscribers_property doc.
Proof.
  intros He Hm Hwf Hnew.
  destruct (add_subscriber_wf self email e m doc He Hm Hwf)
    as (doc1 & Hrun1 & Hwf1 & Hmem1 & _).
  destruct (remove_subscriber_wf self email e m doc1 He Hm Hwf1)
    as (doc2 & Hrun2 & Hwf2 & Hmem2 & _).
  rewrite Hnew in Hrun1, Hmem1.
  assert (Hin1 : is_subscriber (member_url m) doc1 = true).
  { unfold is_subscriber. rewrite Hmem1, existsb_app. simpl.
    now rewrite refers_to_new, orb_true_r. }
  rewrite Hin1 in Hrun2.
  assert (Hmem : members doc2 = members doc).
  { rewrite Hmem2, Hmem1.
    apply remove_first_appended; [exact Hnew|apply refers_to_new]. }
  exists doc1, doc2. rewrite Hrun1, Hrun2. repeat split; try assumption.
  destruct (wf_doc_convention doc Hwf) as [-> _].
  destruct (wf_doc_convention doc2 Hwf2) as [-> _].
  now rewrite Hmem.
Qed.

Lemma add_then_remove_restores_witness :
  exists doc1 doc2,
    outcome (_add_subscriber (Demo.item PNone PNone) (PStr "b@x.com")
               (Demo.doc (Some (Demo.ref "a@x.com"))))
    = Ok (false, doc1)
    /\ outcome (_remove_subscriber (Demo.item PNone PNone) (PStr "b@x.com")
                  doc1)
       = Ok (false, doc2)
    /\ members doc2 = [Demo.ref "a@x.com"]
    /\ subscribers_property doc2 = Some (Demo.ref "a@x.com").
Proof.
  apply (add_then_remove_restores (Demo.item PNone PNone) (PStr "b@x.com")
           "b@x.com"
           {| member_url := Demo.person_url "b@x.com";
              member_email := "b@x.com" |}
           (Demo.doc (Some (Demo.ref "a@x.com"))));
    reflexivity.
Defined.

(** ** What a batch does to the members *)

(** The persons that a batch names. *)
Lemma subscribed_person (self : Workitem) (doc : pyval) (email : pyval)
    (m : Member) :
  person self email = Some m ->
  subscribed self doc email = is_subscriber (member_url m) doc.
Proof. intros H. unfold subscribed. now rewrite H. Qed.

(** The loop of [removeSubscribers], on a well-formed representation whose
    members have distinct references and with resolvable emails: afterwards
    none of the requested persons is a subscriber, whoever was not
    requested is a subscriber exactly if they were one, and the references
    are still distinct. *)
Theorem remove_loop_effect (self : Workitem) (items : list pyval) :
  forall flags doc,
    wf_doc doc = true ->
    NoDup (member_refs doc) ->
    forallb (resolvable self) items = true ->
    exists flags' doc',
      outcome (remove_loop self items flags doc) = Ok (flags', doc')
      /\ wf_doc doc' = true
      /\ NoDup (member_refs doc')
      /\ forallb (fun email => negb (subscribed self doc' email)) items
         = true
      /\ (forall u, is_subscriber u doc' = true -> is_subscriber u doc = true)
      /\ (forall u,
             (forall email m, In email items -> person self email = Some m ->
                              member_url m <> u) ->
             is_subscriber u doc' = is_subscriber u doc).
Proof.
  induction items as [|email rest IH]; intros flags doc Hwf Hnd Hres.
  - exists flags, doc. repeat split; auto.
  - simpl in Hres. apply andb_prop in Hres as [Hres1 Hres].
    destruct (resolvable_inv self email Hres1) as (e & m & He & Hm & Hp).
    destruct (remove_subscriber_effect self email e m doc He Hm Hwf)
      as (doc1 & Hrun & Hwf1 & Hother & Hgone).
    destruct (Hgone Hnd) as [Hout Hnd1].
    destruct (IH (flags && negb (is_subscriber (member_url m) doc)) doc1
                Hwf1 Hnd1 Hres)
      as (flags' & doc' & Hloop & Hwf' & Hnd' & Hall & Hsub & Hkeep).
    exists flags', doc'. simpl. rewrite outcome_bind, Hrun. cbn [outcome snd].
    rewrite Hloop. repeat split; try assumption.
    + apply andb_true_intro. split; [|assumption].
      rewrite (subscribed_person self doc' email m Hp).
      destruct (is_subscriber (member_url m) doc') eqn:E; [|reflexivity].
      apply Hsub in E. congruence.
    + intros u Hu. specialize (Hsub u Hu).
      destruct (String.eqb u (member_url m)) eqn:E.
      * apply String.eqb_eq in E. subst u. congruence.
      * apply String.eqb_neq in E. now rewrite <- (Hother u E).
    + intros u Hu.
      rewrite Hkeep.
      * apply Hother. intros ->. now apply (Hu email m (or_introl eq_refl) Hp).
      * intros email' m' Hin' Hp'. apply (Hu email' m'); [now right|easy].
Qed.

Lemma remove_loop_effect_witness :
  exists flags' doc',
    outcome (remove_loop (Demo.item PNone PNone)
               [PStr "c@x.com"; PStr "a@x.com"; PStr "a@x.com"] true
               (Demo.doc (Some (PList [Demo.ref "a@x.com";
                                       Demo.ref "b@x.com";
                                       Demo.ref "c@x.com"]))))
    = Ok (flags', doc')
    /\ is_subscriber (Demo.person_url "a@x.com") doc' = false
    /\ is_subscriber (Demo.person_url "b@x.com") doc' = true.
Proof.
  destruct (remove_loop_effect (Demo.item PNone PNone)
              [PStr "c@x.com"; PStr "a@x.com"; PStr "a@x.com"] true
              (Demo.doc (Some (PList [Demo.ref "a@x.com";
                                      Demo.ref "b@x.com";
                                      Demo.ref "c@x.com"])))
              eq_refl
              ltac:(repeat constructor; simpl; intuition discriminate)
              eq_refl)
    as (flags' & doc' & Hrun & _ & _ & Hall & _ & Hkeep).
  exists flags', doc'. split; [exact Hrun|]. split.
  - simpl in Hall. apply andb_prop in Hall as [_ Hall].
    apply andb_prop in Hall as [Ha _].
    now apply negb_true_iff in Ha.
  - rewrite Hkeep; [reflexivity|].
    intros email m [<-|[<-|[<-|[]]]] [= <-]; discriminate.
Defined.

(** The loop of [addSubscribers], on a well-formed representation and with
    resolvable emails: afterwards every requested person is a subscriber,
    nobody has been dropped, whoever was not requested is a subscriber
    exactly if they were one, and distinct references stay distinct, also
    when the emails repeat. *)
Theorem add_loop_effect (self : Workitem) (items : list pyval) :
  forall flags doc,
    wf_doc doc = true ->
    forallb (resolvable self) items = true ->
    exists flags' doc',
      outcome (add_loop self items flags doc) = Ok (flags', doc')
      /\ wf_doc doc' = true
      /\ forallb (subscribed self doc') items = true
      /\ (forall u, is_subscriber u doc = true -> is_subscriber u doc' = true)
      /\ (forall u,
             (forall email m, In email items -> person self email = Some m ->
                              member_url m <> u) ->
             is_subscriber u doc' = is_subscriber u doc)
      /\ (NoDup (member_refs doc) -> NoDup (member_refs doc')).
Proof.
  induction items as [|email rest IH]; intros flags doc Hwf Hres.
  - exists flags, doc. repeat split; auto.
  - simpl in Hres. apply andb_prop in Hres as [Hres1 Hres].
    destruct (resolvable_inv self email Hres1) as (e & m & He & Hm & Hp).
    destruct (add_subscriber_effect self email e m doc He Hm Hwf)
      as (doc1 & Hrun & Hwf1 & Hin1 & Hother & Hnd1).
    destruct (IH (flags && is_subscriber (member_url m) doc) doc1 Hwf1 Hres)
      as (flags' & doc' & Hloop & Hwf' & Hall & Hmono & Hkeep & Hnd').
    exists flags', doc'. simpl. rewrite outcome_bind, Hrun. cbn [outcome snd].
    rewrite Hloop. repeat split; try assumption.
    + apply andb_true_intro. split; [|assumption].
      rewrite (subscribed_person self doc' email m Hp). now apply Hmono.
    + intros u Hu. apply Hmono.
      destruct (String.eqb u (member_url m)) eqn:E.
      * apply String.eqb_eq in E. now subst u.
      * apply String.eqb_neq in E. now rewrite (Hother u E).
    + intros u Hu. rewrite Hkeep.
      * apply Hother. intros ->. now apply (Hu email m (or_introl eq_refl) Hp).
      * intros email' m' Hin' Hp'. apply (Hu email' m'); [now right|easy].
    + intros Hnd. apply Hnd'. now apply Hnd1.
Qed.

Lemma add_loop_effect_witness :
  exists flags' doc',
    outcome (add_loop (Demo.item PNone PNone)
               [PStr "b@x.com"; PStr "a@x.com"; PStr "b@x.com"] false
               (Demo.doc (Some (Demo.ref "a@x.com"))))
    = Ok (flags', doc')
    /\ is_subscriber (Demo.person_url "b@x.com") doc' = true
    /\ is_subscriber (Demo.person_url "c@x.com") doc' = false
    /\ NoDup (member_refs doc').
Proof.
  destruct (add_loop_effect (Demo.item PNone PNone)
              [PStr "b@x.com"; PStr "a@x.com"; PStr "b@x.com"] false
              (Demo.doc (Some (Demo.ref "a@x.com"))) eq_refl eq_refl)
    as (flags' & doc' & Hrun & _ & Hall & _ & Hkeep & Hnd).
  exists flags', doc'. split; [exact Hrun|]. split; [|split].
  - simpl in Hall. now apply andb_prop in Hall as [Hb _].
  - rewrite Hkeep; [reflexivity|].
    intros email m [<-|[<-|[<-|[]]]] [= <-]; discriminate.
  - apply Hnd. repeat constructor. intros [].
Defined.

(** Running a batch again on its own result changes nothing.  After the
    loop of [addSubscribers] every requested person is a member, so the
    loop run again on the representation it produced returns that
    representation; after the loop of [removeSubscribers], on members with
    distinct references, the loop run again finds every person absent,
    returns the representation as it is and sets the flag that makes
    [removeSubscribers] skip the write. *)
Theorem batch_loops_idempotent (self : Workitem) (items : list pyval)
    (doc : pyval) :
  wf_doc doc = true ->
  forallb (resolvable self) items = true ->
  (forall flags doc',
      outcome (add_loop self items false doc) = Ok (flags, doc') ->
      outcome (add_loop self items false doc') = Ok (false, doc'))
  /\ (NoDup (member_refs doc) ->
      forall flags doc',
        outcome (remove_loop self items true doc) = Ok (flags, doc') ->
        outcome (remove_loop self items true doc') = Ok (true, doc')).
Proof.
  intros Hwf Hres. split.
  - intros flags doc' Hrun.
    destruct (add_loop_wf self items false doc Hwf Hres)
      as (f1 & d1 & a1 & Hloop & Hwf1 & _ & _ & Hall & _).
    rewrite Hloop in Hrun. injection Hrun as _ <-.
    destruct (add_loop_wf self items false d1 Hwf1 Hres)
      as (f2 & d2 & a2 & Hloop2 & _ & Hflag & _ & _ & Hsame).
    rewrite Hloop2. cbn [outcome snd].
    now rewrite (Hflag eq_refl), (Hsame Hall).
  - intros Hnd flags doc' Hrun.
    destruct (remove_loop_effect self items true doc Hwf Hnd Hres)
      as (f1 & d1 & Hloop & Hwf1 & _ & Hall & _).
    rewrite Hloop in Hrun. injection Hrun as _ <-.
    destruct (remove_loop_wf self items true d1 Hwf1 Hres)
      as (f2 & d2 & Hloop2 & _ & Hflag & Hsame).
    rewrite Hloop2. cbn [outcome snd].
    rewrite Hall in Hflag. simpl in Hflag. subst f2.
    now rewrite (Hsame eq_refl).
Qed.

Lemma batch_loops_idempotent_witness :
  outcome (add_loop (Demo.item PNone PNone)
             [PStr "b@x.com"; PStr "c@x.com"] false
             (Demo.doc (Some (PList [Demo.ref "a@x.com"; Demo.ref "b@x.com";
                                     Demo.ref "c@x.com"]))))
  = Ok (false,
        Demo.doc (Some (PList [Demo.ref "a@x.com"; Demo.ref "b@x.com";
                               Demo.ref "c@x.com"]))).
Proof.
  destruct (batch_loops_idempotent (Demo.item PNone PNone)
              [PStr "b@x.com"; PStr "c@x.com"]
              (Demo.doc (Some (Demo.ref "a@x.com"))) eq_refl eq_refl)
    as [Hadd _].
  apply (Hadd false). reflexivity.
Defined.

(** ** Representations the code cannot read *)

(** When the fetched representation has no [rdf:RDF] mapping with an
    [rdf:Description] mapping in it, the single-email mutations raise
    [AttributeError] after the lookup; when its subscribers property is a
    bare mapping without [@rdf:resource], they raise [KeyError].  Nothing
    is written in either case. *)
Theorem unreadable_representation (self : Workitem) (email : pyval)
    (e : string) (m : Member) (h : dict) (doc : pyval) :
  valid_email email = Some e ->
  getOwnedBy (rtc_obj self) e = Ok m ->
  outcome (_perform_subscribe self) = Ok (h, doc) ->
  (description_of doc = None ->
   addSubscriber self email
   = ([EvGet (subscribers_url self) (fetch_headers self); EvOwnedBy e],
      Raise AttributeError)
   /\ removeSubscriber self email
      = ([EvGet (subscribers_url self) (fetch_headers self); EvOwnedBy e],
         Raise AttributeError))
  /\ (forall sub,
         subscribers_property doc = Some (PDict sub) ->
         dict_find sub "@rdf:resource" = None ->
         addSubscriber self email
         = ([EvGet (subscribers_url self) (fetch_headers self); EvOwnedBy e],
            Raise (KeyError "@rdf:resource"))
         /\ removeSubscriber self email
            = ([EvGet (subscribers_url self) (fetch_headers self);
                EvOwnedBy e],
               Raise (KeyError "@rdf:resource"))).
Proof.
  intros He Hm Hfetch. unfold addSubscriber, removeSubscriber.
  rewrite (perform_subscribe_ok self h doc Hfetch). cbn [bind].
  unfold _add_subscriber, _remove_subscriber. rewrite He, Hm.
  cbn [call bind]. split.
  - unfold description_of. intros Hd.
    destruct doc as [| | | | |raw]; try (split; reflexivity).
    destruct (dict_get raw "rdf:RDF") as [| | | | |rdf];
      try (split; reflexivity).
    destruct (dict_get rdf "rdf:Description") as [| | | | |description];
      try (split; reflexivity).
    discriminate.
  - unfold subscribers_property, description_of. intros sub Hprop Hkey.
    destruct doc as [| | | | |raw]; try discriminate.
    destruct (dict_get raw "rdf:RDF") as [| | | | |rdf]; try discriminate.
    destruct (dict_get rdf "rdf:Description") as [| | | | |description];
      try discriminate.
    unfold dict_get at 1 2. rewrite Hprop.
    unfold _check_exist_subscriber, _check_missing_subscriber, py_getitem.
    rewrite Hkey. split; reflexivity.
Qed.

Lemma unreadable_representation_witness :
  addSubscriber (Demo.item (PDict [("html", PStr "Sign in")]) PNone)
    (PStr "a@x.com")
  = ([EvGet (subscribers_url (Demo.item PNone PNone))
        (fetch_headers (Demo.item PNone PNone));
      EvOwnedBy "a@x.com"],
     Raise AttributeError)
  /\ removeSubscriber
       (Demo.item (Demo.doc (Some (PDict [("@rdf:nodeID", PStr "n1")])))
          PNone)
       (PStr "a@x.com")
     = ([EvGet (subscribers_url (Demo.item PNone PNone))
           (fetch_headers (Demo.item PNone PNone));
         EvOwnedBy "a@x.com"],
        Raise (KeyError "@rdf:resource")).
Proof.
  split.
  - destruct (unreadable_representation
                (Demo.item (PDict [("html", PStr "Sign in")]) PNone)
                (PStr "a@x.com") "a@x.com"
                {| member_url := Demo.person_url "a@x.com";
                   member_email := "a@x.com" |}
                (dict_set (fetch_headers (Demo.item PNone PNone))
                   "If-Match" (PStr "v1"))
                (PDict [("html", PStr "Sign in")])
                eq_refl eq_refl eq_refl) as [Hmissing _].
    apply Hmissing. reflexivity.
  - destruct (unreadable_representation
                (Demo.item
                   (Demo.doc (Some (PDict [("@rdf:nodeID", PStr "n1")])))
                   PNone)
                (PStr "a@x.com") "a@x.com"
                {| member_url := Demo.person_url "a@x.com";
                   member_email := "a@x.com" |}
                (dict_set (fetch_headers (Demo.item PNone PNone))
                   "If-Match" (PStr "v1"))
                (Demo.doc (Some (PDict [("@rdf:nodeID", PStr "n1")])))
                eq_refl eq_refl eq_refl) as [_ Hkey].
    apply (Hkey [("@rdf:nodeID", PStr "n1")]); reflexivity.
Defined.

(** ** Adding a comment: what is sent and what is not *)

(** [addComment] sends the POST only once it has read the total count as
    a string.  When the GET raises, the body cannot be parsed, the
    collection or its count is missing ([KeyError]) or the count is not a
    string ([TypeError]), [addComment] raises having made the GET and
    nothing else. *)
Theorem addComment_stops_before_post (self : Workitem)
    (msg : option string) :
  (forall e,
      http_get (rtc_obj self) (comments_url self) (rtc_headers (rtc_obj self))
      = Raise e ->
      addComment self msg
      = ([EvGet (comments_url self) (rtc_headers (rtc_obj self))], Raise e))
  /\ (forall resp raw,
         http_get (rtc_obj self) (comments_url self)
           (rtc_headers (rtc_obj self)) = Ok resp ->
         (forall e, xmltodict_parse (rtc_obj self) (content resp) = Raise e ->
                    addComment self msg
                    = ([EvGet (comments_url self)
                          (rtc_headers (rtc_obj self))], Raise e))
         /\ (xmltodict_parse (rtc_obj self) (content resp) = Ok (PDict raw) ->
             (dict_find raw "oslc_cm:Collection" = None ->
              addComment self msg
              = ([EvGet (comments_url self) (rtc_headers (rtc_obj self))],
                 Raise (KeyError "oslc_cm:Collection")))
             /\ (forall coll,
                    dict_find raw "oslc_cm:Collection" = Some (PDict coll) ->
                    (dict_find coll "@oslc_cm:totalCount" = None ->
                     addComment self msg
                     = ([EvGet (comments_url self)
                           (rtc_headers (rtc_obj self))],
                        Raise (KeyError "@oslc_cm:totalCount")))
                    /\ (forall v,
                           dict_find coll "@oslc_cm:totalCount" = Some v ->
                           is_string v = false ->
                           addComment self msg
                           = ([EvGet (comments_url self)
                                 (rtc_headers (rtc_obj self))],
                              Raise TypeError))))).
Proof.
  unfold addComment. cbv zeta. split.
  - intros e ->. reflexivity.
  - intros resp raw ->. cbn [call bind]. split.
    + intros e ->. reflexivity.
    + intros ->. cbn [lift bind py_getitem rbind]. split.
      * intros ->. reflexivity.
      * intros coll ->. cbn [rbind py_getitem]. split.
        -- intros ->. reflexivity.
        -- intros v -> Hv. destruct v; try reflexivity. discriminate.
Qed.

Lemma addComment_stops_before_post_witness :
  addComment
    {| url := Demo.item_url;
       rtc_obj := Demo.rtc [(Demo.item_url ++ "/rtc_cm:comments",
                             PDict [("oslc_cm:Collection", PDict [])])]
                    "written";
       identifier := "7" |}
    (Some "hello")
  = ([EvGet (Demo.item_url ++ "/rtc_cm:comments")
        [("Accept", PStr "text/xml")]],
     Raise (KeyError "@oslc_cm:totalCount")).
Proof.
  destruct (addComment_stops_before_post
              {| url := Demo.item_url;
                 rtc_obj := Demo.rtc [(Demo.item_url ++ "/rtc_cm:comments",
                                       PDict [("oslc_cm:Collection",
                                               PDict [])])]
                              "written";
                 identifier := "7" |}
              (Some "hello")) as [_ H].
  destruct (H (Demo.response (Demo.item_url ++ "/rtc_cm:comments"))
              [("oslc_cm:Collection", PDict [])] eq_refl) as [_ Hraw].
  destruct (Hraw eq_refl) as [_ Hcoll].
  destruct (Hcoll [] eq_refl) as [Hmissing _].
  apply Hmissing. reflexivity.
Defined.

Lemma string_app_assoc (a b c : string) : (a ++ b) ++ c = a ++ (b ++ c).
Proof. induction a as [|x r IH]; simpl; [reflexivity|now rewrite IH]. Qed.

(** The POST of [addComment] goes to [oslc:comment] under the comments
    URL and is conditional on the collection that was fetched: its
    [If-Match] header is the [etag] header of the response to the GET,
    beside the RDF/XML content type and the OSLC version 2.0.  The GET
    before it is sent with the headers of the client as they are. *)
Theorem comment_post_is_conditional (self : Workitem) (msg : option string)
    (u : string) (hd : dict) (data : string) :
  In (EvPost u hd data) (trace (addComment self msg)) ->
  exists resp,
    http_get (rtc_obj self) (comments_url self) (rtc_headers (rtc_obj self))
    = Ok resp
    /\ u = url self ++ "/rtc_cm:comments/oslc:comment"
    /\ dict_find hd "If-Match" = Some (dict_get (resp_headers resp) "etag")
    /\ dict_find hd "Content-Type" = Some (PStr "application/rdf+xml")
    /\ dict_find hd "Accept" = Some (PStr "application/rdf+xml")
    /\ dict_find hd "OSLC-Core-Version" = Some (PStr "2.0").
Proof.
  destruct (http_get (rtc_obj self) (comments_url self)
              (rtc_headers (rtc_obj self))) as [resp|e] eqn:Hget.
  2: { unfold addComment. cbv zeta. rewrite Hget. simpl.
       intros [H|[]]. discriminate. }
  destruct (xmltodict_parse (rtc_obj self) (content resp))
    as [raw|e] eqn:Hparse.
  2: { unfold addComment. cbv zeta. rewrite Hget. cbn [call bind].
       rewrite Hparse. simpl. intros [H|[]]. discriminate. }
  destruct (total_count raw) as [v|e] eqn:Hcnt.
  2: { unfold addComment. cbv zeta. rewrite Hget. cbn [call bind].
       rewrite Hparse. cbn [lift bind]. fold (total_count raw).
       rewrite Hcnt. simpl. intros [H|[]]. discriminate. }
  destruct v as [| | |cnt| |];
    try (unfold addComment; cbv zeta; rewrite Hget; cbn [call bind];
         rewrite Hparse; cbn [lift bind]; fold (total_count raw);
         rewrite Hcnt; simpl; intros [H|[]]; discriminate).
  destruct (addComment_fetched self msg resp raw cnt Hget Hparse Hcnt)
    as ((rest & Htrace & Hrest) & _).
  rewrite Htrace. intros [H|[H|H]].
  - discriminate.
  - injection H as <- <- _. exists resp. split; [reflexivity|].
    split.
    { unfold comments_url, join_slash. simpl.
      now rewrite string_app_assoc. }
    unfold comment_post_headers. repeat split.
    + apply dict_find_set_same.
    + rewrite !dict_find_set_other by reflexivity. apply dict_find_set_same.
    + rewrite !dict_find_set_other by reflexivity. apply dict_find_set_same.
    + rewrite dict_find_set_other by reflexivity. apply dict_find_set_same.
  - destruct Hrest as [->|[u' ->]]; [contradiction|].
    destruct H as [H|[]]. discriminate.
Qed.

Lemma comment_post_is_conditional_witness :
  exists resp,
    http_get (rtc_obj (Demo.item PNone PNone))
      (comments_url (Demo.item PNone PNone))
      (rtc_headers (rtc_obj (Demo.item PNone PNone))) = Ok resp
    /\ Demo.item_url ++ "/rtc_cm:comments/oslc:comment"
       = url (Demo.item PNone PNone) ++ "/rtc_cm:comments/oslc:comment"
    /\ dict_find (comment_post_headers (Demo.item PNone PNone)
                    (Demo.response (Demo.item_url ++ "/rtc_cm:comments")))
         "If-Match" = Some (dict_get (resp_headers resp) "etag")
    /\ dict_find (comment_post_headers (Demo.item PNone PNone)
                    (Demo.response (Demo.item_url ++ "/rtc_cm:comments")))
         "Content-Type" = Some (PStr "application/rdf+xml")
    /\ dict_find (comment_post_headers (Demo.item PNone PNone)
                    (Demo.response (Demo.item_url ++ "/rtc_cm:comments")))
         "Accept" = Some (PStr "application/rdf+xml")
    /\ dict_find (comment_post_headers (Demo.item PNone PNone)
                    (Demo.response (Demo.item_url ++ "/rtc_cm:comments")))
         "OSLC-Core-Version" = Some (PStr "2.0").
Proof.
  apply (comment_post_is_conditional (Demo.item PNone PNone) (Some "hello")
           (Demo.item_url ++ "/rtc_cm:comments/oslc:comment")
           (comment_post_headers (Demo.item PNone PNone)
              (Demo.response (Demo.item_url ++ "/rtc_cm:comments")))
           (format_comment (Demo.item_url ++ "/rtc_cm:comments/3") "hello")).
  simpl. right. left. reflexivity.
Defined.

(** ** Fetching a comment by its number *)

(** For an accepted comment id whose number [n] is formatted as the text
    [t]: when the fetch succeeds, [getCommentByID] returns, after that one
    call, the comment bound to the URL that ends in [t], with the fetched
    data; its identifier is [t], as long as [t] holds no slash.  When the
    fetch raises anything but an HTTP error, that exception surfaces
    unchanged. *)
Theorem getCommentByID_fetch (py : Interp) (self : Workitem)
    (comment_id : pyobj) (n : Z) (t : string) :
  id_number py comment_id = Some n ->
  str_of_int py n = Some t ->
  (forall raw,
      fetch_resource (rtc_obj self) (url self ++ "/rtc_cm:comments/" ++ t)
      = Ok raw ->
      exists c,
        getCommentByID py self comment_id
        = ([EvFetch (url self ++ "/rtc_cm:comments/" ++ t)], Ok c)
        /\ comment_url c = url self ++ "/rtc_cm:comments/" ++ t
        /\ comment_raw_data c = raw
        /\ (contains_slash t = false -> comment_identifier c = t))
  /\ (forall e,
         fetch_resource (rtc_obj self)
           (url self ++ "/rtc_cm:comments/" ++ t) = Raise e ->
         e <> HTTPError ->
         getCommentByID py self comment_id
         = ([EvFetch (url self ++ "/rtc_cm:comments/" ++ t)], Raise e)).
Proof.
  intros Hid Ht.
  destruct (getCommentByID_accepted py self comment_id n t Hid Ht)
    as [Htr Ho].
  unfold comment_location in Htr, Ho.
  rewrite (M_eta (getCommentByID py self comment_id)), Htr, Ho. split.
  - intros raw ->. eexists. split; [reflexivity|].
    cbn [comment_url comment_raw_data].
    split; [reflexivity|]. split; [reflexivity|].
    intros Hslash.
    assert (Hurl : url self ++ "/rtc_cm:comments/" ++ t
                   = (url self ++ "/rtc_cm:comments") ++ String "/" t).
    { now rewrite string_app_assoc. }
    unfold comment_identifier, last_segment. cbn [comment_url].
    rewrite Hurl, split_on_app.
    rewrite (split_on_no_sep _ Hslash).
    apply last_last.
  - intros e -> He. destruct e; try reflexivity. contradiction.
Qed.

Lemma getCommentByID_fetch_witness :
  exists c,
    getCommentByID Demo.py
      {| url := Demo.item_url;
         rtc_obj :=
           {| rtc_headers := [];
              http_get := fun _ _ => Raise HTTPError;
              http_put := fun _ _ _ => Raise HTTPError;
              http_post := fun _ _ _ => Raise HTTPError;
              getOwnedBy := Demo.directory;
              fetch_resource := fun _ => Ok Demo.created;
              xmltodict_parse := fun _ => Raise ValueError;
              xmltodict_unparse := fun _ => Raise ValueError |};
         identifier := "7" |}
      (Val (PStr "12"))
    = ([EvFetch (Demo.item_url ++ "/rtc_cm:comments/12")], Ok c)
    /\ comment_url c = Demo.item_url ++ "/rtc_cm:comments/12"
    /\ comment_raw_data c = Demo.created
    /\ comment_identifier c = "12".
Proof.
  destruct (getCommentByID_fetch Demo.py
              {| url := Demo.item_url;
                 rtc_obj :=
                   {| rtc_headers := [];
                      http_get := fun _ _ => Raise HTTPError;
                      http_put := fun _ _ _ => Raise HTTPError;
                      http_post := fun _ _ _ => Raise HTTPError;
                      getOwnedBy := Demo.directory;
                      fetch_resource := fun _ => Ok Demo.created;
                      xmltodict_parse := fun _ => Raise ValueError;
                      xmltodict_unparse := fun _ => Raise ValueError |};
                 identifier := "7" |}
              (Val (PStr "12")) 12 "12" eq_refl eq_refl) as [Hok _].
  destruct (Hok Demo.created eq_refl) as (c & Hrun & Hurl & Hraw & Hid).
  exists c. split; [exact Hrun|]. split; [exact Hurl|].
  split; [exact Hraw|]. apply Hid. reflexivity.
Defined.

(** ** The identifier of a work item *)



(** ** What a mutation leaves alone *)

Lemma dict_find_pop_other (d : dict) (k k' : string) :
  String.eqb k k' = false ->
  dict_find (dict_pop d k) k' = dict_find d k'.
Proof.
  intros Hk. unfold dict_pop. induction d as [|[k0 v0] r IH]; simpl;
    [reflexivity|].
  destruct (String.eqb k0 k) eqn:E; simpl.
  - apply String.eqb_eq in E. subst k0. now rewrite Hk.
  - now rewrite IH.
Qed.

Lemma root_attr_with (raw rdf description : dict) (k : string) :
  String.eqb "rdf:Description" k = false ->
  root_attr (with_description raw rdf description) k = dict_find rdf k.
Proof.
  intros Hk. unfold root_attr, with_description.
  rewrite dict_get_set_same. now apply dict_find_set_other.
Qed.

Lemma description_attr_with (raw rdf description : dict) (k : string) :
  description_attr (with_description raw rdf description) k
  = dict_find description k.
Proof. unfold description_attr. now rewrite description_of_with. Qed.

Lemma eqb_neq_sym (a b : string) : a <> b -> String.eqb b a = false.
Proof. intros H. apply String.eqb_neq. congruence. Qed.

(** The helpers change the subscribers property and nothing else of the
    description; of the attributes of [rdf:RDF], [_add_subscriber] sets
    only [xmlns:rtc_cm], and only when it enters the first subscriber,
    and [_remove_subscriber] sets none.  Everything else that was fetched
    is written back as it was. *)
Theorem helpers_frame (self : Workitem) (email : pyval) (e : string)
    (m : Member) (doc : pyval) :
  valid_email email = Some e ->
  getOwnedBy (rtc_obj self) e = Ok m ->
  wf_doc doc = true ->
  (exists doc',
      outcome (_add_subscriber self email doc)
      = Ok (is_subscriber (member_url m) doc, doc')
      /\ (forall k, k <> "rtc_cm:subscribers" ->
                    description_attr doc' k = description_attr doc k)
      /\ (forall k, k <> "rdf:Description" -> k <> "@xmlns:rtc_cm" ->
                    root_attr doc' k = root_attr doc k)
      /\ (members doc = [] ->
          root_attr doc' "@xmlns:rtc_cm" = Some (PStr rtc_cm_ns))
      /\ (members doc <> [] ->
          root_attr doc' "@xmlns:rtc_cm" = root_attr doc "@xmlns:rtc_cm"))
  /\ (exists doc',
         outcome (_remove_subscriber self email doc)
         = Ok (negb (is_subscriber (member_url m) doc), doc')
         /\ (forall k, k <> "rtc_cm:subscribers" ->
                       description_attr doc' k = description_attr doc k)
         /\ (forall k, k <> "rdf:Description" ->
                       root_attr doc' k = root_attr doc k)).
Proof.
  intros He Hm Hwf.
  destruct (wf_doc_inv doc Hwf) as (raw & rdf & description & -> & Hrdf
                                    & Hdesc & Hprop & Hwire).
  assert (Hd0 : forall k, description_attr (PDict raw) k
                          = dict_find description k).
  { intros k. unfold description_attr, description_of.
    now rewrite Hrdf, Hdesc. }
  assert (Hr0 : forall k, root_attr (PDict raw) k = dict_find rdf k).
  { intros k. unfold root_attr. now rewrite Hrdf. }
  split.
  - unfold _add_subscriber, is_subscriber, members.
    rewrite He, Hm, Hprop. cbn [call bind]. rewrite Hrdf, Hdesc.
    unfold dict_get at 1.
    destruct (dict_find description "rtc_cm:subscribers")
      as [[| | | |l|sub]|] eqn:Hfind; try discriminate.
    + unfold wire_ok in Hwire. apply andb_prop in Hwire as [Hlen Hall].
      apply Nat.leb_le in Hlen.
      cbn [py_iter normalize]. rewrite (scan_exist_members m l Hall).
      cbn [lift bind ret app outcome snd].
      destruct (existsb (refers_to (member_url m)) l).
      * exists (PDict raw). repeat split; auto.
        intros ->. simpl in Hlen. lia.
      * eexists. split; [reflexivity|]. repeat split.
        -- intros k Hk. rewrite description_attr_with, Hd0.
           apply dict_find_set_other. now apply eqb_neq_sym.
        -- intros k Hk _. rewrite root_attr_with, Hr0;
             [reflexivity|now apply eqb_neq_sym].
        -- intros ->. simpl in Hlen. lia.
        -- intros _. rewrite root_attr_with, Hr0; reflexivity.
    + cbn [normalize existsb].
      rewrite (check_exist_member m (PDict sub) Hwire), orb_false_r.
      cbn [lift bind ret app outcome snd].
      destruct (refers_to (member_url m) (PDict sub)).
      * exists (PDict raw). repeat split; auto. discriminate.
      * eexists. split; [reflexivity|]. repeat split.
        -- intros k Hk. rewrite description_attr_with, Hd0.
           apply dict_find_set_other. now apply eqb_neq_sym.
        -- intros k Hk _. rewrite root_attr_with, Hr0;
             [reflexivity|now apply eqb_neq_sym].
        -- discriminate.
        -- intros _. rewrite root_attr_with, Hr0; reflexivity.
    + cbn [normalize existsb ret bind app outcome snd].
      eexists. split; [reflexivity|]. repeat split.
      * intros k Hk. rewrite description_attr_with, Hd0.
        apply dict_find_set_other. now apply eqb_neq_sym.
      * intros k Hk Hk'. rewrite root_attr_with, Hr0;
          [|now apply eqb_neq_sym].
        apply dict_find_set_other. now apply eqb_neq_sym.
      * intros _. rewrite root_attr_with by reflexivity.
        apply dict_find_set_same.
      * intros H. now contradiction H.
  - unfold _remove_subscriber, is_subscriber, members.
    rewrite He, Hm, Hprop. cbn [call bind]. rewrite Hrdf, Hdesc.
    unfold dict_get at 1.
    destruct (dict_find description "rtc_cm:subscribers")
      as [[| | | |l|sub]|] eqn:Hfind; try discriminate.
    + unfold wire_ok in Hwire. apply andb_prop in Hwire as [Hlen Hall].
      cbn [py_iter normalize]. rewrite (scan_missing_members m l Hall).
      cbn [lift bind ret app].
      destruct (find (refers_to (member_url m)) l) as [x|] eqn:Hx.
      * rewrite (list_remove_found _ l x Hall Hx).
        rewrite (find_some_existsb _ _ _ Hx).
        cbn [lift bind ret app negb outcome snd].
        eexists. split; [reflexivity|]. split.
        -- intros k Hk. rewrite description_attr_with, Hd0.
           apply dict_find_set_other. now apply eqb_neq_sym.
        -- intros k Hk. rewrite root_attr_with, Hr0;
             [reflexivity|now apply eqb_neq_sym].
      * rewrite (find_none_existsb _ _ Hx). cbn [negb outcome snd].
        exists (PDict raw). repeat split; auto.
    + cbn [normalize existsb].
      rewrite (check_missing_member m (PDict sub) Hwire), orb_false_r.
      cbn [lift bind ret app outcome snd].
      destruct (refers_to (member_url m) (PDict sub)); cbn [negb].
      * eexists. split; [reflexivity|]. split.
        -- intros k Hk. rewrite description_attr_with, Hd0.
           apply dict_find_pop_other. now apply eqb_neq_sym.
        -- intros k Hk. rewrite root_attr_with, Hr0;
             [reflexivity|now apply eqb_neq_sym].
      * exists (PDict raw). repeat split; auto.
    + cbn [normalize existsb ret bind app negb outcome snd].
      exists (PDict raw). repeat split; auto.
Qed.

Lemma helpers_frame_witness :
  exists doc',
    outcome (_add_subscriber (Demo.item PNone PNone) (PStr "a@x.com")
               (Demo.doc None))
    = Ok (false, doc')
    /\ description_attr doc' "@rdf:about" = Some (PStr Demo.item_url)
    /\ root_attr doc' "@xmlns:rtc_cm" = Some (PStr rtc_cm_ns).
Proof.
  destruct (helpers_frame (Demo.item PNone PNone) (PStr "a@x.com") "a@x.com"
              {| member_url := Demo.person_url "a@x.com";
                 member_email := "a@x.com" |}
              (Demo.doc None) eq_refl eq_refl eq_refl)
    as [(doc' & Hrun & Hdesc & _ & Hns & _) _].
  exists doc'. split; [exact Hrun|]. split.
  - rewrite (Hdesc "@rdf:about"); [reflexivity|discriminate].
  - apply Hns. reflexivity.
Defined.

